(** * Agricultural grant research pipeline

    A shallow embedding of [grant-research.ts] (query generation, search,
    grant extraction, aggregation, report writing) and of the streaming task
    of the [POST /api/research/grants] route, followed by the properties
    proved about them.

    Asynchronous functions are modelled as computations of a state and
    exception monad: [await] is sequencing, a rejected promise is a thrown
    value, and a thrown value is an [Error] object.  The language model,
    the search service, the clock and [JSON.stringify] are external and
    appear as the fields of [Services].  Numbers are integers: counts are
    [nat], [numQueries], which comes from the request body, is [Z]. *)

From Stdlib Require Import String Ascii List ZArith Lia Bool Arith DecimalString.
Import ListNotations.
Local Open Scope string_scope.
Local Open Scope list_scope.

(** ** ECMAScript and lodash built-ins used by the sources *)

Module JS.

Definition LF : string := String (ascii_of_nat 10) EmptyString.
Definition DQ : string := String (ascii_of_nat 34) EmptyString.

(** [Array.prototype.join] on an array of strings. *)
Fixpoint join (sep : string) (l : list string) : string :=
  match l with
  | [] => EmptyString
  | x :: rest =>
      match rest with
      | [] => x
      | _ :: _ => x ++ sep ++ join sep rest
      end
  end.

(** [Array.prototype.slice(0, end)] for an integral [end]: a negative
    [end] counts from the end of the array. *)
Definition slice0 {A : Type} (l : list A) (end_ : Z) : list A :=
  let len := Z.of_nat (length l) in
  let final := if (end_ <? 0)%Z then Z.max (len + end_) 0 else Z.min end_ len in
  firstn (Z.to_nat final) l.

(** [array.map((x, i) => f(x, i))], the index starting at [i]. *)
Fixpoint mapi_from {A B : Type} (i : nat) (f : A -> nat -> B) (l : list A) : list B :=
  match l with
  | [] => []
  | x :: rest => f x i :: mapi_from (S i) f rest
  end.

Definition mapi {A B : Type} (f : A -> nat -> B) (l : list A) : list B :=
  mapi_from 0 f l.

(** Truthiness of an optional string: [undefined] and the empty string
    are falsy. *)
Definition truthy (o : option string) : bool :=
  match o with
  | Some s => negb (s =? EmptyString)
  | None => false
  end.

(** lodash [compact] on an array of optional strings. *)
Fixpoint compact (l : list (option string)) : list string :=
  match l with
  | [] => []
  | Some s :: rest => if s =? EmptyString then compact rest else s :: compact rest
  | None :: rest => compact rest
  end.

(** [array.filter(x => x != null)]. *)
Fixpoint filter_non_null {A : Type} (l : list (option A)) : list A :=
  match l with
  | [] => []
  | Some x :: rest => x :: filter_non_null rest
  | None :: rest => filter_non_null rest
  end.

(** Template-literal conversion of a number to a string, for integers
    of magnitude below 10^21: from there on [Number::toString] prints
    the exponent form, where these print all the digits. *)
Definition string_of_nat (n : nat) : string := NilZero.string_of_uint (Nat.to_uint n).
Definition string_of_Z (z : Z) : string := NilZero.string_of_int (Z.to_int z).

(** A [Map] with string keys is an insertion-ordered list of entries.
    [Map.prototype.set] replaces the value of a key that is present, in
    place, and appends an entry for a key that is absent. *)
Definition Map (V : Type) : Type := list (string * V).

Fixpoint Map_set {V : Type} (k : string) (v : V) (m : Map V) : Map V :=
  match m with
  | [] => [(k, v)]
  | (k', v') :: m' =>
      if k' =? k then (k', v) :: m' else (k', v') :: Map_set k v m'
  end.

(** [new Map(entries)]: the entries are [set] one by one. *)
Definition Map_new {V : Type} (entries : list (string * V)) : Map V :=
  fold_left (fun m kv => Map_set (fst kv) (snd kv) m) entries [].

Definition Map_values {V : Type} (m : Map V) : list V := map snd m.
Definition Map_keys {V : Type} (m : Map V) : list string := map fst m.

Fixpoint Map_get {V : Type} (k : string) (m : Map V) : option V :=
  match m with
  | [] => None
  | (k', v') :: m' => if k' =? k then Some v' else Map_get k m'
  end.

(** A [Set] of strings is an insertion-ordered list without repetition. *)
Definition Set_add (x : string) (s : list string) : list string :=
  if existsb (String.eqb x) s then s else s ++ [x].

Definition Set_new (l : list string) : list string :=
  fold_left (fun s x => Set_add x s) l [].

(** An [Error] object and [Error.prototype.toString], which is what the
    template literal [`${e}`] calls. *)
Record Error : Type := { error_name : string; error_message : string }.

Definition Error_toString (e : Error) : string :=
  if error_name e =? EmptyString then error_message e
  else if error_message e =? EmptyString then error_name e
  else error_name e ++ ": " ++ error_message e.

End JS.

(** ** Data model *)

(** [GrantInfo].  The structured version of the file names the field of
    the application steps [applicationProcessSteps]; the template version,
    followed here, names it [applicationProcess]. *)
Record GrantInfo : Type := {
  name : string;
  description : string;
  eligibilityRequirements : list string;
  applicationProcess : list string;
  deadlines : list string;
  fundingAmount : string;
  contactInformation : string;
  applicationUrl : string
}.

Record GrantResearchResult : Type := {
  grants : list GrantInfo;
  visitedUrls : list string
}.

Module SerpQuery.
Record t : Type := { query : string; targetGoal : string }.
End SerpQuery.

(** The part of a Firecrawl document the pipeline reads. *)
Record FirecrawlDocument : Type := {
  markdown : option string;
  url : option string
}.

Record SearchResponse : Type := { data : list FirecrawlDocument }.

Record SearchParams : Type := {
  timeout : N;
  limit : nat;
  formats : list string
}.

Record GrantTemplate : Type := {
  applicationTemplate : string;
  additionalTips : list string
}.

(** The report object of the structured variant of [writeGrantReport]. *)
Module GrantOpportunity.
Record t : Type := {
  name : string;
  description : string;
  eligibilityRequirements : list string;
  applicationProcessSteps : list string;
  deadlines : list string;
  fundingAmount : string;
  contactInformation : string;
  applicationUrl : string;
  relevanceScore : Z;
  keyTakeaways : list string
}.
End GrantOpportunity.

Inductive Priority : Type := High | Medium | Low.

Record NextStep : Type := {
  step : string;
  priority : Priority;
  explanation : string
}.

Record StructuredReport : Type := {
  executiveSummary : string;
  grantOpportunities : list GrantOpportunity.t;
  eligibilityAnalysis : string;
  nextSteps : list NextStep;
  sources : list string
}.

(** The schemas passed to [generateObject] and the type of the object each
    one validates. *)
Inductive Schema : Type :=
| QueriesSchema
| GrantsSchema
| TemplateSchema
| ReportMarkdownSchema
| StructuredReportSchema.

Definition ObjectOf (sch : Schema) : Type :=
  match sch with
  | QueriesSchema => list SerpQuery.t
  | GrantsSchema => list GrantInfo
  | TemplateSchema => GrantTemplate
  | ReportMarkdownSchema => string
  | StructuredReportSchema => StructuredReport
  end.

(** The values of the fields of the objects handed to [JSON.stringify]. *)
Inductive JsonValue : Type :=
| JString (s : string)
| JBool (b : bool)
| JReport (r : StructuredReport).

Definition JsonObject : Type := list (string * JsonValue).

Inductive Outcome (A : Type) : Type :=
| Ok (a : A)
| Throw (e : JS.Error).

Arguments Ok {A} a.
Arguments Throw {A} e.

(** ** External services and the effect monad *)

(** The options of a [generateObject] call, the schema and the model apart. *)
Record CallOptions : Type := {
  abortSignal : option N;
  system : string;
  prompt : string
}.

(** What a run does to the outside, in the order it does it. *)
Inductive Event : Type :=
| GenerateObject (sch : Schema) (options : CallOptions)
| FirecrawlSearch (q : string) (params : SearchParams)
| OnProgress (update : string)
| ConsoleError (msg : string) (e : JS.Error)
| ConsoleLog (msg : string)
| WriterWrite (chunk : string)
| WriterClose.

(** The collaborators the sources import and do not define: the [ai] SDK,
    the Firecrawl client, the system clock, [trimPrompt] of
    [./ai/providers] and [JSON.stringify].  [World] is the state of the
    outside (services, clock, environment variables); a call may change it
    and may reject. *)
Class Services : Type := {
  World : Type;
  Model : Type;
  Date_toISOString : World -> string;
  generateObject :
    forall sch : Schema, Model -> CallOptions -> World -> World * Outcome (ObjectOf sch);
  firecrawl_search :
    option string -> string -> SearchParams -> World -> World * Outcome SearchResponse;
  trimPrompt : string -> N -> string;
  JSON_stringify : JsonObject -> string
}.

(** The two versions of [grant-research.ts] differ in the default number of
    queries and the number of pages asked of the search service, and in
    [writeGrantReport]. *)
Inductive Variant : Type := Structured | Template.

Definition defaultNumQueries (v : Variant) : Z :=
  match v with Structured => 2%Z | Template => 5%Z end.

Definition searchLimit (v : Variant) : nat :=
  match v with Structured => 2 | Template => 5 end.

(** [formatProgress]: the progress messages. *)
Module formatProgress.

Definition generating (count : Z) (query : string) : string :=
  ("Generating up to " ++ JS.string_of_Z count ++ " grant-related SERP queries" ++ JS.LF ++
   query)%string.

Definition created (count : nat) (queries : string) : string :=
  ("Created " ++ JS.string_of_nat count ++ " grant-related SERP queries" ++ JS.LF ++
   queries)%string.

Definition researching (query : string) : string :=
  ("Researching agricultural grants" ++ JS.LF ++ query)%string.

Definition found (count : nat) (query : string) : string :=
  ("Found " ++ JS.string_of_nat count ++ " potential grant resources" ++ JS.LF ++
   query)%string.

Definition ran (query : string) (count : nat) : string :=
  ("Ran " ++ JS.DQ ++ query ++ JS.DQ ++ JS.LF ++
   JS.string_of_nat count ++ " content items found")%string.

Definition analyzed (count : nat) : string :=
  ("Analyzed " ++ JS.string_of_nat count ++
   " potential grants for eligibility and requirements")%string.

Definition generated (count : nat) : string :=
  ("Found " ++ JS.string_of_nat count ++ " relevant agricultural grants")%string.

End formatProgress.

(** The error with which a [WritableStreamDefaultWriter] rejects [write]
    and [close] once its stream is closed. *)
Definition closed_stream_error : JS.Error :=
  {| JS.error_name := "TypeError";
     JS.error_message := "Invalid state: WritableStream is closed" |}.

Section Pipeline.

Context `{Sv : Services}.

(** The state a request runs in: the outside world, the trace of what was
    done to it, and the writer of the response stream with the chunks it
    accepted. *)
Record State : Type := {
  world : World;
  events : list Event;
  writer_closed : bool;
  chunks : list string
}.

Definition M (A : Type) : Type := State -> State * Outcome A.

Definition ret {A : Type} (a : A) : M A := fun s => (s, Ok a).

Definition bind {A B : Type} (m : M A) (k : A -> M B) : M B :=
  fun s =>
    match m s with
    | (s', Ok a) => k a s'
    | (s', Throw e) => (s', Throw e)
    end.

(** [try { body } catch (e) { handler }] *)
Definition try_catch {A : Type} (body : M A) (handler : JS.Error -> M A) : M A :=
  fun s =>
    match body s with
    | (s', Ok a) => (s', Ok a)
    | (s', Throw e) => handler e s'
    end.

(** [try { body } finally { cleanup }]: [cleanup] runs however [body]
    ends, and an error it throws replaces the outcome of [body]. *)
Definition try_finally {A : Type} (body : M A) (cleanup : M unit) : M A :=
  fun s =>
    match body s with
    | (s', r) =>
        match cleanup s' with
        | (s'', Ok _) => (s'', r)
        | (s'', Throw e) => (s'', Throw e)
        end
    end.

Definition log (ev : Event) : M unit :=
  fun s =>
    ({| world := world s; events := events s ++ [ev];
        writer_closed := writer_closed s; chunks := chunks s |}, Ok tt).

(** A call to a service is recorded, then answered by the world. *)
Definition external {A : Type} (ev : Event) (call : World -> World * Outcome A) : M A :=
  fun s =>
    match call (world s) with
    | (w, r) =>
        ({| world := w; events := events s ++ [ev];
            writer_closed := writer_closed s; chunks := chunks s |}, r)
    end.

Definition console_error (msg : string) (e : JS.Error) : M unit := log (ConsoleError msg e).
Definition console_log (msg : string) : M unit := log (ConsoleLog msg).

(** [writer.write(chunk)] *)
Definition writer_write (chunk : string) : M unit :=
  fun s =>
    if writer_closed s then
      ({| world := world s; events := events s ++ [WriterWrite chunk];
          writer_closed := true; chunks := chunks s |}, Throw closed_stream_error)
    else
      ({| world := world s; events := events s ++ [WriterWrite chunk];
          writer_closed := false; chunks := chunks s ++ [chunk] |}, Ok tt).

(** [writer.close()] *)
Definition writer_close : M unit :=
  fun s =>
    ({| world := world s; events := events s ++ [WriterClose];
        writer_closed := true; chunks := chunks s |},
     if writer_closed s then Throw closed_stream_error else Ok tt).

End Pipeline.

Declare Scope js_scope.
Delimit Scope js_scope with js.
Notation "x <- m ;; k" := (bind m (fun x => k))
  (at level 61, m at next level, right associativity) : js_scope.
Notation "m ;; k" := (bind m (fun _ => k))
  (at level 61, right associativity) : js_scope.

(** ** [grant-research.ts] *)

Section GrantResearch.

Context `{Sv : Services}.
Variable variant : Variant.

Local Open Scope js_scope.

(** The optional progress callback.  Each call of it is recorded in the
    trace before the callback runs. *)
Definition Callback : Type := string -> M unit.

Definition notify (onProgress : option Callback) (update : string) : M unit :=
  match onProgress with
  | Some callback => log (OnProgress update) ;; callback update
  | None => ret tt
  end.

Definition call_generateObject (sch : Schema) (model : Model) (options : CallOptions)
  : M (ObjectOf sch) :=
  external (GenerateObject sch options) (generateObject sch model options).

Definition call_search (firecrawlKey : option string) (q : string) (params : SearchParams)
  : M SearchResponse :=
  external (FirecrawlSearch q params) (firecrawl_search firecrawlKey q params).

(** The text of [grantResearchPrompt()] when the clock reads [now]. *)
Definition grantResearchPromptAt (now : string) : string :=
 ("You are an expert grant researcher specializing in agricultural grants for farms and ranches. Today is " ++ now ++ ". Follow these instructions when responding:" ++ JS.LF ++
  "  - Focus on identifying grants, funding opportunities, and financial assistance programs for agricultural businesses." ++ JS.LF ++
  "  - Pay special attention to eligibility requirements, application deadlines, and submission processes." ++ JS.LF ++
  "  - Be highly detailed when describing grant requirements and application steps." ++ JS.LF ++
  "  - Extract specific dollar amounts, deadlines, and eligibility criteria wherever possible." ++ JS.LF ++
  "  - Always capture the exact URL where users can apply for the grant." ++ JS.LF ++
  "  - When research is complete, organize information in a way that helps farmers and ranchers quickly determine if they qualify." ++ JS.LF ++
  "  - For each grant, provide a template or outline that users can use as a starting point for their application." ++ JS.LF ++
  "  - Verify that sources are official government websites, agricultural organizations, or reputable funding institutions." ++ JS.LF ++
  "  - Prioritize currently available grants over expired opportunities.")%string.

Definition grantResearchPrompt : M string :=
  fun s => (s, Ok (grantResearchPromptAt (Date_toISOString (world s)))).

Definition farmTypeLine (farmType : option string) : string :=
  match farmType with
  | Some t => if JS.truthy farmType then ("Farm/Ranch Type: " ++ t)%string else EmptyString
  | None => EmptyString
  end.

Definition locationLine (location : option string) : string :=
  match location with
  | Some l => if JS.truthy location then ("Location: " ++ l)%string else EmptyString
  | None => EmptyString
  end.

Definition queriesPrompt (query : string) (farmType location : option string)
    (numQueries : Z) : string :=
 ("Generate SERP queries to find agricultural grants and funding opportunities for the following farm/ranch: " ++ JS.LF ++
  "    " ++ JS.LF ++
  "    <farm_details>" ++ JS.LF ++
  "    " ++ query ++ JS.LF ++
  "    " ++ farmTypeLine farmType ++ JS.LF ++
  "    " ++ locationLine location ++ JS.LF ++
  "    </farm_details>" ++ JS.LF ++
  "    " ++ JS.LF ++
  "    Return specific search queries that will help find grants this farm or ranch might be eligible for. Focus on:" ++ JS.LF ++
  "    1. Federal agricultural grants" ++ JS.LF ++
  "    2. State-specific funding programs (if location is provided)" ++ JS.LF ++
  "    3. Grants for specific types of farming/ranching operations" ++ JS.LF ++
  "    4. Sustainable agriculture grants" ++ JS.LF ++
  "    5. Rural development funding" ++ JS.LF ++
  "    " ++ JS.LF ++
  "    Return a maximum of " ++ JS.string_of_Z numQueries ++ " queries.")%string.

Definition queriesOptions (system query : string) (farmType location : option string)
    (numQueries : Z) : CallOptions :=
  {| abortSignal := None;
     system := system;
     prompt := queriesPrompt query farmType location numQueries |}.

(** [generateGrantQueries]; [numQueries] defaults to 5. *)
Definition generateGrantQueries (query : string) (farmType location : option string)
    (numQueries : option Z) (onProgress : option Callback) (model : Model)
  : M (list string) :=
  let numQueries := match numQueries with Some n => n | None => 5%Z end in
  notify onProgress (formatProgress.generating numQueries query) ;;
  system <- grantResearchPrompt ;;
  res <- call_generateObject QueriesSchema model
           (queriesOptions system query farmType location numQueries) ;;
  let queriesList := JS.join ", " (map SerpQuery.query res) in
  notify onProgress (formatProgress.created (length res) queriesList) ;;
  ret (map SerpQuery.query (JS.slice0 res numQueries)).

Definition extractionPrompt (contents : list string) : string :=
 ("Extract information about agricultural grants and funding opportunities from the following search results:" ++ JS.LF ++
  "    " ++ JS.LF ++
  "    <search_results>" ++ JS.LF ++
  "    " ++ JS.join JS.LF
             (map (fun content => "<content>" ++ JS.LF ++ content ++ JS.LF ++ "</content>")
                  contents) ++ JS.LF ++
  "    </search_results>" ++ JS.LF ++
  "    " ++ JS.LF ++
  "    For each grant or funding opportunity you find, extract the following information:" ++ JS.LF ++
  "    1. Name of the grant/program" ++ JS.LF ++
  "    2. Brief description" ++ JS.LF ++
  "    3. Eligibility requirements" ++ JS.LF ++
  "    4. Application process steps" ++ JS.LF ++
  "    5. Important deadlines" ++ JS.LF ++
  "    6. Funding amount/range" ++ JS.LF ++
  "    7. Contact information" ++ JS.LF ++
  "    8. Direct URL to apply" ++ JS.LF ++
  "    " ++ JS.LF ++
  "    Only include grants that are currently available and relevant to farms or ranches. If certain information is not available, indicate that with " ++ JS.DQ ++ "Not specified" ++ JS.DQ ++ ".")%string.

(** The page texts [processGrantResults] keeps: those [compact] leaves,
    each cut by [trimPrompt]. *)
Definition contentsOf (result : SearchResponse) : list string :=
  map (fun content => trimPrompt content 25000%N)
      (JS.compact (map markdown (data result))).

Definition extractionOptions (system : string) (contents : list string) : CallOptions :=
  {| abortSignal := Some 60000%N;
     system := system;
     prompt := extractionPrompt contents |}.

(** [processGrantResults] *)
Definition processGrantResults (query : string) (result : SearchResponse)
    (onProgress : option Callback) (model : Model) : M GrantResearchResult :=
  let contents := contentsOf result in
  notify onProgress (formatProgress.ran query (length contents)) ;;
  if (length contents =? 0)%nat then
    ret {| grants := []; visitedUrls := [] |}
  else
    system <- grantResearchPrompt ;;
    res <- call_generateObject GrantsSchema model (extractionOptions system contents) ;;
    notify onProgress (formatProgress.generated (length res)) ;;
    ret {| grants := res;
           visitedUrls := JS.filter_non_null (map url (data result)) |}.

Definition templatePrompt (grantInfo : GrantInfo) (farmDetails : string) : string :=
 ("Create a template for a grant application based on the following grant information and farm details:" ++ JS.LF ++
  "    " ++ JS.LF ++
  "    <grant_information>" ++ JS.LF ++
  "    Name: " ++ name grantInfo ++ JS.LF ++
  "    Description: " ++ description grantInfo ++ JS.LF ++
  "    Eligibility Requirements: " ++ JS.join JS.LF (eligibilityRequirements grantInfo) ++ JS.LF ++
  "    Application Process: " ++ JS.join JS.LF (applicationProcess grantInfo) ++ JS.LF ++
  "    Deadlines: " ++ JS.join JS.LF (deadlines grantInfo) ++ JS.LF ++
  "    Funding Amount: " ++ fundingAmount grantInfo ++ JS.LF ++
  "    </grant_information>" ++ JS.LF ++
  "    " ++ JS.LF ++
  "    <farm_details>" ++ JS.LF ++
  "    " ++ farmDetails ++ JS.LF ++
  "    </farm_details>" ++ JS.LF ++
  "    " ++ JS.LF ++
  "    Provide a well-structured template that the farm/ranch owner can use as a starting point for their grant application. Include sections for:" ++ JS.LF ++
  "    1. Project Summary/Abstract" ++ JS.LF ++
  "    2. Farm/Ranch Background" ++ JS.LF ++
  "    3. Project Description" ++ JS.LF ++
  "    4. Budget Justification" ++ JS.LF ++
  "    5. Expected Outcomes" ++ JS.LF ++
  "    6. Timeline" ++ JS.LF ++
  "    " ++ JS.LF ++
  "    For each section, include sample content based on the farm details provided, but leave appropriate placeholders for specific information the applicant will need to add.")%string.

(** [generateGrantTemplate] *)
Definition generateGrantTemplate (grantInfo : GrantInfo) (farmDetails : string)
    (model : Model) : M GrantTemplate :=
  system <- grantResearchPrompt ;;
  call_generateObject TemplateSchema model
    {| abortSignal := None;
       system := system;
       prompt := templatePrompt grantInfo farmDetails |}.

(** The arrays [allGrants] and [allVisitedUrls] the loop pushes to. *)
Definition Accumulated : Type := (list GrantInfo * list string)%type.

Definition searchParams : SearchParams :=
  {| timeout := 15000%N; limit := searchLimit variant; formats := ["markdown"] |}.

(** The body of the [try] block of one iteration.  The two [push] calls
    are its last statements and cannot throw, so an iteration that throws
    leaves the arrays as they were. *)
Definition tryQuery (onProgress : option Callback) (model : Model)
    (firecrawlKey : option string) (serpQuery : string) (acc : Accumulated)
  : M Accumulated :=
  notify onProgress (formatProgress.researching serpQuery) ;;
  searchResults <- call_search firecrawlKey serpQuery searchParams ;;
  notify onProgress (formatProgress.found (length (data searchResults)) serpQuery) ;;
  if (0 <? length (data searchResults))%nat then
    r <- processGrantResults serpQuery searchResults onProgress model ;;
    ret ((fst acc ++ grants r)%list, (snd acc ++ visitedUrls r)%list)
  else
    ret acc.

Definition queryErrorMessage (serpQuery : string) (e : JS.Error) : string :=
  ("Error researching grants with " ++ JS.DQ ++ serpQuery ++ JS.DQ ++ ": " ++
   JS.Error_toString e)%string.

(** The [catch] block of one iteration. *)
Definition catchQuery (onProgress : option Callback) (serpQuery : string)
    (acc : Accumulated) (e : JS.Error) : M Accumulated :=
  console_error ("Error running grant query: " ++ serpQuery ++ ": ")%string e ;;
  notify onProgress (queryErrorMessage serpQuery e) ;;
  ret acc.

(** [for (const serpQuery of serpQueries) { try { ... } catch (e) { ... } }] *)
Fixpoint forEachQuery (onProgress : option Callback) (model : Model)
    (firecrawlKey : option string) (serpQueries : list string) (acc : Accumulated)
  : M Accumulated :=
  match serpQueries with
  | [] => ret acc
  | serpQuery :: rest =>
      acc' <- try_catch (tryQuery onProgress model firecrawlKey serpQuery acc)
                        (catchQuery onProgress serpQuery acc) ;;
      forEachQuery onProgress model firecrawlKey rest acc'
  end.

(** [Array.from(new Map(allGrants.map(grant => [grant.name, grant])).values())] *)
Definition uniqueGrants (allGrants : list GrantInfo) : list GrantInfo :=
  JS.Map_values (JS.Map_new (map (fun grant => (name grant, grant)) allGrants)).

(** [researchAgricultureGrants]; [numQueries] defaults to 2 in the
    structured version and to 5 in the template version.  The Firecrawl
    client is the key it was built with: the key goes to each search, and
    the environment variables the constructor reads are part of the
    world. *)
Definition researchAgricultureGrants (query : string) (farmType location : option string)
    (numQueries : option Z) (onProgress : option Callback) (model : Model)
    (firecrawlKey : option string) : M GrantResearchResult :=
  let numQueries :=
    match numQueries with Some n => n | None => defaultNumQueries variant end in
  serpQueries <- generateGrantQueries query farmType location (Some numQueries)
                   onProgress model ;;
  all <- forEachQuery onProgress model firecrawlKey serpQueries ([], []) ;;
  ret {| grants := uniqueGrants (fst all);
         visitedUrls := JS.Set_new (snd all) |}.

End GrantResearch.

(** ** [writeGrantReport] *)

Section WriteGrantReport.

Context `{Sv : Services}.

Local Open Scope js_scope.

Definition farmDetailsOf (query : string) (farmType location : option string) : string :=
 (query ++ JS.LF ++
  farmTypeLine farmType ++ JS.LF ++
  locationLine location)%string.

Definition grantBlock (grant : GrantInfo) : string :=
 (JS.LF ++
  "## " ++ name grant ++ JS.LF ++
  JS.LF ++
  description grant ++ JS.LF ++
  JS.LF ++
  "**Eligibility Requirements:**" ++ JS.LF ++
  JS.join JS.LF (map (fun req => "- " ++ req) (eligibilityRequirements grant)) ++ JS.LF ++
  JS.LF ++
  "**Application Process:**" ++ JS.LF ++
  JS.join JS.LF
    (JS.mapi (fun step i => JS.string_of_nat (i + 1) ++ ". " ++ step)
             (applicationProcess grant)) ++ JS.LF ++
  JS.LF ++
  "**Deadlines:**" ++ JS.LF ++
  JS.join JS.LF (map (fun deadline => "- " ++ deadline) (deadlines grant)) ++ JS.LF ++
  JS.LF ++
  "**Funding Amount:** " ++ fundingAmount grant ++ JS.LF ++
  JS.LF ++
  "**Contact Information:** " ++ contactInformation grant ++ JS.LF ++
  JS.LF ++
  "**Application URL:** [Apply Here](" ++ applicationUrl grant ++ ")" ++ JS.LF ++
  JS.LF ++
  "---")%string.

Definition grantsStringOf (grants : list GrantInfo) : string :=
  JS.join JS.LF (map grantBlock grants).

Record TemplateEntry : Type := {
  grantName : string;
  template : string;
  tips : list string
}.

Definition templateBlock (entry : TemplateEntry) : string :=
 (JS.LF ++
  "# Application Template for " ++ grantName entry ++ JS.LF ++
  JS.LF ++
  template entry ++ JS.LF ++
  JS.LF ++
  "## Application Tips" ++ JS.LF ++
  JS.LF ++
  JS.join JS.LF (map (fun tip => "- " ++ tip) (tips entry)) ++ JS.LF ++
  JS.LF ++
  "---")%string.

Definition templateReportPrompt (farmDetails grantsString templatesString : string)
  : string :=
 ("Create a comprehensive grant research report for a farm/ranch based on the following information:" ++ JS.LF ++
  "    " ++ JS.LF ++
  "    <farm_details>" ++ JS.LF ++
  "    " ++ farmDetails ++ JS.LF ++
  "    </farm_details>" ++ JS.LF ++
  "    " ++ JS.LF ++
  "    <grants_found>" ++ JS.LF ++
  "    " ++ grantsString ++ JS.LF ++
  "    </grants_found>" ++ JS.LF ++
  "    " ++ JS.LF ++
  "    <application_templates>" ++ JS.LF ++
  "    " ++ templatesString ++ JS.LF ++
  "    </application_templates>" ++ JS.LF ++
  "    " ++ JS.LF ++
  "    Create a well-structured report that includes:" ++ JS.LF ++
  "    1. An executive summary of available grants" ++ JS.LF ++
  "    2. Detailed information about each grant" ++ JS.LF ++
  "    3. Eligibility analysis (which grants the farm/ranch likely qualifies for)" ++ JS.LF ++
  "    4. Next steps and recommendations" ++ JS.LF ++
  "    5. Application templates" ++ JS.LF ++
  "    " ++ JS.LF ++
  "    Format the report in proper Markdown with clear headings, lists, and sections.")%string.

Definition structuredReportPrompt (farmDetails grantsString : string) : string :=
 ("Create a comprehensive grant research report for a farm/ranch based on the following information:" ++ JS.LF ++
  "    " ++ JS.LF ++
  "    <farm_details>" ++ JS.LF ++
  "    " ++ farmDetails ++ JS.LF ++
  "    </farm_details>" ++ JS.LF ++
  "    " ++ JS.LF ++
  "    <grants_found>" ++ JS.LF ++
  "    " ++ grantsString ++ JS.LF ++
  "    </grants_found>" ++ JS.LF ++
  "    " ++ JS.LF ++
  "    Analyze the farm details and available grants to create a structured report.")%string.

(** [Promise.all] over tasks that are started in order: every task runs,
    and the result is the first rejection, if there is one, or the list of
    the values.  The tasks run here one after another, so that of several
    rejections the one of the lowest index is the first; [Promise.all]
    itself rejects with the one that comes first in time. *)
Fixpoint Promise_all {A : Type} (tasks : list (M A)) : M (list A) :=
  match tasks with
  | [] => ret []
  | task :: rest =>
      fun s =>
        match task s with
        | (s1, Ok a) => (x <- Promise_all rest ;; ret (a :: x)) s1
        | (s1, Throw e) =>
            match Promise_all rest s1 with
            | (s2, _) => (s2, Throw e)
            end
        end
  end.

(** The task [writeGrantReport] starts for each of the first three grants. *)
Definition templateTask (farmDetails : string) (model : Model) (grant : GrantInfo)
  : M TemplateEntry :=
  template <- generateGrantTemplate grant farmDetails model ;;
  ret {| grantName := name grant;
         template := applicationTemplate template;
         tips := additionalTips template |}.

(** The [## Sources] section appended to the report. *)
Definition urlsSection (visitedUrls : list string) : string :=
  (JS.LF ++ JS.LF ++ "## Sources" ++ JS.LF ++ JS.LF ++
   JS.join JS.LF (map (fun url => "- " ++ url) visitedUrls))%string.

Definition reportHeader : string := "# Agricultural Grant Opportunities Report".

Definition reportOptions (system farmDetails grantsString templatesString : string)
  : CallOptions :=
  {| abortSignal := None;
     system := system;
     prompt := templateReportPrompt farmDetails grantsString templatesString |}.

(** [writeGrantReport], template version: the report is a markdown string. *)
Definition writeGrantReport (query : string) (farmType location : option string)
    (grants : list GrantInfo) (visitedUrls : list string) (model : Model) : M string :=
  let farmDetails := farmDetailsOf query farmType location in
  let grantsString := grantsStringOf grants in
  templates <- Promise_all (map (templateTask farmDetails model) (JS.slice0 grants 3)) ;;
  let templatesString := JS.join JS.LF (map templateBlock templates) in
  system <- grantResearchPrompt ;;
  reportMarkdown <- call_generateObject ReportMarkdownSchema model
                      (reportOptions system farmDetails grantsString templatesString) ;;
  ret (reportHeader ++ JS.LF ++ JS.LF ++ reportMarkdown ++ urlsSection visitedUrls)%string.

(** [writeGrantReport], structured version: the report is the object the
    model returns. *)
Definition writeGrantReport_structured (query : string) (farmType location : option string)
    (grants : list GrantInfo) (visitedUrls : list string) (model : Model)
  : M StructuredReport :=
  let farmDetails := farmDetailsOf query farmType location in
  let grantsString := grantsStringOf grants in
  system <- grantResearchPrompt ;;
  call_generateObject StructuredReportSchema model
    {| abortSignal := None;
       system := system;
       prompt := structuredReportPrompt farmDetails grantsString |}.

End WriteGrantReport.

(** ** The streaming task of [POST /api/research/grants] *)

Section Route.

Context `{Sv : Services}.
Variable variant : Variant.

Local Open Scope js_scope.

(** [`data: ${JSON.stringify(obj)}\n\n`]; the [TextEncoder] is left out
    and a chunk is the text it would encode. *)
Definition sseFrame (obj : JsonObject) : string :=
  ("data: " ++ JSON_stringify obj ++ JS.LF ++ JS.LF)%string.

(** The progress callback of the route: a failed write is logged and
    swallowed. *)
Definition onProgress : Callback :=
  fun update =>
    try_catch
      (writer_write (sseFrame [("progress", JString update)]))
      (fun e => console_error "[GRANT RESEARCH ROUTE] Error writing progress:" e).

Definition noGrantsProgress : string :=
  "No grants found. Try refining your search or providing more details about your farm/ranch.".

Definition noGrantsReport : string := "No grants found that match your criteria.".

(** The route imports [writeGrantReport] from the library; its report is
    a string in the template version and an object in the structured one. *)
Definition writeReport (query : string) (farmType location : option string)
    (grants : list GrantInfo) (visitedUrls : list string) (model : Model) : M JsonValue :=
  match variant with
  | Template =>
      report <- writeGrantReport query farmType location grants visitedUrls model ;;
      ret (JString report)
  | Structured =>
      report <- writeGrantReport_structured query farmType location grants visitedUrls
                  model ;;
      ret (JReport report)
  end.

(** The [try] block of the task. *)
Definition researchAndReport (query : string) (farmType location : option string)
    (numQueries : Z) (model : Model) (firecrawlKey : option string) : M unit :=
  grantResearchResult <- researchAgricultureGrants variant query farmType location
                           (Some numQueries) (Some onProgress) model firecrawlKey ;;
  if (length (grants grantResearchResult) =? 0)%nat then
    notify (Some onProgress) noGrantsProgress ;;
    writer_write (sseFrame [("done", JBool true); ("report", JString noGrantsReport)]) ;;
    writer_close ;;
    ret tt
  else
    notify (Some onProgress)
      ("Generating comprehensive report for " ++
       JS.string_of_nat (length (grants grantResearchResult)) ++ " grants...")%string ;;
    finalReport <- writeReport query farmType location (grants grantResearchResult)
                     (visitedUrls grantResearchResult) model ;;
    writer_write (sseFrame [("done", JBool true); ("report", finalReport)]) ;;
    console_log (JS.LF ++ "✅ [GRANT RESEARCH ROUTE] === Request Completed ===")%string ;;
    console_log ("Found " ++ JS.string_of_nat (length (grants grantResearchResult)) ++
                 " grants")%string.

(** The [catch] block of the task. *)
Definition reportFailure (e : JS.Error) : M unit :=
  console_error "[GRANT RESEARCH ROUTE] Error in research process:" e ;;
  writer_write
    (sseFrame [("error", JString ("Error in grant research: " ++ JS.Error_toString e))]).

(** The asynchronous task the route starts before it returns the
    response: [try { ... } catch (e) { ... } finally { await writer.close() }].
    [numQueries] is 5 when the request body has none. *)
Definition researchTask (query : string) (farmType location : option string)
    (numQueries : option Z) (model : Model) (firecrawlKey : option string) : M unit :=
  let numQueries := match numQueries with Some n => n | None => 5%Z end in
  try_finally
    (try_catch
       (researchAndReport query farmType location numQueries model firecrawlKey)
       reportFailure)
    writer_close.

(** The state in which the task starts: nothing done yet, the writer of a
    new [TransformStream] open. *)
Definition initialState (w : World) : State :=
  {| world := w; events := []; writer_closed := false; chunks := [] |}.

End Route.

(** ** Observations on traces *)

Definition isModelCall (ev : Event) : bool :=
  match ev with GenerateObject _ _ => true | _ => false end.

Definition isClose (ev : Event) : bool :=
  match ev with WriterClose => true | _ => false end.

Definition isServiceCall (ev : Event) : bool :=
  match ev with GenerateObject _ _ | FirecrawlSearch _ _ => true | _ => false end.

Definition isWriterCall (ev : Event) : bool :=
  match ev with WriterWrite _ | WriterClose => true | _ => false end.

Definition modelCalls (evs : list Event) : list Event := filter isModelCall evs.

Definition closeCalls (evs : list Event) : nat := length (filter isClose evs).

(** ** The iterations of the research loop

    Specification devices: they name what a run of the loop of
    [researchAgricultureGrants] did, query by query. *)

Section Iterations.

Context `{Sv : Services}.
Variable variant : Variant.

(** The outcome of each iteration of the loop started in state [s], in
    order: what the [try] block of the iteration pushed to the two
    arrays, or the error it threw.  An error thrown by the [catch] block
    ends the loop. *)
Fixpoint iterations (onProgress : option Callback) (model : Model)
    (firecrawlKey : option string) (serpQueries : list string) (s : State)
  : list (string * Outcome Accumulated) :=
  match serpQueries with
  | [] => []
  | serpQuery :: rest =>
      match tryQuery variant onProgress model firecrawlKey serpQuery ([], []) s with
      | (s1, Ok pushed) =>
          (serpQuery, Ok pushed) :: iterations onProgress model firecrawlKey rest s1
      | (s1, Throw e) =>
          (serpQuery, Throw e) ::
          match catchQuery onProgress serpQuery ([], []) e s1 with
          | (s2, Ok _) => iterations onProgress model firecrawlKey rest s2
          | (s2, Throw _) => []
          end
      end
  end.

(** What the iterations that did not throw pushed, concatenated. *)
Definition pushedGrants (its : list (string * Outcome Accumulated)) : list GrantInfo :=
  flat_map (fun it => match snd it with Ok pushed => fst pushed | Throw _ => [] end) its.

Definition pushedUrls (its : list (string * Outcome Accumulated)) : list string :=
  flat_map (fun it => match snd it with Ok pushed => snd pushed | Throw _ => [] end) its.

(** A progress emitter, as the route's callback is one: it always
    resolves, leaves the services alone, and what it adds to the trace is
    no call to a service. *)
Definition ProgressEmitter (callback : Callback) : Prop :=
  forall (update : string) (s : State),
    exists s' evs,
      callback update s = (s', Ok tt) /\
      world s' = world s /\
      events s' = events s ++ evs /\
      forallb (fun ev => negb (isServiceCall ev)) evs = true.

(** A callback that may be absent and is a progress emitter when present. *)
Definition EmitterOrNone (onProgress : option Callback) : Prop :=
  match onProgress with
  | Some callback => ProgressEmitter callback
  | None => True
  end.

(** A computation respects a relation on states when each of its runs
    takes a state to a related one, whatever the outcome. *)
Definition Respects (R : State -> State -> Prop) {A : Type} (m : M A) : Prop :=
  forall s, R s (fst (m s)).

(** The trace only grows. *)
Definition traceGrows (s s' : State) : Prop :=
  exists evs, events s' = events s ++ evs.

(** The writer is open or closed as it was and [close] was not called. *)
Definition writerKept (s s' : State) : Prop :=
  writer_closed s' = writer_closed s /\
  closeCalls (events s') = closeCalls (events s).

(** No call to the model is taken back. *)
Definition modelCallsGrow (s s' : State) : Prop :=
  length (modelCalls (events s)) <= length (modelCalls (events s')).

(** A page without text: [compact] drops its [markdown]. *)
Definition lacksContent (page : FirecrawlDocument) : bool :=
  negb (JS.truthy (markdown page)).

End Iterations.

(** ** Scripted services

    A concrete instance of [Services], on which the pipeline runs by
    computation: the world is a script that says what the model and the
    search service answer. *)

Module Scenario.

Record Script : Type := {
  queriesAnswer : list SerpQuery.t;
  searchAnswer : string -> Outcome SearchResponse;
  extractionAnswer : nat -> Outcome (list GrantInfo);
  extractionsDone : nat
}.

Definition afterExtraction (w : Script) : Script :=
  {| queriesAnswer := queriesAnswer w;
     searchAnswer := searchAnswer w;
     extractionAnswer := extractionAnswer w;
     extractionsDone := S (extractionsDone w) |}.

Definition emptyReport : StructuredReport :=
  {| executiveSummary := "Summary";
     grantOpportunities := [];
     eligibilityAnalysis := "Analysis";
     nextSteps := [];
     sources := [] |}.

Definition answerOf (sch : Schema) (w : Script) : Script * Outcome (ObjectOf sch) :=
  match sch return Script * Outcome (ObjectOf sch) with
  | QueriesSchema => (w, Ok (queriesAnswer w))
  | GrantsSchema => (afterExtraction w, extractionAnswer w (extractionsDone w))
  | TemplateSchema =>
      (w, Ok {| applicationTemplate := "## Project Summary";
                additionalTips := ["Apply early"] |})
  | ReportMarkdownSchema => (w, Ok "## Executive Summary")
  | StructuredReportSchema => (w, Ok emptyReport)
  end.

(** A rendering of the objects of the route whose strings need no
    escaping. *)
Definition stringifyValue (v : JsonValue) : string :=
  match v with
  | JString text => (JS.DQ ++ text ++ JS.DQ)%string
  | JBool true => "true"
  | JBool false => "false"
  | JReport _ => "{}"
  end.

Definition stringify (obj : JsonObject) : string :=
  ("{" ++
   JS.join ","
     (map (fun field => JS.DQ ++ fst field ++ JS.DQ ++ ":" ++ stringifyValue (snd field))
          obj) ++
   "}")%string.

Definition services : Services :=
  {| World := Script;
     Model := unit;
     Date_toISOString := fun _ => "2025-03-01T12:00:00.000Z";
     generateObject := fun sch _ _ w => answerOf sch w;
     firecrawl_search := fun _ q _ w => (w, searchAnswer w q);
     trimPrompt := fun text _ => text;
     JSON_stringify := stringify |}.

Definition grant (grantName text : string) : GrantInfo :=
  {| name := grantName;
     description := text;
     eligibilityRequirements := ["Agricultural producer"];
     applicationProcess := ["Register"; "Submit the application"];
     deadlines := ["Not specified"];
     fundingAmount := "Up to $250,000";
     contactInformation := "Not specified";
     applicationUrl := "https://www.rd.usda.gov/vapg" |}.

Definition vapgFirst : GrantInfo :=
  grant "USDA Value-Added Producer Grant" "Found by the first query".
Definition vapgSecond : GrantInfo :=
  grant "USDA Value-Added Producer Grant" "Found by the second query".
Definition eqip : GrantInfo :=
  grant "Environmental Quality Incentives Program" "Conservation practices".

Definition pageWithText : FirecrawlDocument :=
  {| markdown := Some "Value-Added Producer Grants help agricultural producers.";
     url := Some "https://www.rd.usda.gov/vapg" |}.
Definition pageWithoutText : FirecrawlDocument :=
  {| markdown := None; url := Some "https://example.org/scanned.pdf" |}.
Definition pageWithEmptyText : FirecrawlDocument :=
  {| markdown := Some EmptyString; url := Some "https://example.org/blank" |}.

Definition networkError : JS.Error :=
  {| JS.error_name := "Error"; JS.error_message := "network down" |}.

Definition serp (q : string) : SerpQuery.t :=
  {| SerpQuery.query := q; SerpQuery.targetGoal := "Federal programs" |}.

(** Two queries; each finds a page; the two extractions name the same
    grant. *)
Definition duplicateScript : Script :=
  {| queriesAnswer := [serp "usda grants oregon"; serp "organic farm grants"];
     searchAnswer := fun _ => Ok {| data := [pageWithText; pageWithoutText] |};
     extractionAnswer := fun i => match i with
                                  | 0 => Ok [vapgFirst]
                                  | _ => Ok [vapgSecond]
                                  end;
     extractionsDone := 0 |}.

(** Three queries; the search for the second one fails. *)
Definition failingScript : Script :=
  {| queriesAnswer := [serp "usda grants oregon"; serp "state grants"; serp "eqip"];
     searchAnswer := fun q => if (q =? "state grants")%string then Throw networkError
                              else Ok {| data := [pageWithText] |};
     extractionAnswer := fun i => match i with
                                  | 0 => Ok [vapgFirst]
                                  | _ => Ok [eqip]
                                  end;
     extractionsDone := 0 |}.

(** One query; its pages have no text. *)
Definition noTextScript : Script :=
  {| queriesAnswer := [serp "usda grants oregon"];
     searchAnswer := fun _ => Ok {| data := [pageWithoutText; pageWithEmptyText] |};
     extractionAnswer := fun _ => Ok [eqip];
     extractionsDone := 0 |}.

Definition farm : string := "40-acre organic vegetable farm in Oregon".

Definition start (w : Script) : @State services := @initialState services w.

(** The callback of the route, on the scripted services. *)
Definition progress : @Callback services := @onProgress services.

Definition farmType : option string := Some "Organic Vegetables".
Definition location : option string := Some "Oregon".

Definition textResult : SearchResponse :=
  {| data := [pageWithText; pageWithoutText] |}.
Definition noTextResult : SearchResponse :=
  {| data := [pageWithoutText; pageWithEmptyText] |}.

Definition reportUrls : list string :=
  ["https://www.rd.usda.gov/vapg"; "https://example.org/scanned.pdf"].

(** Runs of the template version on a script, from a new stream. *)
Abbreviation generateOn w numQueries :=
  (@generateGrantQueries services farm farmType location (Some numQueries%Z)
     (Some progress) tt (start w)).

Abbreviation researchOn w numQueries :=
  (@researchAgricultureGrants services Template farm farmType location
     (Some numQueries%Z) (Some progress) tt None (start w)).

Abbreviation iterationsOn serpQueries s :=
  (@iterations services Template (Some progress) tt None serpQueries s).

Abbreviation taskOn w :=
  (@researchTask services Template farm farmType location None tt None (start w)).

Abbreviation templatesOn w grants :=
  (@Promise_all services _
     (map (@templateTask services (farmDetailsOf farm farmType location) tt)
          (JS.slice0 grants 3))
     (start w)).

End Scenario.

(** The policy the data model of the specification words: of the grants
    that share a name, the first one met is the one kept. *)
Definition keepsFirstSeen (allGrants kept : list GrantInfo) : Prop :=
  forall g,
    In g kept ->
    exists before after,
      allGrants = before ++ g :: after /\ ~ In (name g) (map name before).

(** ** The calls to the services in a trace *)

Definition serviceCalls (evs : list Event) : list Event := filter isServiceCall evs.

(** The calls one iteration of the research loop may make for [serpQuery]:
    a search, then at most one extraction with the 60 second limit. *)
Definition iterationCalls (params : SearchParams) (serpQuery : string)
    (calls : list Event) : Prop :=
  calls = [FirecrawlSearch serpQuery params] \/
  exists options,
    calls = [FirecrawlSearch serpQuery params; GenerateObject GrantsSchema options] /\
    abortSignal options = Some 60000%N.

Definition isSearchCall (ev : Event) : bool :=
  match ev with FirecrawlSearch _ _ => true | _ => false end.

Definition searchCalls (evs : list Event) : list Event := filter isSearchCall evs.

(** The schema and the prompt of each call to the model, in order. *)
Definition callKinds (evs : list Event) : list (Schema * string) :=
  flat_map (fun ev => match ev with
                      | GenerateObject sch options => [(sch, prompt options)]
                      | _ => []
                      end) evs.

(** ** The frames of the response stream *)

Section StreamFrames.

Context `{Sv : Services}.

(** The three kinds of frame the route writes: a progress update (the
    callback), the final report (both [done] writes) and an error (the
    [catch] block of the task). *)
Definition progressFrame (update : string) : string :=
  sseFrame [("progress", JString update)].

Definition doneFrame (report : JsonValue) : string :=
  sseFrame [("done", JBool true); ("report", report)].

Definition errorFrame (e : JS.Error) : string :=
  sseFrame [("error", JString ("Error in grant research: " ++ JS.Error_toString e))].

(** The stream gained progress frames and nothing else. *)
Definition progressOnly (s s' : State) : Prop :=
  exists updates, chunks s' = chunks s ++ map progressFrame updates.

(** Nothing was written to the stream and the writer is as it was. *)
Definition streamUntouched (s s' : State) : Prop :=
  chunks s' = chunks s /\ writer_closed s' = writer_closed s.

(** The progress message the task sends before it writes the report. *)
Definition reportProgress (r : GrantResearchResult) : string :=
  ("Generating comprehensive report for " ++
   JS.string_of_nat (length (grants r)) ++ " grants...")%string.

End StreamFrames.

(** ** The handler of [POST /api/research/grants]

    The handler reads the body and two cookies, refuses the request or
    creates the model, and starts the streaming task before it returns
    the response.  It is a function of the request, of the environment
    variable [NEXT_PUBLIC_ENABLE_API_KEYS] and of [createModel], which
    [./ai/providers] defines; its result is the response together with
    the task it started, if it started one.  The fields of the body are
    absent or of their TypeScript type.  The [console.log] diagnostics of
    the handler are left out. *)

Module RequestBody.
Record t : Type := {
  query : option string;
  farmType : option string;
  location : option string;
  numQueries : option Z;
  modelId : option string
}.
End RequestBody.

(** [await req.json()] and [req.cookies.get(name)?.value]. *)
Record Request : Type := {
  json : Outcome RequestBody.t;
  cookie : string -> option string
}.

Inductive Response : Type :=
| ResponseJson (body : JsonObject) (status : nat)
| ResponseStream (headers : list (string * string)).

(** An absent value in a template literal. *)
Definition interpolate (value : option string) : string :=
  match value with Some text => text | None => "undefined" end.

Definition streamHeaders : list (string * string) :=
  [("Content-Type", "text/event-stream");
   ("Cache-Control", "no-cache");
   ("Connection", "keep-alive")].

Section Handler.

Context `{Sv : Services}.
Variable variant : Variant.
Variable createModel : string -> option string -> Outcome Model.

(** [POST].  The library puts [query] in template literals only, so an
    absent [query] is the text it interpolates to; [researchTask] takes
    the [numQueries] of the body and defaults it. *)
Definition POST (req : Request) (NEXT_PUBLIC_ENABLE_API_KEYS : option string)
  : Response * option (M unit) :=
  match json req with
  | Throw err =>
      (ResponseJson
         [("error", JString ("Error processing request: " ++ JS.Error_toString err))] 400,
       None)
  | Ok body =>
      let modelId :=
        match RequestBody.modelId body with Some id => id | None => "o3-mini" end in
      let openaiKey := cookie req "openai-key" in
      let firecrawlKey := cookie req "firecrawl-key" in
      if match NEXT_PUBLIC_ENABLE_API_KEYS with
         | Some flag => (flag =? "true")%string
         | None => false
         end
         && (negb (JS.truthy openaiKey) || negb (JS.truthy firecrawlKey))
      then
        (ResponseJson [("error", JString "API keys are required but not provided")] 401,
         None)
      else
        match createModel modelId openaiKey with
        | Throw err =>
            (ResponseJson
               [("error", JString ("Error creating model: " ++ JS.Error_toString err))]
               500,
             None)
        | Ok model =>
            (ResponseStream streamHeaders,
             Some (researchTask variant (interpolate (RequestBody.query body))
                     (RequestBody.farmType body) (RequestBody.location body)
                     (RequestBody.numQueries body) model firecrawlKey))
        end
  end.

End Handler.

(** ** The results page

    [runGrantResearch] of the grants page reads the response stream chunk
    by chunk, cuts each chunk into lines and handles the object each line
    parses to; the page of the structured report sorts the grants.
    Strings are taken as sequences of code units below 128, and the
    numbers the grants are sorted by as finite: the sign of the difference
    of two finite doubles is the sign of their exact difference, so they
    are compared as rationals. *)

From Stdlib Require QArith Lqa Sorted Permutation.

Module Page.

Definition isLineFeed (c : ascii) : bool := (c =? ascii_of_nat 10)%char.

(** [chunk.split("\n\n")]: [piece] is the part of the current piece
    already read. *)
Fixpoint splitFrom (piece : string) (chunk : string) : list string :=
  match chunk with
  | EmptyString => [piece]
  | String c rest =>
      match rest with
      | EmptyString => [(piece ++ String c EmptyString)%string]
      | String c' rest' =>
          if isLineFeed c && isLineFeed c' then piece :: splitFrom EmptyString rest'
          else splitFrom (piece ++ String c EmptyString)%string rest
      end
  end.

Definition splitBlankLines (chunk : string) : list string :=
  splitFrom EmptyString chunk.

(** The white space of ECMAScript below 128: TAB, LF, VT, FF, CR, SP. *)
Definition isWhiteSpace (c : ascii) : bool :=
  match nat_of_ascii c with
  | 9 | 10 | 11 | 12 | 13 | 32 => true
  | _ => false
  end.

(** Whether [line.trim()] is the empty string. *)
Fixpoint isBlank (line : string) : bool :=
  match line with
  | EmptyString => true
  | String c rest => isWhiteSpace c && isBlank rest
  end.

(** The rest of [text] after [pattern], when [text] starts with it. *)
Fixpoint stripPrefix (pattern text : string) : option string :=
  match pattern with
  | EmptyString => Some text
  | String p pattern' =>
      match text with
      | EmptyString => None
      | String c text' => if (p =? c)%char then stripPrefix pattern' text' else None
      end
  end.

(** [text.replace(pattern, replacement)] for a string pattern: the first
    occurrence is replaced. *)
Fixpoint replaceFirst (pattern replacement text : string) : string :=
  match stripPrefix pattern text with
  | Some rest => (replacement ++ rest)%string
  | None =>
      match text with
      | EmptyString => EmptyString
      | String c text' => String c (replaceFirst pattern replacement text')
      end
  end.

(** The lines of a chunk:
    [chunk.split('\n\n').filter(line => line.trim() !== '')
          .map(line => line.replace('data: ', ''))]. *)
Definition linesOf (chunk : string) : list string :=
  map (replaceFirst "data: " EmptyString)
      (filter (fun line => negb (isBlank line)) (splitBlankLines chunk)).

Fixpoint noLineFeed (text : string) : bool :=
  match text with
  | EmptyString => true
  | String c rest => negb (isLineFeed c) && noLineFeed rest
  end.

Record Toast : Type := {
  title : string;
  description : JsonValue;
  variant : string
}.

(** The state of the page [runGrantResearch] sets, with what it logged
    with [console.error]. *)
Record PageState : Type := {
  isLoading : bool;
  progress : JsonValue;
  report : option JsonValue;
  toasts : list Toast;
  logged : list (string * JS.Error * option string)
}.

(** [data.key] on a parsed object, which has each key once. *)
Fixpoint field (key : string) (data : JsonObject) : option JsonValue :=
  match data with
  | [] => None
  | (k, v) :: rest => if (k =? key)%string then Some v else field key rest
  end.

Definition truthyValue (value : option JsonValue) : bool :=
  match value with
  | Some (JString text) => negb (text =? EmptyString)%string
  | Some (JBool b) => b
  | Some (JReport _) => true
  | None => false
  end.

(** The three [if] statements on a parsed line. *)
Definition handleData (data : JsonObject) (st : PageState) : PageState :=
  let st1 :=
    match field "progress" data with
    | Some update =>
        if truthyValue (Some update) then
          {| isLoading := isLoading st; progress := update; report := report st;
             toasts := toasts st; logged := logged st |}
        else st
    | None => st
    end in
  let st2 :=
    if truthyValue (field "done" data) && truthyValue (field "report" data) then
      {| isLoading := false; progress := progress st1; report := field "report" data;
         toasts := toasts st1; logged := logged st1 |}
    else st1 in
  match field "error" data with
  | Some message =>
      if truthyValue (Some message) then
        {| isLoading := false; progress := progress st2; report := report st2;
           toasts := (toasts st2 ++
                      [{| title := "Error"; description := message;
                          variant := "destructive" |}])%list;
           logged := logged st2 |}
      else st2
  | None => st2
  end.

(** Whether the object of a line makes the page leave the loading
    state: the second or the third [if] sets [isLoading] to [false]. *)
Definition endsLoading (data : JsonObject) : bool :=
  (truthyValue (field "done" data) && truthyValue (field "report" data))
  || truthyValue (field "error" data).

Section Reading.

(** [JSON.parse] of a line.  A value that is no object reads as an
    object without fields; [null], whose fields cannot be read, counts as
    a failure, which the same [catch] block handles. *)
Variable JSON_parse : string -> Outcome JsonObject.

(** The body of the loop over the lines: [try { ... } catch (e) { ... }]. *)
Definition handleLine (st : PageState) (line : string) : PageState :=
  match JSON_parse line with
  | Ok data => handleData data st
  | Throw e =>
      {| isLoading := isLoading st; progress := progress st; report := report st;
         toasts := toasts st;
         logged := (logged st ++ [("Error parsing JSON:", e, Some line)])%list |}
  end.

Definition lineEndsLoading (line : string) : bool :=
  match JSON_parse line with
  | Ok data => endsLoading data
  | Throw _ => false
  end.

Definition handleChunk (st : PageState) (chunk : string) : PageState :=
  fold_left handleLine (linesOf chunk) st.

(** The [while] loop, for the chunks [reader.read()] returned. *)
Definition readChunks (chunks : list string) (st : PageState) : PageState :=
  fold_left handleChunk chunks st.

(** What [fetch] and the reads came to. *)
Inductive Fetched : Type :=
| FetchRejected (e : JS.Error)
| FetchResponded (ok : bool) (body : option (list string * option JS.Error)).

(** The outer [catch] block. *)
Definition researchFailed (e : JS.Error) (st : PageState) : PageState :=
  {| isLoading := false; progress := progress st; report := report st;
     toasts := (toasts st ++
                [{| title := "Error";
                    description :=
                      JString "Something went wrong during the grant research. Please try again.";
                    variant := "destructive" |}])%list;
     logged := (logged st ++ [("Error during grant research:", e, None)])%list |}.

(** [runGrantResearch] *)
Definition runGrantResearch (fetched : Fetched) (st : PageState) : PageState :=
  let st0 :=
    {| isLoading := true; progress := JString "Starting grant research...";
       report := report st; toasts := toasts st; logged := logged st |} in
  match fetched with
  | FetchRejected e => researchFailed e st0
  | FetchResponded false _ =>
      researchFailed {| JS.error_name := "Error";
                        JS.error_message := "Network response was not ok" |} st0
  | FetchResponded true None => st0
  | FetchResponded true (Some (chunks, None)) => readChunks chunks st0
  | FetchResponded true (Some (chunks, Some e)) =>
      researchFailed e (readChunks chunks st0)
  end.

End Reading.

(** *** The sorted grants of the structured page *)

Import QArith.QArith_base.

Inductive Met : Type := YES | NO | MAYBE.

Record EligibilityRequirement : Type := {
  requirement : string;
  isMet : Met;
  explanation : string
}.

Record Grant : Type := {
  name : string;
  grantDescription : string;
  eligibilityRequirements : list EligibilityRequirement;
  eligibilityCount : Q;
  applicationProcessSteps : list string;
  deadlines : list string;
  fundingAmount : string;
  contactInformation : string;
  applicationUrl : string;
  relevanceScore : Q;
  keyTakeaways : list string
}.

(** [Array.prototype.sort(compare)], which is stable: an element goes
    before the first element it does not come after. *)
Fixpoint insertBy {A : Type} (compare : A -> A -> Q) (x : A) (sorted : list A) : list A :=
  match sorted with
  | [] => [x]
  | y :: rest =>
      if Qle_bool (compare x y) 0 then x :: y :: rest
      else y :: insertBy compare x rest
  end.

Fixpoint sortBy {A : Type} (compare : A -> A -> Q) (l : list A) : list A :=
  match l with
  | [] => []
  | x :: rest => insertBy compare x (sortBy compare rest)
  end.

(** The comparison function of the page. *)
Definition compareGrants (a b : Grant) : Q :=
  if negb (Qeq_bool (eligibilityCount a) (eligibilityCount b)) then
    (eligibilityCount b - eligibilityCount a)%Q
  else (relevanceScore b - relevanceScore a)%Q.

(** [[...report.grantOpportunities].sort((a, b) => ...)] *)
Definition sortedGrants (grantOpportunities : list Grant) : list Grant :=
  sortBy compareGrants grantOpportunities.

(** The order the page shows the grants in: more requirements met first,
    and among grants with as many the higher score first. *)
Definition ranksBefore (a b : Grant) : Prop :=
  (eligibilityCount b < eligibilityCount a)%Q \/
  ((eligibilityCount a == eligibilityCount b)%Q /\
   (relevanceScore b <= relevanceScore a)%Q).

Definition hasRank (count score : Q) (grant : Grant) : bool :=
  Qeq_bool (eligibilityCount grant) count && Qeq_bool (relevanceScore grant) score.

End Page.

(** The text of a chunk that holds whole frames. *)
Abbreviation concatenated frames := (String.concat EmptyString frames).

Section PageStream.

Context `{Sv : Services}.
Variable JSON_parse : string -> Outcome JsonObject.

(** The objects of frames that parse back: the text of each has no line
    feed and [JSON.parse] returns the object from it. *)
Definition parseBack (objs : list JsonObject) : Prop :=
  forall obj, In obj objs ->
    Page.noLineFeed (JSON_stringify obj) = true /\
    JSON_parse (JSON_stringify obj) = Ok obj.

End PageStream.

(** ** Scripted services whose model is out of order

    The services of [Scenario], but the model rejects the calls for the
    schemas picked by [failing]. *)

Module Outage.

Import Scenario.

Definition modelDown : JS.Error :=
  {| JS.error_name := "Error"; JS.error_message := "model unavailable" |}.

Definition servicesWithout (failing : Schema -> bool) : Services :=
  {| World := Script;
     Model := unit;
     Date_toISOString := fun _ => "2025-03-01T12:00:00.000Z";
     generateObject := fun sch _ _ w =>
                         if failing sch then (w, Throw modelDown) else answerOf sch w;
     firecrawl_search := fun _ q _ w => (w, searchAnswer w q);
     trimPrompt := fun text _ => text;
     JSON_stringify := stringify |}.

(** The model cannot generate queries. *)
Definition noQueries : Services :=
  servicesWithout (fun sch => match sch with QueriesSchema => true | _ => false end).

(** The model cannot extract grants. *)
Definition noExtraction : Services :=
  servicesWithout (fun sch => match sch with GrantsSchema => true | _ => false end).

(** The model cannot write the report. *)
Definition noReport : Services :=
  servicesWithout (fun sch => match sch with ReportMarkdownSchema => true | _ => false end).

(** Runs of the template version on the script of the two queries. *)
Abbreviation researchWith services :=
  (@researchAgricultureGrants services Template farm farmType location (Some 5%Z)
     (Some (@onProgress services)) tt None (@initialState services duplicateScript)).

Abbreviation taskWith services :=
  (@researchTask services Template farm farmType location None tt None
     (@initialState services duplicateScript)).

End Outage.

(** ** A request and a stream for the page *)

Module Visit.

Import Scenario.

Definition body : RequestBody.t :=
  {| RequestBody.query := Some farm;
     RequestBody.farmType := farmType;
     RequestBody.location := location;
     RequestBody.numQueries := Some 5%Z;
     RequestBody.modelId := None |}.

(** A request that carries the key of the model only. *)
Definition request : Request :=
  {| json := Ok body;
     cookie := fun name => if (name =? "openai-key")%string then Some "sk-test" else None |}.

Definition createModel (modelId : string) (apiKey : option string) : Outcome unit := Ok tt.

Definition searching : JsonObject := [("progress", JString "Researching agricultural grants")].
Definition found : JsonObject := [("progress", JString "Found 2 potential grant resources")].
Definition finished : JsonObject :=
  [("done", JBool true); ("report", JString "# Agricultural Grant Opportunities Report")].
Definition failed : JsonObject :=
  [("error", JString ("Error in grant research: " ++ JS.Error_toString networkError))].

Definition syntaxError : JS.Error :=
  {| JS.error_name := "SyntaxError"; JS.error_message := "Unexpected token" |}.

(** A parser that knows the texts of the four messages. *)
Definition parse (line : string) : Outcome JsonObject :=
  match find (fun obj => (stringify obj =? line)%string) [searching; found; finished; failed] with
  | Some obj => Ok obj
  | None => Throw syntaxError
  end.

(** The page when it is mounted. *)
Definition mounted : Page.PageState :=
  {| Page.isLoading := true;
     Page.progress := JString EmptyString;
     Page.report := None;
     Page.toasts := [];
     Page.logged := [] |}.

End Visit.

(** * Properties *)

(** ** Facts about the built-ins *)

Module JSFacts.
Import JS.

Lemma existsb_eqb_In (x : string) (s : list string) :
  existsb (String.eqb x) s = true <-> In x s.
Proof.
  rewrite existsb_exists. split.
  - intros [y [Hy Heq]]. apply String.eqb_eq in Heq. now subst.
  - intros H. exists x. split; [assumption | apply String.eqb_refl].
Qed.

Lemma Set_add_In (x y : string) (s : list string) :
  In y (Set_add x s) <-> In y s \/ y = x.
Proof.
  unfold Set_add. destruct (existsb (String.eqb x) s) eqn:E.
  - apply existsb_eqb_In in E. split; [tauto|]. intros [H | ->]; assumption.
  - rewrite in_app_iff. simpl. intuition.
Qed.

Lemma Set_add_NoDup (x : string) (s : list string) :
  NoDup s -> NoDup (Set_add x s).
Proof.
  intros Hs. unfold Set_add. destruct (existsb (String.eqb x) s) eqn:E; [assumption|].
  assert (Hx : ~ In x s).
  { intros Hin. apply existsb_eqb_In in Hin. congruence. }
  clear E. induction Hs as [| a l Ha Hl IH]; simpl.
  - constructor; [intros [] | constructor].
  - constructor.
    + rewrite in_app_iff. simpl. intros [H | [H | []]]; [contradiction|].
      subst. apply Hx. now left.
    + apply IH. intros H. apply Hx. now right.
Qed.

(** The loop of [new Set(l)], from any set built so far. *)
Lemma Set_fold_In (l s : list string) (y : string) :
  In y (fold_left (fun s x => Set_add x s) l s) <-> In y s \/ In y l.
Proof.
  revert s. induction l as [| a l IH]; intros s; simpl.
  - tauto.
  - rewrite IH, Set_add_In. intuition.
Qed.

Lemma Set_fold_NoDup (l s : list string) :
  NoDup s -> NoDup (fold_left (fun s x => Set_add x s) l s).
Proof.
  revert s. induction l as [| a l IH]; intros s Hs; simpl.
  - assumption.
  - apply IH, Set_add_NoDup, Hs.
Qed.

Lemma Set_new_In (l : list string) (y : string) : In y (Set_new l) <-> In y l.
Proof. unfold Set_new. rewrite Set_fold_In. simpl. tauto. Qed.

Lemma Set_new_NoDup (l : list string) : NoDup (Set_new l).
Proof. apply Set_fold_NoDup. constructor. Qed.

Section MapFacts.

Variable V : Type.
Implicit Types (m : Map V) (k : string) (v : V).

Lemma Map_keys_set k v m : Map_keys (Map_set k v m) = Set_add k (Map_keys m).
Proof.
  unfold Set_add, Map_keys. induction m as [| [k' v'] m IH]; simpl.
  - reflexivity.
  - rewrite (String.eqb_sym k k'). destruct (k' =? k)%string; simpl.
    + reflexivity.
    + rewrite IH. destruct (existsb (String.eqb k) (map fst m)); reflexivity.
Qed.

Lemma Map_fold_app (es1 es2 : list (string * V)) m :
  fold_left (fun m kv => Map_set (fst kv) (snd kv) m) (es1 ++ es2) m =
  fold_left (fun m kv => Map_set (fst kv) (snd kv) m) es2
    (fold_left (fun m kv => Map_set (fst kv) (snd kv) m) es1 m).
Proof. apply fold_left_app. Qed.

Lemma Map_new_snoc (es : list (string * V)) k v :
  Map_new (es ++ [(k, v)]) = Map_set k v (Map_new es).
Proof. unfold Map_new. rewrite fold_left_app. reflexivity. Qed.

(** The keys of [new Map(entries)] are the keys of the entries in the
    order of their first occurrence. *)
Lemma Map_keys_new (es : list (string * V)) :
  Map_keys (Map_new es) = Set_new (map fst es).
Proof.
  induction es as [| [k v] es IH] using rev_ind.
  - reflexivity.
  - rewrite Map_new_snoc, Map_keys_set, IH, map_app.
    unfold Set_new. rewrite fold_left_app. reflexivity.
Qed.

Lemma Map_keys_NoDup (es : list (string * V)) : NoDup (Map_keys (Map_new es)).
Proof. rewrite Map_keys_new. apply Set_new_NoDup. Qed.

Lemma Map_get_set_eq k v m : Map_get k (Map_set k v m) = Some v.
Proof.
  induction m as [| [k' v'] m IH]; simpl.
  - now rewrite String.eqb_refl.
  - destruct (k' =? k)%string eqn:E; simpl; rewrite E; [reflexivity | exact IH].
Qed.

Lemma Map_get_set_ne k k0 v m :
  k0 <> k -> Map_get k0 (Map_set k v m) = Map_get k0 m.
Proof.
  intros Hne. induction m as [| [k' v'] m IH]; simpl.
  - destruct (String.eqb_spec k k0); [congruence | reflexivity].
  - destruct (String.eqb_spec k' k) as [-> | Hk]; simpl.
    + destruct (String.eqb_spec k k0); [congruence | reflexivity].
    + destruct (k' =? k0)%string; [reflexivity | exact IH].
Qed.

Lemma Map_get_Some_In k v m : Map_get k m = Some v -> In (k, v) m.
Proof.
  induction m as [| [k' v'] m IH]; simpl; [discriminate|].
  destruct (String.eqb_spec k' k) as [-> | Hk].
  - intros [= ->]. now left.
  - intros H. right. now apply IH.
Qed.

Lemma Map_In_get k v m : NoDup (Map_keys m) -> In (k, v) m -> Map_get k m = Some v.
Proof.
  induction m as [| [k' v'] m IH]; simpl; [intros _ []|].
  intros Hnd [H | H].
  - inversion H; subst. now rewrite String.eqb_refl.
  - inversion Hnd as [| ? ? Hk' Hm]; subst.
    destruct (String.eqb_spec k' k) as [-> | Hk].
    + exfalso. apply Hk'. unfold Map_keys. apply (in_map fst) in H. exact H.
    + now apply IH.
Qed.

(** An entry ends a list, or comes before its last element. *)
Lemma snoc_split (A : Type) (l l1 l2 : list A) (x y : A) :
  l ++ [x] = l1 ++ y :: l2 ->
  (l2 = [] /\ l = l1 /\ x = y) \/
  (exists l2', l2 = l2' ++ [x] /\ l = l1 ++ y :: l2').
Proof.
  intros H. destruct l2 as [| z l2] using rev_ind.
  - left. apply app_inj_tail in H. intuition.
  - right. exists l2. clear IHl2.
    change (l1 ++ y :: l2 ++ [z]) with (l1 ++ (y :: l2) ++ [z]) in H.
    rewrite app_assoc in H. apply app_inj_tail in H.
    destruct H as [-> ->]. split; reflexivity.
Qed.

(** [new Map(entries)] maps a key to the value of the last entry with
    that key. *)
Lemma Map_get_new (es : list (string * V)) k v :
  Map_get k (Map_new es) = Some v <->
  exists l1 l2, es = l1 ++ (k, v) :: l2 /\ ~ In k (map fst l2).
Proof.
  induction es as [| [k' v'] es IH] using rev_ind.
  - simpl. split; [discriminate|].
    intros (l1 & l2 & H & _). destruct l1; discriminate.
  - rewrite Map_new_snoc. destruct (String.eqb_spec k k') as [<- | Hne].
    + rewrite Map_get_set_eq. split.
      * intros [= ->]. exists es, []. split; [reflexivity | intros []].
      * intros (l1 & l2 & H & Hl2). apply snoc_split in H.
        destruct H as [(_ & _ & H) | (l2' & -> & _)].
        -- congruence.
        -- exfalso. apply Hl2. rewrite map_app, in_app_iff. right. now left.
    + rewrite Map_get_set_ne by assumption. rewrite IH. split.
      * intros (l1 & l2 & -> & Hl2). exists l1, (l2 ++ [(k', v')]). split.
        -- now rewrite <- app_assoc.
        -- rewrite map_app, in_app_iff. simpl. intuition.
      * intros (l1 & l2 & H & Hl2). apply snoc_split in H.
        destruct H as [(_ & _ & H) | (l2' & -> & ->)].
        -- congruence.
        -- exists l1, l2'. split; [reflexivity|].
           intros Hin. apply Hl2. rewrite map_app, in_app_iff. now left.
Qed.

Lemma Map_In_new (es : list (string * V)) k v :
  In (k, v) (Map_new es) <->
  exists l1 l2, es = l1 ++ (k, v) :: l2 /\ ~ In k (map fst l2).
Proof.
  rewrite <- Map_get_new. split.
  - apply Map_In_get, Map_keys_NoDup.
  - apply Map_get_Some_In.
Qed.

End MapFacts.

Lemma slice0_firstn (A : Type) (l : list A) (n : Z) :
  (0 <= n)%Z -> slice0 l n = firstn (Z.to_nat n) l.
Proof.
  intros Hn. unfold slice0.
  destruct (Z.ltb_spec n 0) as [H | _]; [lia|].
  destruct (Z.le_ge_cases n (Z.of_nat (length l))) as [H | H].
  - now rewrite Z.min_l.
  - rewrite Z.min_r, Nat2Z.id, firstn_all by lia.
    symmetry. apply firstn_all2. lia.
Qed.

Lemma slice0_length (A : Type) (l : list A) (n : Z) :
  (0 <= n)%Z -> (Z.of_nat (length (slice0 l n)) <= n)%Z.
Proof.
  intros Hn. rewrite slice0_firstn by assumption.
  rewrite length_firstn. lia.
Qed.

End JSFacts.

(** ** Progress notifications *)

Section NotifyFacts.

Context `{Sv : Services}.

Lemma notify_emitter (onProgress : option Callback) (update : string) (s : State) :
  EmitterOrNone onProgress ->
  exists s' evs,
    notify onProgress update s = (s', Ok tt) /\
    world s' = world s /\
    events s' = events s ++ evs /\
    forallb (fun ev => negb (isServiceCall ev)) evs = true /\
    (onProgress <> None -> In (OnProgress update) evs).
Proof.
  destruct onProgress as [callback |]; simpl; intros Hcb.
  - unfold bind, log.
    destruct (Hcb update
                {| world := world s; events := events s ++ [OnProgress update];
                   writer_closed := writer_closed s; chunks := chunks s |})
      as (s' & evs & Hrun & Hw & Hev & Hquiet).
    exists s', (OnProgress update :: evs). simpl in *.
    rewrite Hrun, Hw, Hev, <- app_assoc. simpl. auto 6.
  - exists s, []. unfold ret. rewrite app_nil_r. simpl.
    repeat split; congruence.
Qed.

Lemma modelCalls_app (evs1 evs2 : list Event) :
  modelCalls (evs1 ++ evs2) = modelCalls evs1 ++ modelCalls evs2.
Proof. apply filter_app. Qed.

Lemma modelCalls_quiet (evs : list Event) :
  forallb (fun ev => negb (isServiceCall ev)) evs = true -> modelCalls evs = [].
Proof.
  induction evs as [| ev evs IH]; simpl; [reflexivity|].
  intros H. apply andb_prop in H. destruct H as [Hev Hevs].
  destruct ev; simpl in *; try discriminate; now apply IH.
Qed.

End NotifyFacts.

(** Runs the next notification of the goal, the callback being a progress
    emitter by [H]. *)
Ltac run_notify H :=
  match goal with
  | |- context [notify ?o ?u ?s] =>
      let s1 := fresh "s" in
      let evs := fresh "evs" in
      let Hrun := fresh "Hrun" in
      let Hw := fresh "Hworld" in
      let Hev := fresh "Hevents" in
      let Hq := fresh "Hquiet" in
      let Hin := fresh "Hin" in
      destruct (notify_emitter o u s H) as (s1 & evs & Hrun & Hw & Hev & Hq & Hin);
      rewrite Hrun
  end.

(** ** [generateGrantQueries] *)

Section QueryGeneration.

Context `{Sv : Services}.

(** The run of [generateGrantQueries] when the model answers [res]. *)
Lemma generateGrantQueries_run (query : string) (farmType location : option string)
    (numQueries : option Z) (onProgress : option Callback) (model : Model)
    (s : State) (w : World) (res : list SerpQuery.t) :
  let n := match numQueries with Some n => n | None => 5%Z end in
  EmitterOrNone onProgress ->
  generateObject QueriesSchema model
    (queriesOptions (grantResearchPromptAt (Date_toISOString (world s)))
       query farmType location n) (world s) = (w, Ok res) ->
  exists s' evs,
    generateGrantQueries query farmType location numQueries onProgress model s =
      (s', Ok (map SerpQuery.query (JS.slice0 res n))) /\
    world s' = w /\
    events s' = events s ++ evs /\
    (onProgress <> None ->
     In (OnProgress (formatProgress.created (length res)
                       (JS.join ", " (map SerpQuery.query res)))) evs).
Proof.
  intros n Hcb Hmodel. unfold generateGrantQueries. fold n.
  unfold bind at 1. run_notify Hcb.
  unfold bind at 1, grantResearchPrompt at 1.
  unfold bind at 1, call_generateObject, external.
  rewrite Hworld, Hmodel.
  unfold bind at 1. run_notify Hcb. simpl in *.
  exists s1, (evs ++ GenerateObject QueriesSchema
                (queriesOptions (grantResearchPromptAt (Date_toISOString (world s)))
                   query farmType location n) :: evs0).
  unfold ret. repeat split.
  - assumption.
  - rewrite Hevents0, Hevents, <- !app_assoc. reflexivity.
  - intros Hsome. rewrite in_app_iff. right. right. now apply Hin0.
Qed.

(** A run of [generateGrantQueries] that returns, whatever the callback
    is: the model answered and the answer was cut. *)
Lemma generateGrantQueries_returned (query : string) (farmType location : option string)
    (numQueries : option Z) (onProgress : option Callback) (model : Model)
    (s s' : State) (serpQueries : list string) :
  let n := match numQueries with Some n => n | None => 5%Z end in
  generateGrantQueries query farmType location numQueries onProgress model s =
    (s', Ok serpQueries) ->
  exists (w1 w2 : World) (system : string) (res : list SerpQuery.t),
    generateObject QueriesSchema model
      (queriesOptions system query farmType location n) w1 = (w2, Ok res) /\
    serpQueries = map SerpQuery.query (JS.slice0 res n).
Proof.
  intros n. unfold generateGrantQueries. fold n. unfold bind at 1.
  destruct (notify onProgress (formatProgress.generating n query) s)
    as [s1 [[] | e]]; [| discriminate].
  unfold bind at 1, grantResearchPrompt at 1.
  unfold bind at 1, call_generateObject, external.
  destruct (generateObject QueriesSchema model
              (queriesOptions (grantResearchPromptAt (Date_toISOString (world s1)))
                 query farmType location n) (world s1)) as [w2 [res | e]] eqn:Hmodel;
    [| discriminate].
  unfold bind.
  match goal with
  | |- context [notify onProgress ?u ?st] =>
      destruct (notify onProgress u st) as [s3 [[] | e]]; [| discriminate]
  end.
  unfold ret. intros [= _ <-].
  exists (world s1), w2, (grantResearchPromptAt (Date_toISOString (world s1))), res.
  split; [exact Hmodel | reflexivity].
Qed.

(** What [slice(0, end)] keeps, for either sign of [end]. *)
Lemma slice0_kept (A : Type) (l : list A) (n : Z) :
  JS.slice0 l n =
  if (n <? 0)%Z then firstn (length l - Z.to_nat (- n)) l
  else firstn (Z.to_nat n) l.
Proof.
  destruct (Z.ltb_spec n 0) as [Hneg | Hpos].
  - unfold JS.slice0. destruct (Z.ltb_spec n 0) as [_ | H]; [| lia].
    f_equal. lia.
  - now apply JSFacts.slice0_firstn.
Qed.

(** C6. Every list [generateGrantQueries] returns is made of the names
    of the queries that [slice(0, numQueries)] keeps of the model's
    answer, in the order of the answer.  For a [numQueries] that is not
    negative these are the first [numQueries] queries, so the list has at
    most [numQueries] strings; for a negative one they are all but the
    last [-numQueries] queries, which can be more than [numQueries].
    With a progress emitter for callback the function does return that
    list whenever the model answers. *)
Theorem generateGrantQueries_at_most_numQueries
    (query : string) (farmType location : option string)
    (numQueries : option Z) (onProgress : option Callback) (model : Model) :
  let n := match numQueries with Some n => n | None => 5%Z end in
  let kept := fun names : list string =>
                if (n <? 0)%Z then firstn (length names - Z.to_nat (- n)) names
                else firstn (Z.to_nat n) names in
  (forall (s s' : State) (serpQueries : list string),
     generateGrantQueries query farmType location numQueries onProgress model s =
       (s', Ok serpQueries) ->
     ((0 <= n)%Z -> (Z.of_nat (length serpQueries) <= n)%Z) /\
     exists (w1 w2 : World) (system : string) (res : list SerpQuery.t),
       generateObject QueriesSchema model
         (queriesOptions system query farmType location n) w1 = (w2, Ok res) /\
       serpQueries = kept (map SerpQuery.query res)) /\
  (EmitterOrNone onProgress ->
   forall (s : State) (w : World) (res : list SerpQuery.t),
     generateObject QueriesSchema model
       (queriesOptions (grantResearchPromptAt (Date_toISOString (world s)))
          query farmType location n) (world s) = (w, Ok res) ->
     exists s',
       generateGrantQueries query farmType location numQueries onProgress model s =
         (s', Ok (kept (map SerpQuery.query res)))).
Proof.
  intros n kept.
  assert (Hcut : forall res : list SerpQuery.t,
             map SerpQuery.query (JS.slice0 res n) = kept (map SerpQuery.query res)).
  { intros res. rewrite slice0_kept. subst kept. cbv beta. rewrite length_map.
    destruct (n <? 0)%Z; symmetry; apply firstn_map. }
  split.
  - intros s s' serpQueries Hrun.
    apply generateGrantQueries_returned in Hrun.
    destruct Hrun as (w1 & w2 & system & res & Hmodel & ->). fold n in Hmodel.
    split.
    + intros Hn. rewrite length_map. now apply JSFacts.slice0_length.
    + exists w1, w2, system, res. split; [exact Hmodel | apply Hcut].
  - intros Hcb s w res Hmodel.
    destruct (generateGrantQueries_run query farmType location numQueries onProgress
                model s w res Hcb Hmodel) as (s' & evs & Hrun & _).
    fold n in Hrun. exists s'. rewrite <- Hcut. exact Hrun.
Qed.

(** C10. The ["Created N grant-related SERP queries"] notification of
    [generateGrantQueries] carries the number and the text of all the
    queries of the model's answer, counted before the answer is cut to
    [numQueries]; when the model answers more than [numQueries] queries
    the count in the message is greater than the number of queries
    returned. *)
Theorem created_notification_counts_uncut_answer
    (query : string) (farmType location : option string)
    (numQueries : option Z) (callback : Callback) (model : Model)
    (s : State) (w : World) (res : list SerpQuery.t) :
  let n := match numQueries with Some n => n | None => 5%Z end in
  ProgressEmitter callback ->
  generateObject QueriesSchema model
    (queriesOptions (grantResearchPromptAt (Date_toISOString (world s)))
       query farmType location n) (world s) = (w, Ok res) ->
  exists s' evs serpQueries,
    generateGrantQueries query farmType location numQueries (Some callback) model s =
      (s', Ok serpQueries) /\
    events s' = events s ++ evs /\
    In (OnProgress
          ("Created " ++ JS.string_of_nat (length res) ++
           " grant-related SERP queries" ++ JS.LF ++
           JS.join ", " (map SerpQuery.query res))%string) evs /\
    ((0 <= n < Z.of_nat (length res))%Z -> length serpQueries < length res).
Proof.
  intros n Hcb Hmodel.
  destruct (generateGrantQueries_run query farmType location numQueries (Some callback)
              model s w res Hcb Hmodel) as (s' & evs & Hrun & _ & Hev & Hin).
  fold n in Hrun. exists s', evs, (map SerpQuery.query (JS.slice0 res n)).
  repeat split; try assumption.
  - apply Hin. discriminate.
  - intros [Hn Hlt]. rewrite length_map.
    pose proof (JSFacts.slice0_length _ res n Hn). lia.
Qed.

End QueryGeneration.

(** ** [processGrantResults] *)

Section Extraction.

Context `{Sv : Services}.

Lemma compact_lacking (pages : list FirecrawlDocument) :
  forallb lacksContent pages = true -> JS.compact (map markdown pages) = [].
Proof.
  induction pages as [| page pages IH]; simpl; [reflexivity|].
  intros H. apply andb_prop in H. destruct H as [Hpage Hpages].
  unfold lacksContent, JS.truthy in Hpage.
  destruct (markdown page) as [text |]; [| now apply IH].
  destruct (text =? EmptyString)%string; [now apply IH | discriminate].
Qed.

Lemma compact_content (pages : list FirecrawlDocument) :
  forallb lacksContent pages = false -> JS.compact (map markdown pages) <> [].
Proof.
  induction pages as [| page pages IH]; simpl; [discriminate|].
  unfold lacksContent at 1, JS.truthy.
  destruct (markdown page) as [text |]; simpl; [| exact IH].
  destruct (text =? EmptyString)%string; simpl; [exact IH | discriminate].
Qed.

Lemma contentsOf_empty (result : SearchResponse) :
  (length (contentsOf result) =? 0)%nat = forallb lacksContent (data result).
Proof.
  unfold contentsOf. rewrite length_map.
  destruct (forallb lacksContent (data result)) eqn:E.
  - now rewrite compact_lacking.
  - apply compact_content in E.
    destruct (JS.compact (map markdown (data result))); [congruence | reflexivity].
Qed.

(** The short circuit: one notification and nothing else. *)
Lemma processGrantResults_short (query : string) (result : SearchResponse)
    (onProgress : option Callback) (model : Model) (s : State) :
  EmitterOrNone onProgress ->
  forallb lacksContent (data result) = true ->
  exists s' evs,
    processGrantResults query result onProgress model s =
      (s', Ok {| grants := []; visitedUrls := [] |}) /\
    world s' = world s /\
    events s' = events s ++ evs /\
    forallb (fun ev => negb (isServiceCall ev)) evs = true.
Proof.
  intros Hcb Hlack. unfold processGrantResults.
  unfold bind at 1. run_notify Hcb.
  rewrite contentsOf_empty, Hlack. unfold ret.
  exists s0, evs. auto.
Qed.

(** The other path, when the model answers [res]. *)
Lemma processGrantResults_extract (query : string) (result : SearchResponse)
    (onProgress : option Callback) (model : Model) (s : State)
    (w : World) (res : list GrantInfo) :
  EmitterOrNone onProgress ->
  forallb lacksContent (data result) = false ->
  generateObject GrantsSchema model
    (extractionOptions (grantResearchPromptAt (Date_toISOString (world s)))
       (contentsOf result)) (world s) = (w, Ok res) ->
  exists s' evs,
    processGrantResults query result onProgress model s =
      (s', Ok {| grants := res;
                 visitedUrls := JS.filter_non_null (map url (data result)) |}) /\
    world s' = w /\
    events s' = events s ++ evs.
Proof.
  intros Hcb Hcontent Hmodel. unfold processGrantResults.
  unfold bind at 1. run_notify Hcb.
  rewrite contentsOf_empty, Hcontent.
  unfold bind at 1, grantResearchPrompt at 1.
  unfold bind at 1, call_generateObject, external.
  rewrite Hworld, Hmodel.
  unfold bind at 1. run_notify Hcb. simpl in *. unfold ret.
  exists s1, (evs ++ GenerateObject GrantsSchema
                (extractionOptions (grantResearchPromptAt (Date_toISOString (world s)))
                   (contentsOf result)) :: evs0).
  repeat split; [assumption|].
  rewrite Hevents0, Hevents, <- !app_assoc. reflexivity.
Qed.

Lemma filter_non_null_In (A : Type) (l : list (option A)) (x : A) :
  In x (JS.filter_non_null l) <-> In (Some x) l.
Proof.
  induction l as [| [y |] l IH]; simpl.
  - tauto.
  - rewrite IH. split; intros [H | H]; auto; left; congruence.
  - rewrite IH. split; [auto | intros [H | H]; [discriminate | assumption]].
Qed.

(** C7. When no page of the search result has text, [processGrantResults]
    returns an empty list of grants and the trace gains no call to the
    model. *)
Theorem processGrantResults_without_content_calls_no_model
    (query : string) (result : SearchResponse)
    (onProgress : option Callback) (model : Model) (s : State) :
  EmitterOrNone onProgress ->
  forallb lacksContent (data result) = true ->
  exists s' r,
    processGrantResults query result onProgress model s = (s', Ok r) /\
    grants r = [] /\
    modelCalls (events s') = modelCalls (events s).
Proof.
  intros Hcb Hlack.
  destruct (processGrantResults_short query result onProgress model s Hcb Hlack)
    as (s' & evs & Hrun & _ & Hev & Hquiet).
  exists s', {| grants := []; visitedUrls := [] |}.
  split; [exact Hrun|]. split; [reflexivity|].
  rewrite Hev, modelCalls_app, (modelCalls_quiet evs Hquiet). apply app_nil_r.
Qed.

End Extraction.

(** ** Relations every step of the pipeline respects *)

Section Frame.

Context `{Sv : Services}.

Variable R : State -> State -> Prop.
Hypothesis R_refl : forall s, R s s.
Hypothesis R_trans : forall s1 s2 s3, R s1 s2 -> R s2 s3 -> R s1 s3.
Hypothesis R_outside :
  forall s w ev,
    isWriterCall ev = false ->
    R s {| world := w; events := events s ++ [ev];
           writer_closed := writer_closed s; chunks := chunks s |}.

Lemma Respects_ret (A : Type) (a : A) : Respects R (ret a).
Proof. intros s. apply R_refl. Qed.

Lemma Respects_bind (A B : Type) (m : M A) (k : A -> M B) :
  Respects R m -> (forall a, Respects R (k a)) -> Respects R (bind m k).
Proof.
  intros Hm Hk s. unfold bind. specialize (Hm s).
  destruct (m s) as [s1 [a | e]]; simpl in *.
  - eapply R_trans; [exact Hm | apply Hk].
  - exact Hm.
Qed.

Lemma Respects_try_catch (A : Type) (body : M A) (handler : JS.Error -> M A) :
  Respects R body -> (forall e, Respects R (handler e)) ->
  Respects R (try_catch body handler).
Proof.
  intros Hm Hk s. unfold try_catch. specialize (Hm s).
  destruct (body s) as [s1 [a | e]]; simpl in *.
  - exact Hm.
  - eapply R_trans; [exact Hm | apply Hk].
Qed.

Lemma Respects_try_finally (A : Type) (body : M A) (cleanup : M unit) :
  Respects R body -> Respects R cleanup -> Respects R (try_finally body cleanup).
Proof.
  intros Hm Hk s. unfold try_finally. specialize (Hm s).
  destruct (body s) as [s1 r]; simpl in *. specialize (Hk s1).
  destruct (cleanup s1) as [s2 [u | e]]; simpl in *;
    eapply R_trans; eassumption.
Qed.

Lemma Respects_log (ev : Event) : isWriterCall ev = false -> Respects R (log ev).
Proof. intros Hev s. unfold log. simpl. now apply R_outside. Qed.

Lemma Respects_external (A : Type) (ev : Event) (call : World -> World * Outcome A) :
  isWriterCall ev = false -> Respects R (external ev call).
Proof.
  intros Hev s. unfold external. destruct (call (world s)) as [w r]. simpl.
  now apply R_outside.
Qed.

Lemma Respects_grantResearchPrompt : Respects R grantResearchPrompt.
Proof. intros s. apply R_refl. Qed.

Lemma Respects_Promise_all (A : Type) (tasks : list (M A)) :
  (forall task, In task tasks -> Respects R task) -> Respects R (Promise_all tasks).
Proof.
  induction tasks as [| task tasks IH]; intros Htasks s; simpl.
  - apply R_refl.
  - assert (Htask : Respects R task) by (apply Htasks; now left).
    assert (Hrest : Respects R (Promise_all tasks)).
    { apply IH. intros t Ht. apply Htasks. now right. }
    specialize (Htask s). destruct (task s) as [s1 [a | e]]; simpl in *.
    + eapply R_trans; [exact Htask|].
      apply (Respects_bind _ _ (Promise_all tasks) (fun x => ret (a :: x)) Hrest).
      intros x. apply Respects_ret.
    + specialize (Hrest s1). destruct (Promise_all tasks s1) as [s2 r]. simpl in *.
      eapply R_trans; eassumption.
Qed.

Section WithCallback.

Variable onProgress : option Callback.
Hypothesis callback_respects :
  forall callback, onProgress = Some callback ->
                   forall update, Respects R (callback update).

Lemma Respects_notify (update : string) : Respects R (notify onProgress update).
Proof.
  unfold notify. destruct onProgress as [callback |].
  - apply Respects_bind; [now apply Respects_log|].
    intros _. now apply callback_respects.
  - apply Respects_ret.
Qed.

Local Ltac respects :=
  repeat first
    [ apply Respects_ret
    | apply Respects_notify
    | apply Respects_grantResearchPrompt
    | apply Respects_external; reflexivity
    | apply Respects_log; reflexivity
    | apply Respects_bind; [| intros ?]
    | apply Respects_try_catch; [| intros ?]
    | match goal with
      | |- Respects _ (if ?b then _ else _) => destruct b
      end ].

Lemma Respects_generateGrantQueries query farmType location numQueries model :
  Respects R (generateGrantQueries query farmType location numQueries onProgress model).
Proof. unfold generateGrantQueries, call_generateObject. respects. Qed.

Lemma Respects_processGrantResults query result model :
  Respects R (processGrantResults query result onProgress model).
Proof. unfold processGrantResults, call_generateObject. respects. Qed.

Lemma Respects_tryQuery variant model firecrawlKey serpQuery acc :
  Respects R (tryQuery variant onProgress model firecrawlKey serpQuery acc).
Proof.
  unfold tryQuery, call_search.
  apply Respects_bind; [apply Respects_notify|]. intros _.
  apply Respects_bind; [now apply Respects_external|]. intros searchResults.
  apply Respects_bind; [apply Respects_notify|]. intros _.
  destruct (0 <? length (data searchResults))%nat; [| apply Respects_ret].
  apply Respects_bind; [apply Respects_processGrantResults|].
  intros r. apply Respects_ret.
Qed.

Lemma Respects_catchQuery serpQuery acc e :
  Respects R (catchQuery onProgress serpQuery acc e).
Proof. unfold catchQuery, console_error. respects. Qed.

Lemma Respects_forEachQuery variant model firecrawlKey serpQueries acc :
  Respects R (forEachQuery variant onProgress model firecrawlKey serpQueries acc).
Proof.
  revert acc. induction serpQueries as [| serpQuery rest IH]; intros acc; simpl.
  - apply Respects_ret.
  - apply Respects_bind; [| exact IH].
    apply Respects_try_catch.
    + apply Respects_tryQuery.
    + intros e. apply Respects_catchQuery.
Qed.

Lemma Respects_researchAgricultureGrants variant query farmType location numQueries
    model firecrawlKey :
  Respects R (researchAgricultureGrants variant query farmType location numQueries
                onProgress model firecrawlKey).
Proof.
  unfold researchAgricultureGrants.
  apply Respects_bind; [apply Respects_generateGrantQueries|].
  intros serpQueries. apply Respects_bind; [apply Respects_forEachQuery|].
  intros all. apply Respects_ret.
Qed.

End WithCallback.

Lemma Respects_writeReport variant query farmType location grants visitedUrls model :
  Respects R (writeReport variant query farmType location grants visitedUrls model).
Proof.
  unfold writeReport. destruct variant.
  - apply Respects_bind; [| intros ?; apply Respects_ret].
    unfold writeGrantReport_structured, call_generateObject.
    apply Respects_bind; [apply Respects_grantResearchPrompt|].
    intros system. now apply Respects_external.
  - apply Respects_bind; [| intros ?; apply Respects_ret].
    unfold writeGrantReport, call_generateObject.
    apply Respects_bind.
    + apply Respects_Promise_all. intros task Htask.
      apply in_map_iff in Htask. destruct Htask as (grant & <- & _).
      unfold templateTask, generateGrantTemplate, call_generateObject.
      apply Respects_bind; [| intros ?; apply Respects_ret].
      apply Respects_bind; [apply Respects_grantResearchPrompt|].
      intros system. now apply Respects_external.
    + intros templates. apply Respects_bind; [apply Respects_grantResearchPrompt|].
      intros system. apply Respects_bind; [now apply Respects_external|].
      intros report. apply Respects_ret.
Qed.

End Frame.

(** ** The research loop *)

Section Loop.

Context `{Sv : Services}.
Variable variant : Variant.

Lemma traceGrows_refl (s : State) : traceGrows s s.
Proof. exists []. now rewrite app_nil_r. Qed.

Lemma traceGrows_trans (s1 s2 s3 : State) :
  traceGrows s1 s2 -> traceGrows s2 s3 -> traceGrows s1 s3.
Proof.
  intros [evs1 H1] [evs2 H2]. exists (evs1 ++ evs2).
  now rewrite H2, H1, app_assoc.
Qed.

Lemma traceGrows_outside (s : State) (w : World) (ev : Event) :
  isWriterCall ev = false ->
  traceGrows s {| world := w; events := events s ++ [ev];
                  writer_closed := writer_closed s; chunks := chunks s |}.
Proof. intros _. now exists [ev]. Qed.

Lemma emitter_traceGrows (onProgress : option Callback) :
  EmitterOrNone onProgress ->
  forall callback, onProgress = Some callback ->
                   forall update, Respects traceGrows (callback update).
Proof.
  intros Hcb callback -> update s.
  destruct (Hcb update s) as (s' & evs & Hrun & _ & Hev & _).
  rewrite Hrun. now exists evs.
Qed.

(** What an iteration pushes does not depend on what the arrays hold. *)
Lemma tryQuery_acc onProgress model firecrawlKey serpQuery (acc : Accumulated) s :
  tryQuery variant onProgress model firecrawlKey serpQuery acc s =
  match tryQuery variant onProgress model firecrawlKey serpQuery ([], []) s with
  | (s', Ok pushed) => (s', Ok (fst acc ++ fst pushed, snd acc ++ snd pushed))
  | (s', Throw e) => (s', Throw e)
  end.
Proof.
  unfold tryQuery, bind.
  destruct (notify onProgress (formatProgress.researching serpQuery) s)
    as [s1 [[] | e]]; [| reflexivity].
  destruct (call_search firecrawlKey serpQuery (searchParams variant) s1)
    as [s2 [searchResults | e]]; [| reflexivity].
  destruct (notify onProgress _ s2) as [s3 [[] | e]]; [| reflexivity].
  destruct (0 <? length (data searchResults))%nat.
  - destruct (processGrantResults serpQuery searchResults onProgress model s3)
      as [s4 [r | e]]; reflexivity.
  - unfold ret. simpl. rewrite !app_nil_r. now destruct acc.
Qed.

Lemma catchQuery_acc onProgress serpQuery (acc : Accumulated) e s :
  catchQuery onProgress serpQuery acc e s =
  match catchQuery onProgress serpQuery ([], []) e s with
  | (s', Ok _) => (s', Ok acc)
  | (s', Throw e') => (s', Throw e')
  end.
Proof.
  unfold catchQuery, bind.
  destruct (console_error _ e s) as [s1 [[] | e1]]; [| reflexivity].
  destruct (notify onProgress _ s1) as [s2 [[] | e2]]; reflexivity.
Qed.

(** What an iteration pushes is the output of [processGrantResults] for
    its query, when the search found pages, and nothing otherwise. *)
Lemma tryQuery_pushed onProgress model firecrawlKey serpQuery
    (s s' : State) (pushed : Accumulated) :
  tryQuery variant onProgress model firecrawlKey serpQuery ([], []) s = (s', Ok pushed) ->
  pushed = ([], []) \/
  exists (result : SearchResponse) (s0 : State) (output : GrantResearchResult),
    processGrantResults serpQuery result onProgress model s0 = (s', Ok output) /\
    pushed = (grants output, visitedUrls output).
Proof.
  unfold tryQuery, bind.
  destruct (notify onProgress (formatProgress.researching serpQuery) s)
    as [s1 [[] | e]]; [| discriminate].
  destruct (call_search firecrawlKey serpQuery (searchParams variant) s1)
    as [s2 [searchResults | e]]; [| discriminate].
  destruct (notify onProgress _ s2) as [s3 [[] | e]]; [| discriminate].
  destruct (0 <? length (data searchResults))%nat.
  - destruct (processGrantResults serpQuery searchResults onProgress model s3)
      as [s4 [output | e]] eqn:Hextract; [| discriminate].
    unfold ret. intros [= <- <-]. right. exists searchResults, s3, output.
    split; [exact Hextract | reflexivity].
  - unfold ret. intros [= _ <-]. now left.
Qed.

Lemma iterations_pushed onProgress model firecrawlKey serpQueries :
  forall (s : State) (serpQuery : string) (pushed : Accumulated),
    In (serpQuery, Ok pushed)
       (iterations variant onProgress model firecrawlKey serpQueries s) ->
    pushed = ([], []) \/
    exists (result : SearchResponse) (s0 s1 : State) (output : GrantResearchResult),
      processGrantResults serpQuery result onProgress model s0 = (s1, Ok output) /\
      pushed = (grants output, visitedUrls output).
Proof.
  induction serpQueries as [| q rest IH]; intros s serpQuery pushed; simpl; [intros []|].
  destruct (tryQuery variant onProgress model firecrawlKey q ([], []) s)
    as [s1 [p | e]] eqn:Htry.
  - intros [Hit | Hit].
    + inversion Hit; subst. apply tryQuery_pushed in Htry.
      destruct Htry as [-> | (result & s0 & output & Hrun & ->)]; [now left|].
      right. now exists result, s0, s1, output.
    + now apply IH in Hit.
  - intros [Hit | Hit]; [discriminate|].
    destruct (catchQuery onProgress q ([], []) e s1) as [s2 [u | e']].
    + now apply IH in Hit.
    + destruct Hit.
Qed.

(** Every iteration is the iteration of one of the queries. *)
Lemma iterations_queries onProgress model firecrawlKey serpQueries :
  forall (s : State) (serpQuery : string) (outcome : Outcome Accumulated),
    In (serpQuery, outcome)
       (iterations variant onProgress model firecrawlKey serpQueries s) ->
    In serpQuery serpQueries.
Proof.
  induction serpQueries as [| q rest IH]; intros s serpQuery outcome; simpl; [intros []|].
  destruct (tryQuery variant onProgress model firecrawlKey q ([], []) s)
    as [s1 [p | e]].
  - intros [Hit | Hit]; [inversion Hit; now left | right; now apply IH in Hit].
  - intros [Hit | Hit]; [inversion Hit; now left|].
    destruct (catchQuery onProgress q ([], []) e s1) as [s2 [u | e']].
    + right. now apply IH in Hit.
    + destruct Hit.
Qed.

(** The arrays after the loop hold what the iterations pushed, in order. *)
Lemma forEachQuery_pushed onProgress model firecrawlKey serpQueries :
  forall (acc acc' : Accumulated) (s s' : State),
    forEachQuery variant onProgress model firecrawlKey serpQueries acc s =
      (s', Ok acc') ->
    let its := iterations variant onProgress model firecrawlKey serpQueries s in
    acc' = (fst acc ++ pushedGrants its, snd acc ++ pushedUrls its).
Proof.
  induction serpQueries as [| serpQuery rest IH]; intros acc acc' s s'; simpl.
  - unfold ret. intros [= <- <-]. rewrite !app_nil_r. now destruct acc.
  - unfold bind, try_catch. rewrite tryQuery_acc.
    destruct (tryQuery variant onProgress model firecrawlKey serpQuery ([], []) s)
      as [s1 [pushed | e]].
    + intros Hrest. apply IH in Hrest. simpl in *.
      unfold pushedGrants, pushedUrls in *. simpl.
      now rewrite !app_assoc.
    + rewrite catchQuery_acc.
      destruct (catchQuery onProgress serpQuery ([], []) e s1) as [s2 [u | e']];
        [| discriminate].
      intros Hrest. apply IH in Hrest. exact Hrest.
Qed.

(** What a run of [researchAgricultureGrants] that returns went through. *)
Lemma researchAgricultureGrants_returned query farmType location numQueries
    onProgress model firecrawlKey (s s' : State) (r : GrantResearchResult) :
  researchAgricultureGrants variant query farmType location numQueries onProgress
    model firecrawlKey s = (s', Ok r) ->
  let n := match numQueries with Some n => n | None => defaultNumQueries variant end in
  exists s0 serpQueries,
    generateGrantQueries query farmType location (Some n) onProgress model s =
      (s0, Ok serpQueries) /\
    let its := iterations variant onProgress model firecrawlKey serpQueries s0 in
    r = {| grants := uniqueGrants (pushedGrants its);
           visitedUrls := JS.Set_new (pushedUrls its) |}.
Proof.
  unfold researchAgricultureGrants. unfold bind at 1.
  destruct (generateGrantQueries query farmType location _ onProgress model s)
    as [s0 [serpQueries | e]]; [| discriminate].
  unfold bind.
  destruct (forEachQuery variant onProgress model firecrawlKey serpQueries ([], []) s0)
    as [s1 [all | e]] eqn:Hloop; [| discriminate].
  unfold ret. intros [= <- <-]. exists s0, serpQueries. split; [reflexivity|].
  apply forEachQuery_pushed in Hloop. simpl in Hloop. now subst all.
Qed.

(** The grants [uniqueGrants] keeps: for each name the last grant that
    has it. *)
Lemma uniqueGrants_In (allGrants : list GrantInfo) (g : GrantInfo) :
  In g (uniqueGrants allGrants) <->
  exists l1 l2, allGrants = l1 ++ g :: l2 /\ ~ In (name g) (map name l2).
Proof.
  unfold uniqueGrants, JS.Map_values. rewrite in_map_iff. split.
  - intros ([k v] & Hv & Hin). simpl in Hv. subst v.
    apply JSFacts.Map_In_new in Hin. destruct Hin as (l1' & l2' & Heq & Hk).
    apply map_eq_app in Heq. destruct Heq as (l1 & tl & -> & _ & Htl).
    apply map_eq_cons in Htl. destruct Htl as (g' & l2 & -> & Hg & <-).
    inversion Hg; subst. exists l1, l2. split; [reflexivity|].
    rewrite map_map in Hk. exact Hk.
  - intros (l1 & l2 & -> & Hk). exists (name g, g). split; [reflexivity|].
    apply JSFacts.Map_In_new.
    exists (map (fun grant => (name grant, grant)) l1),
           (map (fun grant => (name grant, grant)) l2).
    split.
    + now rewrite map_app.
    + now rewrite map_map.
Qed.

(** One entry for each name, in the order in which the names first occur. *)
Lemma uniqueGrants_names (allGrants : list GrantInfo) :
  map name (uniqueGrants allGrants) = JS.Set_new (map name allGrants).
Proof.
  unfold uniqueGrants, JS.Map_values.
  assert (Hkeys : forall m : JS.Map GrantInfo,
             (forall k v, In (k, v) m -> k = name v) ->
             map name (map snd m) = JS.Map_keys m).
  { induction m as [| [k v] m IH]; intros Hm; simpl; [reflexivity|].
    rewrite IH by (intros k' v' H; apply Hm; now right).
    now rewrite (Hm k v) by now left. }
  rewrite Hkeys.
  - rewrite JSFacts.Map_keys_new, map_map. reflexivity.
  - intros k v Hin. apply JSFacts.Map_In_new in Hin.
    destruct Hin as (l1 & l2 & Heq & _).
    assert (Hentry : In (k, v) (map (fun grant => (name grant, grant)) allGrants)).
    { rewrite Heq, in_app_iff. right. now left. }
    apply in_map_iff in Hentry. destruct Hentry as (g & Hg & _).
    now inversion Hg.
Qed.

End Loop.

(** ** The aggregated result *)

Section Aggregation.

Context `{Sv : Services}.
Variable variant : Variant.

(** C1, as the code has it.  In a result [researchAgricultureGrants]
    returns, the grant kept under a name is the last one with that name
    among the grants the iterations pushed, and no other grant is there;
    the kept grants stand in the order in which their names first
    occurred. *)
Theorem duplicates_keep_last_seen_copy
    (query : string) (farmType location : option string) (numQueries : option Z)
    (onProgress : option Callback) (model : Model) (firecrawlKey : option string)
    (s s' : State) (r : GrantResearchResult) :
  researchAgricultureGrants variant query farmType location numQueries onProgress
    model firecrawlKey s = (s', Ok r) ->
  let n := match numQueries with Some n => n | None => defaultNumQueries variant end in
  exists s0 serpQueries,
    generateGrantQueries query farmType location (Some n) onProgress model s =
      (s0, Ok serpQueries) /\
    let allGrants :=
      pushedGrants (iterations variant onProgress model firecrawlKey serpQueries s0) in
    (forall g,
       In g (grants r) <->
       exists before after,
         allGrants = before ++ g :: after /\ ~ In (name g) (map name after)) /\
    map name (grants r) = JS.Set_new (map name allGrants).
Proof.
  intros Hrun n.
  destruct (researchAgricultureGrants_returned variant _ _ _ _ _ _ _ _ _ _ Hrun)
    as (s0 & serpQueries & Hgen & Hr).
  exists s0, serpQueries. split; [exact Hgen|]. simpl in *. subst r. simpl. split.
  - intros g. apply uniqueGrants_In.
  - apply uniqueGrants_names.
Qed.

(** C4. In a result [researchAgricultureGrants] returns no two grants
    have the same name, no URL occurs twice, and every URL is in the URL
    list of the output [processGrantResults] returned for one of the
    queries, pushed by the iteration of that query. *)
Theorem result_names_and_urls_unique
    (query : string) (farmType location : option string) (numQueries : option Z)
    (onProgress : option Callback) (model : Model) (firecrawlKey : option string)
    (s s' : State) (r : GrantResearchResult) :
  researchAgricultureGrants variant query farmType location numQueries onProgress
    model firecrawlKey s = (s', Ok r) ->
  let n := match numQueries with Some n => n | None => defaultNumQueries variant end in
  NoDup (map name (grants r)) /\
  NoDup (visitedUrls r) /\
  exists s0 serpQueries,
    generateGrantQueries query farmType location (Some n) onProgress model s =
      (s0, Ok serpQueries) /\
    forall u,
      In u (visitedUrls r) ->
      exists serpQuery result sa sb output,
        In serpQuery serpQueries /\
        processGrantResults serpQuery result onProgress model sa = (sb, Ok output) /\
        In (serpQuery, Ok (grants output, visitedUrls output))
           (iterations variant onProgress model firecrawlKey serpQueries s0) /\
        In u (visitedUrls output).
Proof.
  intros Hrun n.
  destruct (researchAgricultureGrants_returned variant _ _ _ _ _ _ _ _ _ _ Hrun)
    as (s0 & serpQueries & Hgen & Hr).
  simpl in Hr. subst r. simpl. split; [| split].
  - rewrite uniqueGrants_names. apply JSFacts.Set_new_NoDup.
  - apply JSFacts.Set_new_NoDup.
  - exists s0, serpQueries. split; [exact Hgen|].
    intros u Hu. rewrite JSFacts.Set_new_In in Hu.
    unfold pushedUrls in Hu. apply in_flat_map in Hu.
    destruct Hu as ([serpQuery [pushed | e]] & Hit & Hin); simpl in Hin; [| contradiction].
    destruct (iterations_pushed variant _ _ _ _ _ _ _ Hit)
      as [-> | (result & sa & sb & output & Hextract & ->)]; [destruct Hin|].
    exists serpQuery, result, sa, sb, output. repeat split; try assumption.
    apply (iterations_queries variant _ _ _ _ _ _ _ Hit).
Qed.

End Aggregation.

(** ** Failing queries *)

Section Failure.

Context `{Sv : Services}.
Variable variant : Variant.
Variable callback : Callback.
Hypothesis callback_emitter : ProgressEmitter callback.

Let emitter : EmitterOrNone (Some callback) := callback_emitter.

Lemma tryQuery_trace model firecrawlKey serpQuery (acc : Accumulated) (s : State) :
  exists evs,
    events (fst (tryQuery variant (Some callback) model firecrawlKey serpQuery acc s)) =
      events s ++ evs /\
    In (OnProgress (formatProgress.researching serpQuery)) evs.
Proof.
  unfold tryQuery. unfold bind at 1. run_notify emitter. cbv beta.
  match goal with
  | |- context [fst (?rest s0)] =>
      assert (Hrest : traceGrows s0 (fst (rest s0)))
  end.
  { apply Respects_bind; [apply traceGrows_trans | |].
    - apply Respects_external; [apply traceGrows_outside | reflexivity].
    - intros searchResults.
      apply Respects_bind; [apply traceGrows_trans | |].
      + apply Respects_notify;
          [ apply traceGrows_refl | apply traceGrows_trans | apply traceGrows_outside
          | apply (emitter_traceGrows _ emitter) ].
      + intros _. destruct (0 <? length (data searchResults))%nat.
        * apply Respects_bind; [apply traceGrows_trans | |].
          -- apply Respects_processGrantResults;
               [ apply traceGrows_refl | apply traceGrows_trans
               | apply traceGrows_outside | apply (emitter_traceGrows _ emitter) ].
          -- intros r. apply Respects_ret, traceGrows_refl.
        * apply Respects_ret, traceGrows_refl. }
  destruct Hrest as [evs' Hev']. exists (evs ++ evs'). split.
  - rewrite Hevents, <- app_assoc in Hev'. exact Hev'.
  - rewrite in_app_iff. left. apply Hin. discriminate.
Qed.

Lemma catchQuery_emitter serpQuery (acc : Accumulated) (e : JS.Error) (s : State) :
  exists s' evs,
    catchQuery (Some callback) serpQuery acc e s = (s', Ok acc) /\
    events s' =
      events s ++
      ConsoleError ("Error running grant query: " ++ serpQuery ++ ": ")%string e :: evs /\
    In (OnProgress (queryErrorMessage serpQuery e)) evs.
Proof.
  unfold catchQuery. unfold bind at 1, console_error, log.
  unfold bind at 1. run_notify emitter. simpl in *. unfold ret.
  exists s0, evs. repeat split.
  - rewrite Hevents, <- app_assoc. reflexivity.
  - apply Hin. discriminate.
Qed.

(** With a progress emitter the loop visits every query and ends
    normally; a failing iteration leaves its two marks in the trace. *)
Lemma forEachQuery_emitter model firecrawlKey serpQueries :
  forall (acc : Accumulated) (s : State),
    let its := iterations variant (Some callback) model firecrawlKey serpQueries s in
    exists s' evs,
      forEachQuery variant (Some callback) model firecrawlKey serpQueries acc s =
        (s', Ok (fst acc ++ pushedGrants its, snd acc ++ pushedUrls its)) /\
      events s' = events s ++ evs /\
      map fst its = serpQueries /\
      (forall q, In q serpQueries ->
                 In (OnProgress (formatProgress.researching q)) evs) /\
      (forall q e, In (q, Throw e) its ->
                   In (ConsoleError ("Error running grant query: " ++ q ++ ": ")%string e)
                      evs /\
                   In (OnProgress (queryErrorMessage q e)) evs).
Proof.
  induction serpQueries as [| serpQuery rest IH]; intros acc s; simpl.
  - exists s, []. unfold ret. rewrite !app_nil_r.
    repeat split; try tauto. now destruct acc.
  - unfold bind at 1, try_catch. rewrite tryQuery_acc.
    destruct (tryQuery_trace model firecrawlKey serpQuery ([], []) s)
      as (evs1 & Hev1 & Hin1).
    destruct (tryQuery variant (Some callback) model firecrawlKey serpQuery ([], []) s)
      as [s1 [pushed | e]]; simpl in Hev1.
    + destruct (IH (fst acc ++ fst pushed, snd acc ++ snd pushed) s1)
        as (s' & evs2 & Hrun & Hev2 & Hmap & Hall & Herr).
      exists s', (evs1 ++ evs2).
      unfold pushedGrants, pushedUrls in *. cbn [flat_map snd fst map] in *.
      rewrite Hrun, !app_assoc.
      split; [reflexivity|]. split; [| split; [| split]].
      * rewrite Hev2, Hev1, <- ?app_assoc. reflexivity.
      * now rewrite Hmap.
      * intros q [<- | Hq]; rewrite in_app_iff; [now left | right; now apply Hall].
      * intros q e' [Hit | Hit]; [discriminate|].
        destruct (Herr q e' Hit). rewrite !in_app_iff. tauto.
    + rewrite catchQuery_acc.
      destruct (catchQuery_emitter serpQuery ([], []) e s1)
        as (s2 & evs2 & Hcatch & Hev2 & Hin2).
      rewrite Hcatch.
      destruct (IH acc s2) as (s' & evs3 & Hrun & Hev3 & Hmap & Hall & Herr).
      exists s',
        (evs1 ++
         ConsoleError ("Error running grant query: " ++ serpQuery ++ ": ")%string e
           :: evs2 ++ evs3).
      unfold pushedGrants, pushedUrls in *. cbn [flat_map snd fst map app] in *.
      rewrite Hrun.
      split; [reflexivity|]. split; [| split; [| split]].
      * rewrite Hev3, Hev2, Hev1, <- ?app_assoc. reflexivity.
      * now rewrite Hmap.
      * intros q [<- | Hq]; rewrite in_app_iff; [now left|].
        right. right. rewrite in_app_iff. right. now apply Hall.
      * intros q e' [Hit | Hit].
        -- inversion Hit; subst. rewrite !in_app_iff. simpl. rewrite !in_app_iff.
           tauto.
        -- destruct (Herr q e' Hit). rewrite !in_app_iff. simpl.
           rewrite !in_app_iff. tauto.
Qed.

(** C5. With a progress emitter for callback, whatever queries were
    generated: [researchAgricultureGrants] returns a result; every query
    has its iteration and its ["Researching"] notification; for each
    iteration that threw, the error was logged and a notification naming
    the query and the error was sent; and the result has the name of
    every grant and every URL pushed by the iterations that did not
    throw. *)
Theorem failing_query_is_not_fatal
    (query : string) (farmType location : option string) (numQueries : option Z)
    (model : Model) (firecrawlKey : option string)
    (s s0 : State) (serpQueries : list string) :
  let n := match numQueries with Some n => n | None => defaultNumQueries variant end in
  generateGrantQueries query farmType location (Some n) (Some callback) model s =
    (s0, Ok serpQueries) ->
  let its := iterations variant (Some callback) model firecrawlKey serpQueries s0 in
  exists s' evs r,
    researchAgricultureGrants variant query farmType location numQueries
      (Some callback) model firecrawlKey s = (s', Ok r) /\
    events s' = events s0 ++ evs /\
    map fst its = serpQueries /\
    (forall q, In q serpQueries ->
               In (OnProgress (formatProgress.researching q)) evs) /\
    (forall q e,
       In (q, Throw e) its ->
       In (ConsoleError ("Error running grant query: " ++ q ++ ": ")%string e) evs /\
       In (OnProgress
             ("Error researching grants with " ++ JS.DQ ++ q ++ JS.DQ ++ ": " ++
              JS.Error_toString e)%string) evs) /\
    (forall q pushed,
       In (q, Ok pushed) its ->
       (forall g, In g (fst pushed) -> In (name g) (map name (grants r))) /\
       (forall u, In u (snd pushed) -> In u (visitedUrls r))).
Proof.
  intros n Hgen its.
  destruct (forEachQuery_emitter model firecrawlKey serpQueries ([], []) s0)
    as (s' & evs & Hloop & Hev & Hmap & Hall & Herr).
  fold its in Hloop, Hmap, Herr. simpl in Hloop.
  exists s', evs,
    {| grants := uniqueGrants (pushedGrants its);
       visitedUrls := JS.Set_new (pushedUrls its) |}.
  split; [| repeat split; try assumption].
  - unfold researchAgricultureGrants. fold n. unfold bind at 1. rewrite Hgen.
    unfold bind. rewrite Hloop. reflexivity.
  - now apply Herr.
  - now apply Herr.
  - intros g Hg. simpl. rewrite uniqueGrants_names, JSFacts.Set_new_In.
    apply in_map. unfold pushedGrants. apply in_flat_map.
    exists (q, Ok pushed). split; assumption.
  - intros u Hu. simpl. rewrite JSFacts.Set_new_In.
    unfold pushedUrls. apply in_flat_map.
    exists (q, Ok pushed). split; assumption.
Qed.

End Failure.

(** ** The URLs of pages without text *)

Section VisitedUrls.

Context `{Sv : Services}.

(** C9. When every page lacks text, [processGrantResults] returns no
    grant and no URL at all, whatever URLs the pages carry and whether
    or not the model would answer, for it is not called; a query whose
    pages all lack text therefore leaves the arrays of
    [researchAgricultureGrants] as they were.  Otherwise, the model
    answering, [processGrantResults] returns the URL of every page that
    has one, with or without text. *)
Theorem short_circuit_drops_visited_urls
    (query : string) (result : SearchResponse) (onProgress : option Callback)
    (model : Model) (s : State) :
  EmitterOrNone onProgress ->
  (forallb lacksContent (data result) = true ->
   (exists s',
      processGrantResults query result onProgress model s =
        (s', Ok {| grants := []; visitedUrls := [] |})) /\
   (forall variant firecrawlKey serpQuery (acc : Accumulated) (w0 : World),
      firecrawl_search firecrawlKey serpQuery (searchParams variant) (world s) =
        (w0, Ok result) ->
      exists s', tryQuery variant onProgress model firecrawlKey serpQuery acc s =
                   (s', Ok acc))) /\
  (forallb lacksContent (data result) = false ->
   forall (w : World) (res : list GrantInfo),
     generateObject GrantsSchema model
       (extractionOptions (grantResearchPromptAt (Date_toISOString (world s)))
          (contentsOf result)) (world s) = (w, Ok res) ->
     exists s' r,
       processGrantResults query result onProgress model s = (s', Ok r) /\
       visitedUrls r = JS.filter_non_null (map url (data result)) /\
       (forall page u, In page (data result) -> url page = Some u ->
                       In u (visitedUrls r))).
Proof.
  intros Hcb. split.
  - intros Hlack. split.
    + destruct (processGrantResults_short query result onProgress model s Hcb Hlack)
        as (s' & evs & Hrun & _).
      exists s'. exact Hrun.
    + intros variant firecrawlKey serpQuery acc w0 Hsearch.
      unfold tryQuery. unfold bind at 1. run_notify Hcb.
      unfold bind at 1, call_search, external. rewrite Hworld, Hsearch.
      unfold bind at 1. run_notify Hcb.
      destruct (0 <? length (data result))%nat.
      * unfold bind.
        destruct (processGrantResults_short serpQuery result onProgress model s1 Hcb
                    Hlack) as (s' & evs' & Hrun' & _).
        rewrite Hrun'. exists s'. unfold ret. simpl. rewrite !app_nil_r.
        now destruct acc.
      * exists s1. reflexivity.
  - intros Hlack w res Hmodel.
    destruct (processGrantResults_extract query result onProgress model s w res
                Hcb Hlack Hmodel) as (s' & evs & Hrun & _).
    exists s', {| grants := res;
                  visitedUrls := JS.filter_non_null (map url (data result)) |}.
    split; [exact Hrun|]. split; [reflexivity|].
    intros page u Hpage Hurl. simpl. apply filter_non_null_In.
    rewrite <- Hurl. now apply in_map.
Qed.

End VisitedUrls.

(** ** [writeGrantReport] *)

Section Report.

Context `{Sv : Services}.

(** C8. In the template version, when the templates are generated and
    the model answers [reportMarkdown], [writeGrantReport] returns the
    header line, then [reportMarkdown], then a ["## Sources"] section
    with one bullet line for each element of [visitedUrls], in order,
    whatever [reportMarkdown] is. *)
Theorem report_lists_supplied_urls
    (query : string) (farmType location : option string)
    (grants : list GrantInfo) (visitedUrls : list string) (model : Model)
    (s s1 : State) (templates : list TemplateEntry) (w : World)
    (reportMarkdown : string) :
  let farmDetails := farmDetailsOf query farmType location in
  Promise_all (map (templateTask farmDetails model) (JS.slice0 grants 3)) s =
    (s1, Ok templates) ->
  generateObject ReportMarkdownSchema model
    (reportOptions (grantResearchPromptAt (Date_toISOString (world s1)))
       farmDetails (grantsStringOf grants)
       (JS.join JS.LF (map templateBlock templates))) (world s1) =
    (w, Ok reportMarkdown) ->
  exists s',
    writeGrantReport query farmType location grants visitedUrls model s =
      (s', Ok ("# Agricultural Grant Opportunities Report" ++ JS.LF ++ JS.LF ++
               reportMarkdown ++
               JS.LF ++ JS.LF ++ "## Sources" ++ JS.LF ++ JS.LF ++
               JS.join JS.LF (map (fun url => "- " ++ url) visitedUrls))%string).
Proof.
  intros farmDetails Htemplates Hmodel.
  unfold writeGrantReport. fold farmDetails.
  unfold bind at 1. rewrite Htemplates.
  unfold bind at 1, grantResearchPrompt at 1.
  unfold bind, call_generateObject, external. rewrite Hmodel.
  eexists. unfold ret, urlsSection, reportHeader. reflexivity.
Qed.

End Report.

(** ** The streaming task *)

Section RouteFacts.

Context `{Sv : Services}.
Variable variant : Variant.

Lemma closeCalls_app (evs1 evs2 : list Event) :
  closeCalls (evs1 ++ evs2) = closeCalls evs1 + closeCalls evs2.
Proof. unfold closeCalls. now rewrite filter_app, length_app. Qed.

Lemma writerKept_refl (s : State) : writerKept s s.
Proof. split; reflexivity. Qed.

Lemma writerKept_trans (s1 s2 s3 : State) :
  writerKept s1 s2 -> writerKept s2 s3 -> writerKept s1 s3.
Proof. intros [H1 H1'] [H2 H2']. split; congruence. Qed.

Lemma writerKept_outside (s : State) (w : World) (ev : Event) :
  isWriterCall ev = false ->
  writerKept s {| world := w; events := events s ++ [ev];
                  writer_closed := writer_closed s; chunks := chunks s |}.
Proof.
  intros Hev. split; simpl; [reflexivity|].
  rewrite closeCalls_app. destruct ev; simpl in Hev; try discriminate Hev;
    unfold closeCalls; simpl; lia.
Qed.

(** The callback of the route on an open writer: one frame is written. *)
Lemma onProgress_open (update : string) (s : State) :
  writer_closed s = false ->
  onProgress update s =
    ({| world := world s;
        events := events s ++ [WriterWrite (sseFrame [("progress", JString update)])];
        writer_closed := false;
        chunks := chunks s ++ [sseFrame [("progress", JString update)]] |}, Ok tt).
Proof.
  intros Hopen. unfold onProgress, try_catch, writer_write. now rewrite Hopen.
Qed.

Lemma onProgress_emitter : ProgressEmitter onProgress.
Proof.
  intros update s. unfold onProgress, try_catch, writer_write, console_error, log.
  destruct (writer_closed s); simpl.
  - eexists.
    exists [WriterWrite (sseFrame [("progress", JString update)]);
            ConsoleError "[GRANT RESEARCH ROUTE] Error writing progress:"
              closed_stream_error].
    split; [reflexivity|]. simpl. rewrite <- app_assoc. auto.
  - eexists. exists [WriterWrite (sseFrame [("progress", JString update)])].
    split; [reflexivity|]. simpl. auto.
Qed.

Lemma onProgress_writerKept (update : string) : Respects writerKept (onProgress update).
Proof.
  intros s. unfold onProgress, try_catch, writer_write, console_error, log.
  destruct (writer_closed s) eqn:Hclosed; simpl; split; simpl;
    rewrite ?closeCalls_app; unfold closeCalls; simpl; auto; lia.
Qed.

Lemma research_writerKept query farmType location numQueries model firecrawlKey :
  Respects writerKept
    (researchAgricultureGrants variant query farmType location numQueries
       (Some onProgress) model firecrawlKey).
Proof.
  apply Respects_researchAgricultureGrants.
  - apply writerKept_refl.
  - apply writerKept_trans.
  - apply writerKept_outside.
  - intros callback [= <-]. apply onProgress_writerKept.
Qed.

Lemma modelCallsGrow_refl (s : State) : modelCallsGrow s s.
Proof. unfold modelCallsGrow. lia. Qed.

Lemma modelCallsGrow_trans (s1 s2 s3 : State) :
  modelCallsGrow s1 s2 -> modelCallsGrow s2 s3 -> modelCallsGrow s1 s3.
Proof. unfold modelCallsGrow. lia. Qed.

Lemma modelCallsGrow_outside (s : State) (w : World) (ev : Event) :
  isWriterCall ev = false ->
  modelCallsGrow s {| world := w; events := events s ++ [ev];
                      writer_closed := writer_closed s; chunks := chunks s |}.
Proof.
  intros _. unfold modelCallsGrow. simpl. rewrite modelCalls_app, length_app. lia.
Qed.

(** A call of [generateObject] adds one model call to the trace, whatever
    the model answers. *)
Lemma call_generateObject_counted (sch : Schema) (model : Model) (options : CallOptions)
    (s : State) :
  length (modelCalls (events (fst (call_generateObject sch model options s)))) =
  S (length (modelCalls (events s))).
Proof.
  unfold call_generateObject, external.
  destruct (generateObject sch model options (world s)) as [w r]. simpl.
  rewrite modelCalls_app, length_app. simpl. lia.
Qed.

Lemma templateTask_counted (farmDetails : string) (model : Model) (grant : GrantInfo)
    (s : State) :
  length (modelCalls (events (fst (templateTask farmDetails model grant s)))) =
  S (length (modelCalls (events s))).
Proof.
  unfold templateTask, generateGrantTemplate, bind, grantResearchPrompt.
  match goal with
  | |- context [call_generateObject ?sch ?m ?o s] =>
      pose proof (call_generateObject_counted sch m o s) as Hcall;
      destruct (call_generateObject sch m o s) as [s1 [t | e]]
  end; exact Hcall.
Qed.

(** Both versions of [writeGrantReport] call the model at least once. *)
Lemma writeReport_calls_model query farmType location grants visitedUrls model
    (s : State) :
  length (modelCalls (events s)) <
  length (modelCalls
            (events (fst (writeReport variant query farmType location grants
                            visitedUrls model s)))).
Proof.
  unfold writeReport. destruct variant.
  - unfold bind at 1. unfold writeGrantReport_structured, bind at 1, grantResearchPrompt.
    match goal with
    | |- context [call_generateObject ?sch ?m ?o s] =>
        pose proof (call_generateObject_counted sch m o s) as Hcall;
        destruct (call_generateObject sch m o s) as [s1 [t | e]]
    end; simpl in *; lia.
  - unfold bind at 1. unfold writeGrantReport.
    set (farmDetails := farmDetailsOf query farmType location).
    set (finish := fun templates : list TemplateEntry =>
                     bind grantResearchPrompt
                       (fun system =>
                          bind (call_generateObject ReportMarkdownSchema model
                                  (reportOptions system farmDetails
                                     (grantsStringOf grants)
                                     (JS.join JS.LF (map templateBlock templates))))
                               (fun reportMarkdown =>
                                  ret (reportHeader ++ JS.LF ++ JS.LF ++ reportMarkdown ++
                                       urlsSection visitedUrls)%string))).
    change (length (modelCalls (events s)) <
            length (modelCalls
                      (events
                         (fst (let '(s', r) :=
                                 bind (Promise_all
                                         (map (templateTask farmDetails model)
                                              (JS.slice0 grants 3))) finish s in
                               match r with
                               | Ok a => ret (JString a) s'
                               | Throw e => (s', Throw e)
                               end))))).
    assert (Hfinish : forall templates st,
               length (modelCalls (events (fst (finish templates st)))) =
               S (length (modelCalls (events st)))).
    { intros templates st. unfold finish, bind, grantResearchPrompt.
      match goal with
      | |- context [call_generateObject ?sch ?m ?o st] =>
          pose proof (call_generateObject_counted sch m o st) as Hcall;
          destruct (call_generateObject sch m o st) as [s1 [t | e]]
      end; exact Hcall. }
    assert (Htasks : forall tasks : list GrantInfo,
               Respects modelCallsGrow
                 (Promise_all (map (templateTask farmDetails model) tasks))).
    { intros tasks.
      apply Respects_Promise_all;
        [apply modelCallsGrow_refl | apply modelCallsGrow_trans |].
      intros task Htask. apply in_map_iff in Htask. destruct Htask as (g & <- & _).
      intros st. unfold modelCallsGrow. rewrite templateTask_counted. lia. }
    assert (Hall :
              length (modelCalls (events s)) <
              length (modelCalls
                        (events
                           (fst (bind (Promise_all
                                         (map (templateTask farmDetails model)
                                              (JS.slice0 grants 3))) finish s))))).
    { unfold bind. pose proof (Htasks (JS.slice0 grants 3) s) as Hgrow.
      unfold modelCallsGrow in Hgrow.
      destruct (JS.slice0 grants 3) as [| g rest] eqn:Hslice.
      - simpl. rewrite Hfinish. lia.
      - destruct (Promise_all (map (templateTask farmDetails model) (g :: rest)) s)
          as [s1 [templates | e]] eqn:Hrun.
        + simpl in Hgrow. rewrite Hfinish. lia.
        + simpl in Hgrow |- *. simpl in Hrun.
          pose proof (templateTask_counted farmDetails model g s) as Hfirst.
          destruct (templateTask farmDetails model g s) as [s2 [t | e2]];
            simpl in Hfirst.
          * unfold bind in Hrun.
            pose proof (Htasks rest s2) as Hrest. unfold modelCallsGrow in Hrest.
            destruct (Promise_all (map (templateTask farmDetails model) rest) s2)
              as [s3 [x | e3]]; simpl in Hrest.
            -- discriminate Hrun.
            -- inversion Hrun; subst. lia.
          * pose proof (Htasks rest s2) as Hrest. unfold modelCallsGrow in Hrest.
            destruct (Promise_all (map (templateTask farmDetails model) rest) s2)
              as [s3 r3]; simpl in Hrest.
            inversion Hrun; subst. lia. }
    destruct (bind (Promise_all (map (templateTask farmDetails model)
                                   (JS.slice0 grants 3))) finish s)
      as [s1 [report | e]]; exact Hall.
Qed.

(** The zero-grants path of the task, from the state [s1] in which the
    research returned. *)
Lemma researchTask_without_grants
    (query : string) (farmType location : option string) (numQueries : option Z)
    (model : Model) (firecrawlKey : option string)
    (s s1 : State) (r : GrantResearchResult) :
  let n := match numQueries with Some n => n | None => 5%Z end in
  writer_closed s = false ->
  researchAgricultureGrants variant query farmType location (Some n)
    (Some onProgress) model firecrawlKey s = (s1, Ok r) ->
  grants r = [] ->
  researchTask variant query farmType location numQueries model firecrawlKey s =
    ({| world := world s1;
        events :=
          events s1 ++
          [OnProgress noGrantsProgress;
           WriterWrite (sseFrame [("progress", JString noGrantsProgress)]);
           WriterWrite (sseFrame [("done", JBool true);
                                  ("report", JString noGrantsReport)]);
           WriterClose;
           WriterClose];
        writer_closed := true;
        chunks :=
          chunks s1 ++
          [sseFrame [("progress", JString noGrantsProgress)];
           sseFrame [("done", JBool true); ("report", JString noGrantsReport)]] |},
     Throw closed_stream_error).
Proof.
  intros n Hopen Hrun Hnone.
  assert (Hopen1 : writer_closed s1 = false).
  { pose proof (research_writerKept query farmType location (Some n) model
                  firecrawlKey s) as [Hkept _].
    rewrite Hrun in Hkept. simpl in Hkept. congruence. }
  unfold researchTask. fold n.
  unfold try_finally, try_catch, researchAndReport. unfold bind at 1.
  rewrite Hrun, Hnone. cbn [length Nat.eqb].
  unfold notify, bind, log. rewrite onProgress_open by exact Hopen1.
  unfold writer_write, writer_close, ret. cbn.
  rewrite <- !app_assoc. reflexivity.
Qed.

(** C3. When the research returns a result without grants, the task
    sends the fixed progress message and then a [done] event whose
    report is ["No grants found that match your criteria."]: the text
    [data: ], the JSON text of the object with [done] true and that
    report, and two line feeds.  That chunk is the last one of the
    stream, and nothing but the two writes and the calls of [close]
    follows the research.  The trace gains no call of the model, which
    every call of [writeGrantReport] would add: the report is not
    written. *)
Theorem no_grants_ends_without_report
    (query : string) (farmType location : option string) (numQueries : option Z)
    (model : Model) (firecrawlKey : option string)
    (s s1 : State) (r : GrantResearchResult) :
  let n := match numQueries with Some n => n | None => 5%Z end in
  writer_closed s = false ->
  researchAgricultureGrants variant query farmType location (Some n)
    (Some onProgress) model firecrawlKey s = (s1, Ok r) ->
  length (grants r) = 0 ->
  exists s' outcome,
    researchTask variant query farmType location numQueries model firecrawlKey s =
      (s', outcome) /\
    chunks s' =
      chunks s1 ++
      [("data: " ++
        JSON_stringify
          [("progress",
            JString "No grants found. Try refining your search or providing more details about your farm/ranch.")] ++
        String "010" (String "010" EmptyString))%string;
       ("data: " ++
        JSON_stringify
          [("done", JBool true);
           ("report", JString "No grants found that match your criteria.")] ++
        String "010" (String "010" EmptyString))%string] /\
    modelCalls (events s') = modelCalls (events s1) /\
    (exists evs,
       events s' = events s1 ++ evs /\
       forallb (fun ev => match ev with
                          | OnProgress _ | WriterWrite _ | WriterClose => true
                          | _ => false
                          end) evs = true) /\
    (forall grants visitedUrls st,
       length (modelCalls (events st)) <
       length (modelCalls
                 (events (fst (writeReport variant query farmType location grants
                                 visitedUrls model st))))).
Proof.
  intros n Hopen Hrun Hnone.
  assert (Hgrants : grants r = []) by (destruct (grants r); [reflexivity | discriminate]).
  rewrite (researchTask_without_grants query farmType location numQueries model
             firecrawlKey s s1 r Hopen Hrun Hgrants).
  eexists. eexists. split; [reflexivity|]. cbn [chunks events]. split; [reflexivity|].
  split; [| split].
  - rewrite modelCalls_app. simpl. apply app_nil_r.
  - eexists. split; reflexivity.
  - intros grants visitedUrls st. apply writeReport_calls_model.
Qed.

(** The zero-grants path calls [close] twice: once in the [try] block
    and once more in the [finally] block, where it rejects. *)
Lemma researchTask_without_grants_closes_twice
    (query : string) (farmType location : option string) (numQueries : option Z)
    (model : Model) (firecrawlKey : option string)
    (s s1 : State) (r : GrantResearchResult) :
  let n := match numQueries with Some n => n | None => 5%Z end in
  writer_closed s = false ->
  researchAgricultureGrants variant query farmType location (Some n)
    (Some onProgress) model firecrawlKey s = (s1, Ok r) ->
  grants r = [] ->
  let run :=
    researchTask variant query farmType location numQueries model firecrawlKey s in
  closeCalls (events (fst run)) = closeCalls (events s) + 2 /\
  snd run = Throw closed_stream_error.
Proof.
  intros n Hopen Hrun Hnone run. subst run.
  rewrite (researchTask_without_grants query farmType location numQueries model
             firecrawlKey s s1 r Hopen Hrun Hnone).
  simpl. split; [| reflexivity].
  pose proof (research_writerKept query farmType location (Some n) model
                firecrawlKey s) as [_ Hcalls].
  rewrite Hrun in Hcalls. simpl in Hcalls.
  rewrite closeCalls_app, Hcalls. reflexivity.
Qed.

(** The path of the task on which the research throws. *)
Lemma researchTask_failure
    (query : string) (farmType location : option string) (numQueries : option Z)
    (model : Model) (firecrawlKey : option string)
    (s s1 : State) (e : JS.Error) :
  let n := match numQueries with Some n => n | None => 5%Z end in
  writer_closed s = false ->
  researchAgricultureGrants variant query farmType location (Some n)
    (Some onProgress) model firecrawlKey s = (s1, Throw e) ->
  let frame :=
    sseFrame [("error", JString ("Error in grant research: " ++ JS.Error_toString e))] in
  researchTask variant query farmType location numQueries model firecrawlKey s =
    ({| world := world s1;
        events :=
          events s1 ++
          [ConsoleError "[GRANT RESEARCH ROUTE] Error in research process:" e;
           WriterWrite frame;
           WriterClose];
        writer_closed := true;
        chunks := chunks s1 ++ [frame] |},
     Ok tt).
Proof.
  intros n Hopen Hrun frame.
  pose proof (research_writerKept query farmType location (Some n) model
                firecrawlKey s) as [Hkept _].
  rewrite Hrun in Hkept. simpl in Hkept.
  unfold researchTask. fold n.
  unfold try_finally, try_catch, researchAndReport. unfold bind at 1.
  rewrite Hrun. unfold reportFailure, bind, console_error, log, writer_write,
    writer_close. cbn [world events writer_closed chunks].
  rewrite Hkept, Hopen. cbn [world events writer_closed chunks].
  rewrite <- !app_assoc. reflexivity.
Qed.

(** When the research throws, the task reports the error and calls
    [close] once, in the [finally] block. *)
Lemma researchTask_failure_closes_once
    (query : string) (farmType location : option string) (numQueries : option Z)
    (model : Model) (firecrawlKey : option string)
    (s s1 : State) (e : JS.Error) :
  let n := match numQueries with Some n => n | None => 5%Z end in
  writer_closed s = false ->
  researchAgricultureGrants variant query farmType location (Some n)
    (Some onProgress) model firecrawlKey s = (s1, Throw e) ->
  let run :=
    researchTask variant query farmType location numQueries model firecrawlKey s in
  closeCalls (events (fst run)) = closeCalls (events s) + 1 /\
  snd run = Ok tt.
Proof.
  intros n Hopen Hrun run. subst run.
  rewrite (researchTask_failure query farmType location numQueries model
             firecrawlKey s s1 e Hopen Hrun).
  pose proof (research_writerKept query farmType location (Some n) model
                firecrawlKey s) as [_ Hcalls].
  rewrite Hrun in Hcalls. simpl in Hcalls. simpl.
  rewrite closeCalls_app, Hcalls. split; reflexivity.
Qed.

(** When grants were found, the task calls [close] once, in the
    [finally] block, whether the report is written or not. *)
Lemma researchTask_with_grants_closes_once
    (query : string) (farmType location : option string) (numQueries : option Z)
    (model : Model) (firecrawlKey : option string)
    (s s1 : State) (r : GrantResearchResult) :
  let n := match numQueries with Some n => n | None => 5%Z end in
  writer_closed s = false ->
  researchAgricultureGrants variant query farmType location (Some n)
    (Some onProgress) model firecrawlKey s = (s1, Ok r) ->
  grants r <> [] ->
  let run :=
    researchTask variant query farmType location numQueries model firecrawlKey s in
  closeCalls (events (fst run)) = closeCalls (events s) + 1 /\
  snd run = Ok tt.
Proof.
  intros n Hopen Hrun Hsome run.
  pose proof (research_writerKept query farmType location (Some n) model
                firecrawlKey s) as [Hkept Hcalls].
  rewrite Hrun in Hkept, Hcalls. simpl in Hkept, Hcalls.
  rewrite Hopen in Hkept.
  assert (Hlen : (length (grants r) =? 0)%nat = false).
  { destruct (grants r); [congruence | reflexivity]. }
  set (message := ("Generating comprehensive report for " ++
                   JS.string_of_nat (length (grants r)) ++ " grants...")%string).
  pose proof (Respects_writeReport writerKept writerKept_refl writerKept_trans
                writerKept_outside variant query farmType location (grants r)
                (visitedUrls r) model) as Hreport.
  assert (Hrun' :
    exists s2 outcome,
      researchAndReport variant query farmType location n model firecrawlKey s =
        (s2, outcome) /\
      writer_closed s2 = false /\
      closeCalls (events s2) = closeCalls (events s)).
  { unfold researchAndReport. unfold bind at 1. rewrite Hrun, Hlen. fold message.
    unfold bind at 1, notify. unfold bind at 1, log.
    rewrite onProgress_open by exact Hkept.
    match goal with
    | |- context [{| world := ?w; events := ?evs; writer_closed := false;
                     chunks := ?c |}] =>
        remember {| world := w; events := evs; writer_closed := false; chunks := c |}
          as s2 eqn:Es2
    end.
    assert (Hs2 : writer_closed s2 = false /\ closeCalls (events s2) = closeCalls (events s)).
    { rewrite Es2. simpl. split; [reflexivity|].
      rewrite !closeCalls_app, Hcalls. unfold closeCalls. simpl. lia. }
    clear Es2. destruct Hs2 as [Hopen2 Hcalls2].
    unfold bind at 1. specialize (Hreport s2).
    destruct (writeReport variant query farmType location (grants r)
                (visitedUrls r) model s2) as [s3 [finalReport | e]];
      destruct Hreport as [Hkept3 Hcalls3]; simpl in Hkept3, Hcalls3.
    - unfold bind, writer_write, console_log, log.
      rewrite Hkept3, Hopen2. eexists. eexists. split; [reflexivity|].
      simpl. split; [reflexivity|].
      rewrite !closeCalls_app, Hcalls3, Hcalls2. unfold closeCalls. simpl. lia.
    - exists s3, (Throw e). repeat split; congruence. }
  destruct Hrun' as (s2 & outcome & Hbody & Hopen2 & Hcalls2).
  subst run. unfold researchTask. fold n.
  unfold try_finally, try_catch. rewrite Hbody.
  destruct outcome as [[] | e].
  - unfold writer_close. rewrite Hopen2. simpl.
    rewrite closeCalls_app, Hcalls2. split; reflexivity.
  - unfold reportFailure, bind, console_error, log, writer_write, writer_close.
    cbn [world events writer_closed chunks]. rewrite Hopen2.
    cbn [world events writer_closed chunks fst snd].
    rewrite !closeCalls_app, Hcalls2. unfold closeCalls. simpl.
    split; [lia | reflexivity].
Qed.

End RouteFacts.


(** ** The properties on scripted runs *)

Module Examples.

Import Scenario.

#[local] Existing Instance services.

Lemma progress_emitter : @ProgressEmitter services progress.
Proof. exact (@onProgress_emitter services). Qed.

(** C1, as the specification words it, fails.  Two queries find a grant
    of the same name; the copy of the second query is the one returned,
    not the first one met. *)
Lemma first_seen_copy_is_not_kept :
  snd (researchOn duplicateScript 5) =
    Ok {| grants := [vapgSecond]; visitedUrls := reportUrls |} /\
  pushedGrants
    (iterationsOn ["usda grants oregon"; "organic farm grants"]
       (fst (generateOn duplicateScript 5))) = [vapgFirst; vapgSecond] /\
  name vapgFirst = name vapgSecond /\
  ~ keepsFirstSeen [vapgFirst; vapgSecond] [vapgSecond].
Proof.
  split; [vm_compute; reflexivity|]. split; [vm_compute; reflexivity|].
  split; [reflexivity|].
  intros Hfirst. destruct (Hfirst vapgSecond (or_introl eq_refl))
    as (before & after & Heq & Hnew).
  destruct before as [| g before].
  - discriminate Heq.
  - inversion Heq; subst. apply Hnew. now left.
Qed.

Lemma duplicates_keep_last_seen_copy_witness :
  researchOn duplicateScript 5 =
    (fst (researchOn duplicateScript 5),
     Ok {| grants := [vapgSecond]; visitedUrls := reportUrls |}) /\
  exists s0 serpQueries,
    generateOn duplicateScript 5 = (s0, Ok serpQueries) /\
    (forall g,
       In g [vapgSecond] <->
       exists before after,
         pushedGrants (iterationsOn serpQueries s0) = before ++ g :: after /\
         ~ In (name g) (map name after)) /\
    map name [vapgSecond] =
      JS.Set_new (map name (pushedGrants (iterationsOn serpQueries s0))).
Proof.
  assert (Hrun : researchOn duplicateScript 5 =
                 (fst (researchOn duplicateScript 5),
                  Ok {| grants := [vapgSecond]; visitedUrls := reportUrls |}))
    by (vm_compute; reflexivity).
  split; [exact Hrun|].
  exact (@duplicates_keep_last_seen_copy services Template farm farmType location
           (Some 5%Z) (Some progress) tt None (start duplicateScript) _ _ Hrun).
Defined.

Lemma result_names_and_urls_unique_witness :
  researchOn duplicateScript 5 =
    (fst (researchOn duplicateScript 5),
     Ok {| grants := [vapgSecond]; visitedUrls := reportUrls |}) /\
  NoDup (map name [vapgSecond]) /\
  NoDup reportUrls.
Proof.
  assert (Hrun : researchOn duplicateScript 5 =
                 (fst (researchOn duplicateScript 5),
                  Ok {| grants := [vapgSecond]; visitedUrls := reportUrls |}))
    by (vm_compute; reflexivity).
  split; [exact Hrun|].
  destruct (@result_names_and_urls_unique services Template farm farmType location
              (Some 5%Z) (Some progress) tt None (start duplicateScript) _ _ Hrun)
    as (Hnames & Hurls & _).
  split; [exact Hnames | exact Hurls].
Defined.

Lemma failing_query_is_not_fatal_witness :
  @ProgressEmitter services progress /\
  generateOn failingScript 5 =
    (fst (generateOn failingScript 5),
     Ok ["usda grants oregon"; "state grants"; "eqip"]) /\
  exists s' evs r,
    researchOn failingScript 5 = (s', Ok r) /\
    In (OnProgress (formatProgress.researching "eqip")) evs /\
    In (ConsoleError "Error running grant query: state grants: " networkError) evs /\
    In (OnProgress
          ("Error researching grants with " ++ JS.DQ ++ "state grants" ++ JS.DQ ++
           ": Error: network down")%string) evs /\
    In (name eqip) (map name (grants r)) /\
    In "https://www.rd.usda.gov/vapg" (visitedUrls r).
Proof.
  pose proof progress_emitter as Hcb.
  assert (Hgen : generateOn failingScript 5 =
                 (fst (generateOn failingScript 5),
                  Ok ["usda grants oregon"; "state grants"; "eqip"]))
    by (vm_compute; reflexivity).
  split; [exact Hcb|]. split; [exact Hgen|].
  destruct (@failing_query_is_not_fatal services Template progress Hcb farm farmType
              location (Some 5%Z) tt None (start failingScript) _ _ Hgen)
    as (s' & evs & r & Hrun & _ & _ & Hall & Herr & Hok).
  assert (Hthrew :
            In ("state grants", Throw networkError)
               (iterationsOn ["usda grants oregon"; "state grants"; "eqip"]
                  (fst (generateOn failingScript 5))))
    by (vm_compute; right; left; reflexivity).
  assert (Hpushed :
            In ("eqip", Ok ([eqip], ["https://www.rd.usda.gov/vapg"]))
               (iterationsOn ["usda grants oregon"; "state grants"; "eqip"]
                  (fst (generateOn failingScript 5))))
    by (vm_compute; right; right; left; reflexivity).
  destruct (Herr _ _ Hthrew) as [Hlogged Hnotified].
  destruct (Hok _ _ Hpushed) as [Hnames Hurls].
  exists s', evs, r. split; [exact Hrun|]. split.
  { apply Hall. right. right. left. reflexivity. }
  split; [exact Hlogged|]. split; [exact Hnotified|]. split.
  - apply Hnames. left. reflexivity.
  - apply Hurls. left. reflexivity.
Defined.

Lemma generateGrantQueries_at_most_numQueries_witness :
  @EmitterOrNone services (Some progress) /\
  @generateObject services QueriesSchema tt
    (queriesOptions
       (grantResearchPromptAt (Date_toISOString (world (start failingScript))))
       farm farmType location 2)
    (world (start failingScript)) =
    (failingScript, Ok (queriesAnswer failingScript)) /\
  (exists s',
     generateOn failingScript 2 = (s', Ok ["usda grants oregon"; "state grants"])) /\
  (Z.of_nat (length ["usda grants oregon"; "state grants"]) <= 2)%Z.
Proof.
  pose proof progress_emitter as Hcb.
  assert (Hmodel :
            @generateObject services QueriesSchema tt
              (queriesOptions
                 (grantResearchPromptAt (Date_toISOString (world (start failingScript))))
                 farm farmType location 2)
              (world (start failingScript)) =
              (failingScript, Ok (queriesAnswer failingScript)))
    by reflexivity.
  split; [exact Hcb|]. split; [exact Hmodel|].
  destruct (@generateGrantQueries_at_most_numQueries services farm farmType location
              (Some 2%Z) (Some progress) tt) as [Hany Hemitter].
  destruct (Hemitter Hcb (start failingScript) _ _ Hmodel) as (s' & Hrun).
  split.
  - exists s'. exact Hrun.
  - apply (proj1 (Hany _ _ _ Hrun)). lia.
Defined.

(** C6, as the specification words it, fails for a negative
    [numQueries], which the route takes from the request body and hands
    on as it is: the model answers three queries, [slice(0, -1)] keeps
    the first two, and two is more than [numQueries]. *)
Lemma negative_numQueries_returns_more :
  generateOn failingScript (-1) =
    (fst (generateOn failingScript (-1)),
     Ok ["usda grants oregon"; "state grants"]) /\
  ~ (Z.of_nat (length ["usda grants oregon"; "state grants"]) <= -1)%Z /\
  ~ (forall (numQueries : Z) (s s' : @State services) (serpQueries : list string),
       @generateGrantQueries services farm farmType location (Some numQueries)
         (Some progress) tt s = (s', Ok serpQueries) ->
       (Z.of_nat (length serpQueries) <= numQueries)%Z).
Proof.
  assert (Hrun : generateOn failingScript (-1) =
                 (fst (generateOn failingScript (-1)),
                  Ok ["usda grants oregon"; "state grants"]))
    by (vm_compute; reflexivity).
  split; [exact Hrun|]. split.
  - cbn. lia.
  - intros Hclaim. specialize (Hclaim (-1)%Z _ _ _ Hrun). cbn in Hclaim. lia.
Qed.

Lemma created_notification_counts_uncut_answer_witness :
  @ProgressEmitter services progress /\
  @generateObject services QueriesSchema tt
    (queriesOptions
       (grantResearchPromptAt (Date_toISOString (world (start failingScript))))
       farm farmType location 2)
    (world (start failingScript)) =
    (failingScript, Ok (queriesAnswer failingScript)) /\
  exists s' evs serpQueries,
    generateOn failingScript 2 = (s', Ok serpQueries) /\
    In (OnProgress
          ("Created 3 grant-related SERP queries" ++ JS.LF ++
           "usda grants oregon, state grants, eqip")%string) evs /\
    length serpQueries < 3.
Proof.
  pose proof progress_emitter as Hcb.
  assert (Hmodel :
            @generateObject services QueriesSchema tt
              (queriesOptions
                 (grantResearchPromptAt (Date_toISOString (world (start failingScript))))
                 farm farmType location 2)
              (world (start failingScript)) =
              (failingScript, Ok (queriesAnswer failingScript)))
    by reflexivity.
  split; [exact Hcb|]. split; [exact Hmodel|].
  destruct (@created_notification_counts_uncut_answer services farm farmType location
              (Some 2%Z) progress tt (start failingScript) _ _ Hcb Hmodel)
    as (s' & evs & serpQueries & Hrun & _ & Hcreated & Hfewer).
  exists s', evs, serpQueries. split; [exact Hrun|]. split; [exact Hcreated|].
  apply Hfewer. vm_compute. split; [discriminate | reflexivity].
Defined.

Lemma processGrantResults_without_content_calls_no_model_witness :
  @EmitterOrNone services (Some progress) /\
  forallb lacksContent (data noTextResult) = true /\
  exists s' r,
    @processGrantResults services "usda grants oregon" noTextResult (Some progress) tt
      (start noTextScript) = (s', Ok r) /\
    grants r = [] /\
    modelCalls (events s') = [].
Proof.
  pose proof progress_emitter as Hcb.
  assert (Hlack : forallb lacksContent (data noTextResult) = true) by reflexivity.
  split; [exact Hcb|]. split; [exact Hlack|].
  exact (@processGrantResults_without_content_calls_no_model services
           "usda grants oregon" noTextResult (Some progress) tt (start noTextScript)
           Hcb Hlack).
Defined.

Lemma short_circuit_drops_visited_urls_witness :
  @EmitterOrNone services (Some progress) /\
  @EmitterOrNone Outage.noExtraction (Some (@onProgress Outage.noExtraction)) /\
  @generateObject services GrantsSchema tt
    (extractionOptions
       (grantResearchPromptAt (Date_toISOString (world (start duplicateScript))))
       (contentsOf textResult))
    (world (start duplicateScript)) =
    (afterExtraction duplicateScript, Ok [vapgFirst]) /\
  (exists s' r,
     @processGrantResults services "usda grants oregon" textResult (Some progress) tt
       (start duplicateScript) = (s', Ok r) /\
     visitedUrls r =
       ["https://www.rd.usda.gov/vapg"; "https://example.org/scanned.pdf"]) /\
  (exists s',
     @processGrantResults services "usda grants oregon" noTextResult (Some progress) tt
       (start noTextScript) = (s', Ok {| grants := []; visitedUrls := [] |})) /\
  (exists s',
     @tryQuery services Template (Some progress) tt None "usda grants oregon"
       ([vapgFirst], ["https://www.rd.usda.gov/vapg"]) (start noTextScript) =
       (s', Ok ([vapgFirst], ["https://www.rd.usda.gov/vapg"]))) /\
  (exists s',
     @processGrantResults Outage.noExtraction "usda grants oregon" noTextResult
       (Some (@onProgress Outage.noExtraction)) tt
       (@initialState Outage.noExtraction noTextScript) =
       (s', Ok {| grants := []; visitedUrls := [] |})).
Proof.
  pose proof progress_emitter as Hcb.
  pose proof (@onProgress_emitter Outage.noExtraction) as Hdown.
  assert (Htext :
            @generateObject services GrantsSchema tt
              (extractionOptions
                 (grantResearchPromptAt
                    (Date_toISOString (world (start duplicateScript))))
                 (contentsOf textResult))
              (world (start duplicateScript)) =
              (afterExtraction duplicateScript, Ok [vapgFirst]))
    by reflexivity.
  split; [exact Hcb|]. split; [exact Hdown|]. split; [exact Htext|].
  destruct (@short_circuit_drops_visited_urls services "usda grants oregon" textResult
              (Some progress) tt (start duplicateScript) Hcb)
    as [_ Hextract].
  destruct (Hextract eq_refl _ _ Htext) as (s1 & r1 & Hrun1 & Hurls1 & _).
  destruct (@short_circuit_drops_visited_urls services "usda grants oregon"
              noTextResult (Some progress) tt (start noTextScript) Hcb)
    as [Hshort _].
  destruct (Hshort eq_refl) as [Hrun2 Hloop].
  destruct (@short_circuit_drops_visited_urls Outage.noExtraction "usda grants oregon"
              noTextResult (Some (@onProgress Outage.noExtraction)) tt
              (@initialState Outage.noExtraction noTextScript) Hdown)
    as [Hshort3 _].
  destruct (Hshort3 eq_refl) as [Hrun3 _].
  split; [| split; [| split]].
  - exists s1, r1. split; [exact Hrun1 | exact Hurls1].
  - exact Hrun2.
  - apply (Hloop Template None "usda grants oregon" _ noTextScript). reflexivity.
  - exact Hrun3.
Defined.

Lemma no_grants_ends_without_report_witness :
  writer_closed (start noTextScript) = false /\
  researchOn noTextScript 5 =
    (fst (researchOn noTextScript 5), Ok {| grants := []; visitedUrls := [] |}) /\
  exists s' outcome,
    taskOn noTextScript = (s', outcome) /\
    chunks s' =
      chunks (fst (researchOn noTextScript 5)) ++
      [("data: {" ++ JS.DQ ++ "progress" ++ JS.DQ ++ ":" ++ JS.DQ ++
        "No grants found. Try refining your search or providing more details about your farm/ranch." ++
        JS.DQ ++ "}" ++ String "010" (String "010" EmptyString))%string;
       ("data: {" ++ JS.DQ ++ "done" ++ JS.DQ ++ ":true," ++
        JS.DQ ++ "report" ++ JS.DQ ++ ":" ++ JS.DQ ++
        "No grants found that match your criteria." ++ JS.DQ ++ "}" ++
        String "010" (String "010" EmptyString))%string] /\
    modelCalls (events s') = modelCalls (events (fst (researchOn noTextScript 5))).
Proof.
  assert (Hopen : writer_closed (start noTextScript) = false) by reflexivity.
  assert (Hrun : researchOn noTextScript 5 =
                 (fst (researchOn noTextScript 5),
                  Ok {| grants := []; visitedUrls := [] |}))
    by (vm_compute; reflexivity).
  split; [exact Hopen|]. split; [exact Hrun|].
  destruct (@no_grants_ends_without_report services Template farm farmType location
              None tt None (start noTextScript) _ _ Hopen Hrun eq_refl)
    as (s' & outcome & Htask & Hchunks & Hcalls & _).
  exists s', outcome. split; [exact Htask|]. split; [exact Hchunks | exact Hcalls].
Defined.

Lemma report_lists_supplied_urls_witness :
  templatesOn duplicateScript [vapgSecond] =
    (fst (templatesOn duplicateScript [vapgSecond]),
     Ok [{| grantName := "USDA Value-Added Producer Grant";
            template := "## Project Summary";
            tips := ["Apply early"] |}]) /\
  exists s',
    @writeGrantReport services farm farmType location [vapgSecond] reportUrls tt
      (start duplicateScript) =
      (s', Ok ("# Agricultural Grant Opportunities Report" ++ JS.LF ++ JS.LF ++
               "## Executive Summary" ++
               JS.LF ++ JS.LF ++ "## Sources" ++ JS.LF ++ JS.LF ++
               "- https://www.rd.usda.gov/vapg" ++ JS.LF ++
               "- https://example.org/scanned.pdf")%string).
Proof.
  assert (Htemplates :
            templatesOn duplicateScript [vapgSecond] =
              (fst (templatesOn duplicateScript [vapgSecond]),
               Ok [{| grantName := "USDA Value-Added Producer Grant";
                      template := "## Project Summary";
                      tips := ["Apply early"] |}]))
    by (vm_compute; reflexivity).
  split; [exact Htemplates|].
  exact (@report_lists_supplied_urls services farm farmType location [vapgSecond]
           reportUrls tt (start duplicateScript) _ _ duplicateScript
           "## Executive Summary" Htemplates eq_refl).
Defined.

(** C2 fails on the zero-grants path.  The one query of the script finds
    pages without text, so no grant is found: the task calls [close] in
    its [try] block and again in its [finally] block, and the second
    call rejects. *)
Theorem zero_grants_path_closes_twice :
  closeCalls (events (fst (taskOn noTextScript))) = 2 /\
  snd (taskOn noTextScript) = Throw closed_stream_error /\
  snd (researchOn noTextScript 5) = Ok {| grants := []; visitedUrls := [] |}.
Proof. repeat split; vm_compute; reflexivity. Qed.

(** On the other paths [close] is called once. *)
Example report_path_closes_once :
  closeCalls (events (fst (taskOn duplicateScript))) = 1 /\
  snd (taskOn duplicateScript) = Ok tt.
Proof. split; vm_compute; reflexivity. Qed.

End Examples.

(** * Further properties *)

(** ** The calls made to the model and to the search service *)

Section CallProtocol.

Context `{Sv : Services}.
Variable variant : Variant.

Lemma serviceCalls_app (evs1 evs2 : list Event) :
  serviceCalls (evs1 ++ evs2) = serviceCalls evs1 ++ serviceCalls evs2.
Proof. apply filter_app. Qed.

Lemma serviceCalls_quiet (evs : list Event) :
  forallb (fun ev => negb (isServiceCall ev)) evs = true -> serviceCalls evs = [].
Proof.
  induction evs as [| ev evs IH]; simpl; [reflexivity|].
  intros H. apply andb_prop in H. destruct H as [Hev Hevs].
  unfold serviceCalls. simpl. destruct (isServiceCall ev); [discriminate|].
  now apply IH.
Qed.

(** The calls [processGrantResults] makes: none on the short circuit, one
    extraction call otherwise, whatever the model answers. *)
Lemma processGrantResults_calls (query : string) (result : SearchResponse)
    (onProgress : option Callback) (model : Model) (s : State) :
  EmitterOrNone onProgress ->
  exists evs,
    events (fst (processGrantResults query result onProgress model s)) =
      events s ++ evs /\
    serviceCalls evs =
      (if forallb lacksContent (data result) then []
       else [GenerateObject GrantsSchema
               (extractionOptions (grantResearchPromptAt (Date_toISOString (world s)))
                  (contentsOf result))]).
Proof.
  intros Hcb. destruct (forallb lacksContent (data result)) eqn:Hlack.
  - destruct (processGrantResults_short query result onProgress model s Hcb Hlack)
      as (s' & evs & Hrun & _ & Hev & Hquiet).
    exists evs. rewrite Hrun. split; [exact Hev | now apply serviceCalls_quiet].
  - unfold processGrantResults. unfold bind at 1. run_notify Hcb.
    rewrite contentsOf_empty, Hlack.
    unfold bind at 1, grantResearchPrompt at 1.
    unfold bind at 1, call_generateObject, external. rewrite Hworld.
    destruct (generateObject GrantsSchema model
                (extractionOptions (grantResearchPromptAt (Date_toISOString (world s)))
                   (contentsOf result)) (world s)) as [w [res | e]].
    + unfold bind at 1. run_notify Hcb. simpl in *.
      eexists. split.
      * rewrite Hevents0, Hevents, <- !app_assoc. reflexivity.
      * rewrite !serviceCalls_app, (serviceCalls_quiet evs Hquiet),
          (serviceCalls_quiet evs0 Hquiet0). reflexivity.
    + simpl. eexists. split.
      * rewrite Hevents, <- !app_assoc. reflexivity.
      * rewrite !serviceCalls_app, (serviceCalls_quiet evs Hquiet). reflexivity.
Qed.

Lemma tryQuery_calls (onProgress : option Callback) (model : Model)
    (firecrawlKey : option string) (serpQuery : string) (acc : Accumulated) (s : State) :
  EmitterOrNone onProgress ->
  exists evs,
    events (fst (tryQuery variant onProgress model firecrawlKey serpQuery acc s)) =
      events s ++ evs /\
    iterationCalls (searchParams variant) serpQuery (serviceCalls evs).
Proof.
  intros Hcb. unfold tryQuery. unfold bind at 1. run_notify Hcb.
  unfold bind at 1, call_search, external.
  destruct (firecrawl_search firecrawlKey serpQuery (searchParams variant) (world s0))
    as [w [searchResults | e]].
  - unfold bind at 1. run_notify Hcb.
    destruct (0 <? length (data searchResults))%nat.
    + unfold bind.
      destruct (processGrantResults_calls serpQuery searchResults onProgress model s1 Hcb)
        as (evs1 & Hev1 & Hcalls1).
      destruct (processGrantResults serpQuery searchResults onProgress model s1)
        as [s2 [r | e]]; simpl in Hev1 |- *.
      * eexists. split.
        -- rewrite Hev1, Hevents0. simpl. rewrite Hevents, <- !app_assoc. reflexivity.
        -- rewrite !serviceCalls_app, (serviceCalls_quiet evs Hquiet),
             (serviceCalls_quiet evs0 Hquiet0), Hcalls1. simpl.
           destruct (forallb lacksContent (data searchResults)); [now left|].
           right. eexists. split; reflexivity.
      * eexists. split.
        -- rewrite Hev1, Hevents0. simpl. rewrite Hevents, <- !app_assoc. reflexivity.
        -- rewrite !serviceCalls_app, (serviceCalls_quiet evs Hquiet),
             (serviceCalls_quiet evs0 Hquiet0), Hcalls1. simpl.
           destruct (forallb lacksContent (data searchResults)); [now left|].
           right. eexists. split; reflexivity.
    + simpl. eexists. split.
      * rewrite Hevents0. simpl. rewrite Hevents, <- !app_assoc. reflexivity.
      * rewrite !serviceCalls_app, (serviceCalls_quiet evs Hquiet),
          (serviceCalls_quiet evs0 Hquiet0). now left.
  - simpl. eexists. split.
    + rewrite Hevents, <- !app_assoc. reflexivity.
    + rewrite !serviceCalls_app, (serviceCalls_quiet evs Hquiet). now left.
Qed.

(** One iteration of the loop ends normally and makes the calls of one
    iteration, whether its [try] block threw or not. *)
Lemma iteration_calls (onProgress : option Callback) (model : Model)
    (firecrawlKey : option string) (serpQuery : string) (acc : Accumulated) (s : State) :
  EmitterOrNone onProgress ->
  exists s1 acc1 evs,
    try_catch (tryQuery variant onProgress model firecrawlKey serpQuery acc)
              (catchQuery onProgress serpQuery acc) s = (s1, Ok acc1) /\
    events s1 = events s ++ evs /\
    iterationCalls (searchParams variant) serpQuery (serviceCalls evs).
Proof.
  intros Hcb. unfold try_catch.
  destruct (tryQuery_calls onProgress model firecrawlKey serpQuery acc s Hcb)
    as (evs & Hev & Hcalls).
  destruct (tryQuery variant onProgress model firecrawlKey serpQuery acc s)
    as [s1 [acc1 | e]]; simpl in Hev.
  - now exists s1, acc1, evs.
  - unfold catchQuery. unfold bind at 1, console_error, log.
    unfold bind at 1. run_notify Hcb. simpl in *. unfold ret.
    eexists. eexists. eexists. split; [reflexivity|]. split.
    + rewrite Hevents, Hev, <- !app_assoc. reflexivity.
    + rewrite !serviceCalls_app, (serviceCalls_quiet evs0 Hquiet). simpl.
      now rewrite app_nil_r.
Qed.

Lemma forEachQuery_calls (onProgress : option Callback) (model : Model)
    (firecrawlKey : option string) (serpQueries : list string) :
  EmitterOrNone onProgress ->
  forall (acc : Accumulated) (s : State),
    exists s' acc' evs perQuery,
      forEachQuery variant onProgress model firecrawlKey serpQueries acc s =
        (s', Ok acc') /\
      events s' = events s ++ evs /\
      serviceCalls evs = concat perQuery /\
      Forall2 (iterationCalls (searchParams variant)) serpQueries perQuery.
Proof.
  intros Hcb. induction serpQueries as [| serpQuery rest IH]; intros acc s; simpl.
  - exists s, acc, [], []. unfold ret. rewrite app_nil_r. repeat split. constructor.
  - unfold bind at 1.
    destruct (iteration_calls onProgress model firecrawlKey serpQuery acc s Hcb)
      as (s1 & acc1 & evs1 & Hrun1 & Hev1 & Hcalls1).
    rewrite Hrun1.
    destruct (IH acc1 s1) as (s' & acc' & evs2 & perQuery & Hrun & Hev2 & Hcalls2 & Hall).
    exists s', acc', (evs1 ++ evs2), (serviceCalls evs1 :: perQuery).
    split; [exact Hrun|]. split; [| split].
    + rewrite Hev2, Hev1, <- app_assoc. reflexivity.
    + rewrite serviceCalls_app, Hcalls2. reflexivity.
    + now constructor.
Qed.

Lemma iterationCalls_searches (params : SearchParams) (serpQueries : list string)
    (perQuery : list (list Event)) :
  Forall2 (iterationCalls params) serpQueries perQuery ->
  searchCalls (concat perQuery) =
    map (fun serpQuery => FirecrawlSearch serpQuery params) serpQueries /\
  length (modelCalls (concat perQuery)) <= length serpQueries.
Proof.
  induction 1 as [| serpQuery calls rest perQuery Hcalls _ [IHs IHm]]; simpl.
  - split; [reflexivity | lia].
  - unfold searchCalls, modelCalls in *. rewrite !filter_app, length_app, IHs.
    destruct Hcalls as [-> | (options & -> & _)]; simpl; split; try reflexivity; lia.
Qed.

Lemma searchCalls_serviceCalls (evs : list Event) :
  searchCalls (serviceCalls evs) = searchCalls evs.
Proof.
  unfold searchCalls, serviceCalls. induction evs as [| ev evs IH]; simpl; [reflexivity|].
  destruct ev; simpl; rewrite ?IH; reflexivity.
Qed.

Lemma modelCalls_serviceCalls (evs : list Event) :
  modelCalls (serviceCalls evs) = modelCalls evs.
Proof.
  unfold modelCalls, serviceCalls. induction evs as [| ev evs IH]; simpl; [reflexivity|].
  destruct ev; simpl; rewrite ?IH; reflexivity.
Qed.

(** X1. Once the queries are generated, [researchAgricultureGrants]
    calls the services query by query and in the order of the queries:
    for each query one search, with the parameters of the version, then
    at most one extraction call with the 60 second limit, and nothing
    else.  So there are as many searches as queries, each for a generated
    query, and at most as many calls of the model. *)
Theorem research_calls_follow_queries
    (query : string) (farmType location : option string) (numQueries : option Z)
    (onProgress : option Callback) (model : Model) (firecrawlKey : option string)
    (s s0 : State) (serpQueries : list string) :
  let n := match numQueries with Some n => n | None => defaultNumQueries variant end in
  EmitterOrNone onProgress ->
  generateGrantQueries query farmType location (Some n) onProgress model s =
    (s0, Ok serpQueries) ->
  exists s' r evs perQuery,
    researchAgricultureGrants variant query farmType location numQueries onProgress
      model firecrawlKey s = (s', Ok r) /\
    events s' = events s0 ++ evs /\
    serviceCalls evs = concat perQuery /\
    Forall2 (iterationCalls (searchParams variant)) serpQueries perQuery /\
    searchCalls evs =
      map (fun serpQuery => FirecrawlSearch serpQuery (searchParams variant))
          serpQueries /\
    length (modelCalls evs) <= length serpQueries.
Proof.
  intros n Hcb Hgen.
  destruct (forEachQuery_calls onProgress model firecrawlKey serpQueries Hcb ([], []) s0)
    as (s' & all & evs & perQuery & Hloop & Hev & Hcalls & Hall).
  destruct (iterationCalls_searches _ _ _ Hall) as [Hsearches Hmodel].
  eexists. eexists. exists evs, perQuery. split.
  - unfold researchAgricultureGrants. fold n. unfold bind at 1. rewrite Hgen.
    unfold bind. rewrite Hloop. reflexivity.
  - split; [exact Hev|]. split; [exact Hcalls|]. split; [exact Hall|]. split.
    + rewrite <- searchCalls_serviceCalls, Hcalls. exact Hsearches.
    + rewrite <- modelCalls_serviceCalls, Hcalls. exact Hmodel.
Qed.

(** X2. A failure of the query generation is fatal: when the model
    rejects the call that generates the queries,
    [researchAgricultureGrants] rejects with the same error, having made
    that one call and no search. *)
Theorem query_generation_failure_is_fatal
    (query : string) (farmType location : option string) (numQueries : option Z)
    (onProgress : option Callback) (model : Model) (firecrawlKey : option string)
    (s : State) (w : World) (e : JS.Error) :
  let n := match numQueries with Some n => n | None => defaultNumQueries variant end in
  let options :=
    queriesOptions (grantResearchPromptAt (Date_toISOString (world s)))
      query farmType location n in
  EmitterOrNone onProgress ->
  generateObject QueriesSchema model options (world s) = (w, Throw e) ->
  exists s' evs,
    researchAgricultureGrants variant query farmType location numQueries onProgress
      model firecrawlKey s = (s', Throw e) /\
    events s' = events s ++ evs /\
    serviceCalls evs = [GenerateObject QueriesSchema options].
Proof.
  intros n options Hcb Hmodel.
  unfold researchAgricultureGrants. fold n. unfold bind at 1.
  unfold generateGrantQueries. unfold bind at 1. run_notify Hcb.
  unfold bind at 1, grantResearchPrompt at 1.
  unfold bind at 1, call_generateObject, external.
  rewrite Hworld. fold options. rewrite Hmodel. simpl.
  eexists. eexists. split; [reflexivity|]. simpl. split.
  - rewrite Hevents, <- app_assoc. reflexivity.
  - rewrite serviceCalls_app, (serviceCalls_quiet evs Hquiet). reflexivity.
Qed.

End CallProtocol.

(** ** Deduplication *)

Module DedupFacts.
Import JS.

Lemma Set_add_fresh (x : string) (s : list string) :
  ~ In x s -> Set_add x s = s ++ [x].
Proof.
  intros Hx. unfold Set_add. destruct (existsb (String.eqb x) s) eqn:E; [| reflexivity].
  apply JSFacts.existsb_eqb_In in E. contradiction.
Qed.

Lemma Set_add_present (x : string) (s : list string) : In x s -> Set_add x s = s.
Proof.
  intros Hx. unfold Set_add. apply JSFacts.existsb_eqb_In in Hx. now rewrite Hx.
Qed.

(** [new Set(l)] from a set built so far, when [l] brings nothing twice
    and nothing the set has. *)
Lemma Set_fold_fresh (l s : list string) :
  NoDup (s ++ l) -> fold_left (fun s x => Set_add x s) l s = s ++ l.
Proof.
  revert s. induction l as [| x l IH]; intros s Hnd; simpl.
  - now rewrite app_nil_r.
  - assert (Hx : ~ In x s).
    { apply NoDup_remove_2 in Hnd. intros Hin. apply Hnd. apply in_or_app. now left. }
    rewrite Set_add_fresh by assumption.
    rewrite IH; rewrite <- app_assoc; [reflexivity | exact Hnd].
Qed.

Lemma Set_new_NoDup_id (l : list string) : NoDup l -> Set_new l = l.
Proof. intros Hnd. unfold Set_new. now rewrite Set_fold_fresh. Qed.

Lemma Map_set_fresh (V : Type) (k : string) (v : V) (m : Map V) :
  ~ In k (Map_keys m) -> Map_set k v m = m ++ [(k, v)].
Proof.
  induction m as [| [k' v'] m IH]; simpl; intros Hk; [reflexivity|].
  destruct (String.eqb_spec k' k) as [-> | Hne].
  - exfalso. apply Hk. now left.
  - rewrite IH; [reflexivity|]. intros Hin. apply Hk. now right.
Qed.

Lemma Map_new_NoDup_id (V : Type) (es : list (string * V)) :
  NoDup (map fst es) -> Map_new es = es.
Proof.
  induction es as [| [k v] es IH] using rev_ind; intros Hnd; [reflexivity|].
  rewrite map_app in Hnd. simpl in Hnd.
  rewrite JSFacts.Map_new_snoc, IH by (now apply NoDup_app_remove_r in Hnd).
  apply Map_set_fresh. unfold Map_keys.
  apply NoDup_remove_2 in Hnd. now rewrite app_nil_r in Hnd.
Qed.

Lemma Map_set_length (V : Type) (k : string) (v : V) (m : Map V) :
  length m <= length (Map_set k v m) <= S (length m) /\ Map_set k v m <> [].
Proof.
  induction m as [| [k' v'] m [IH _]]; simpl.
  - split; [lia | discriminate].
  - destruct (k' =? k)%string; simpl; split; try lia; discriminate.
Qed.

Lemma Map_new_length (V : Type) (es : list (string * V)) :
  length (Map_new es) <= length es /\ (Map_new es = [] -> es = []).
Proof.
  induction es as [| [k v] es [IH _]] using rev_ind; [split; auto|].
  rewrite JSFacts.Map_new_snoc, length_app. simpl.
  pose proof (Map_set_length V k v (Map_new es)) as [Hlen Hne].
  split; [lia | intros H; contradiction].
Qed.

End DedupFacts.

Section DedupProperties.

Context `{Sv : Services}.
Variable variant : Variant.

Lemma uniqueGrants_distinct (allGrants : list GrantInfo) :
  NoDup (map name allGrants) -> uniqueGrants allGrants = allGrants.
Proof.
  intros Hnd. unfold uniqueGrants, JS.Map_values.
  rewrite DedupFacts.Map_new_NoDup_id by (now rewrite map_map).
  rewrite map_map. simpl. apply map_id.
Qed.

(** X3. Removing duplicates twice is removing them once, for the grants
    and for the URLs: the output of the aggregation is a fixed point of
    it. *)
Theorem deduplication_is_idempotent (allGrants : list GrantInfo) (urls : list string) :
  uniqueGrants (uniqueGrants allGrants) = uniqueGrants allGrants /\
  JS.Set_new (JS.Set_new urls) = JS.Set_new urls.
Proof.
  split.
  - apply uniqueGrants_distinct. rewrite uniqueGrants_names. apply JSFacts.Set_new_NoDup.
  - apply DedupFacts.Set_new_NoDup_id, JSFacts.Set_new_NoDup.
Qed.

(** X4. When no two grants pushed by the iterations share a name, the
    result of [researchAgricultureGrants] has exactly the pushed grants,
    in the order in which they were pushed; likewise for the URLs. *)
Theorem distinct_grants_are_all_returned
    (query : string) (farmType location : option string) (numQueries : option Z)
    (onProgress : option Callback) (model : Model) (firecrawlKey : option string)
    (s s' : State) (r : GrantResearchResult) :
  researchAgricultureGrants variant query farmType location numQueries onProgress
    model firecrawlKey s = (s', Ok r) ->
  let n := match numQueries with Some n => n | None => defaultNumQueries variant end in
  exists s0 serpQueries,
    generateGrantQueries query farmType location (Some n) onProgress model s =
      (s0, Ok serpQueries) /\
    let its := iterations variant onProgress model firecrawlKey serpQueries s0 in
    (NoDup (map name (pushedGrants its)) -> grants r = pushedGrants its) /\
    (NoDup (pushedUrls its) -> visitedUrls r = pushedUrls its).
Proof.
  intros Hrun n.
  destruct (researchAgricultureGrants_returned variant _ _ _ _ _ _ _ _ _ _ Hrun)
    as (s0 & serpQueries & Hgen & Hr).
  exists s0, serpQueries. split; [exact Hgen|]. simpl in *. subst r. simpl. split.
  - apply uniqueGrants_distinct.
  - apply DedupFacts.Set_new_NoDup_id.
Qed.

(** X5. Deduplication drops copies only: the result has no more grants
    than were pushed, and it has no grant exactly when none was pushed,
    so the branch of the route for zero grants is taken exactly when no
    iteration pushed a grant. *)
Theorem result_is_empty_only_if_nothing_was_pushed
    (query : string) (farmType location : option string) (numQueries : option Z)
    (onProgress : option Callback) (model : Model) (firecrawlKey : option string)
    (s s' : State) (r : GrantResearchResult) :
  researchAgricultureGrants variant query farmType location numQueries onProgress
    model firecrawlKey s = (s', Ok r) ->
  let n := match numQueries with Some n => n | None => defaultNumQueries variant end in
  exists s0 serpQueries,
    generateGrantQueries query farmType location (Some n) onProgress model s =
      (s0, Ok serpQueries) /\
    let its := iterations variant onProgress model firecrawlKey serpQueries s0 in
    length (grants r) <= length (pushedGrants its) /\
    ((length (grants r) =? 0)%nat = true <-> pushedGrants its = []).
Proof.
  intros Hrun n.
  destruct (researchAgricultureGrants_returned variant _ _ _ _ _ _ _ _ _ _ Hrun)
    as (s0 & serpQueries & Hgen & Hr).
  exists s0, serpQueries. split; [exact Hgen|]. simpl in *. subst r. simpl.
  set (all := pushedGrants _).
  pose proof (DedupFacts.Map_new_length _ (map (fun grant => (name grant, grant)) all))
    as [Hlen Hempty].
  unfold uniqueGrants, JS.Map_values. rewrite length_map in *. split; [exact Hlen|].
  rewrite Nat.eqb_eq. split.
  - intros Hzero. apply length_zero_iff_nil in Hzero. apply Hempty in Hzero.
    now apply map_eq_nil in Hzero.
  - intros ->. reflexivity.
Qed.

End DedupProperties.

(** ** The calls of [writeGrantReport] *)

Section ReportCalls.

Context `{Sv : Services}.

Lemma callKinds_app (evs1 evs2 : list Event) :
  callKinds (evs1 ++ evs2) = callKinds evs1 ++ callKinds evs2.
Proof. apply flat_map_app. Qed.

Lemma templateTask_calls (farmDetails : string) (model : Model) (grant : GrantInfo)
    (s : State) :
  exists options,
    events (fst (templateTask farmDetails model grant s)) =
      events s ++ [GenerateObject TemplateSchema options] /\
    prompt options = templatePrompt grant farmDetails.
Proof.
  unfold templateTask, generateGrantTemplate, bind, grantResearchPrompt,
    call_generateObject, external.
  destruct (generateObject TemplateSchema model _ (world s)) as [w [t | e]];
    simpl; eexists; split; reflexivity.
Qed.

(** Every task of the [Promise.all] makes its call, in the order of the
    grants, whether an earlier one failed or not. *)
Lemma templateTasks_calls (farmDetails : string) (model : Model)
    (grants : list GrantInfo) :
  forall s : State,
    exists evs,
      events (fst (Promise_all (map (templateTask farmDetails model) grants) s)) =
        events s ++ evs /\
      callKinds evs =
        map (fun grant => (TemplateSchema, templatePrompt grant farmDetails)) grants.
Proof.
  induction grants as [| grant rest IH]; intros s; simpl.
  - exists []. now rewrite app_nil_r.
  - destruct (templateTask_calls farmDetails model grant s) as (options & Hev & Hprompt).
    destruct (templateTask farmDetails model grant s) as [s1 [t | e]]; simpl in Hev;
      destruct (IH s1) as (evs & Hrest & Hkinds).
    + unfold bind.
      destruct (Promise_all (map (templateTask farmDetails model) rest) s1)
        as [s2 [x | e]]; simpl in Hrest |- *;
        exists (GenerateObject TemplateSchema options :: evs);
        (split; [rewrite Hrest, Hev, <- app_assoc; reflexivity
                | simpl; now rewrite Hkinds, Hprompt]).
    + destruct (Promise_all (map (templateTask farmDetails model) rest) s1)
        as [s2 r]; simpl in Hrest |- *.
      exists (GenerateObject TemplateSchema options :: evs).
      split; [rewrite Hrest, Hev, <- app_assoc; reflexivity
             | simpl; now rewrite Hkinds, Hprompt].
Qed.

(** X6. The template version of [writeGrantReport] asks the model for an
    application template for each of the first three grants, in order,
    and for no other grant; then, if all the templates came, it makes the
    one call for the report, whose prompt holds them.  If a template
    call failed, the report is not asked for and [writeGrantReport]
    rejects with the error of the first grant whose template failed. *)
Theorem templates_are_for_the_first_three_grants
    (query : string) (farmType location : option string)
    (grants : list GrantInfo) (visitedUrls : list string) (model : Model) (s : State) :
  let farmDetails := farmDetailsOf query farmType location in
  let templates :=
    Promise_all (map (templateTask farmDetails model) (JS.slice0 grants 3)) s in
  let run := writeGrantReport query farmType location grants visitedUrls model s in
  exists evs,
    events (fst run) = events s ++ evs /\
    callKinds evs =
      map (fun grant => (TemplateSchema, templatePrompt grant farmDetails))
          (firstn 3 grants) ++
      match snd templates with
      | Ok entries =>
          [(ReportMarkdownSchema,
            templateReportPrompt farmDetails (grantsStringOf grants)
              (JS.join JS.LF (map templateBlock entries)))]
      | Throw _ => []
      end /\
    (forall e, snd templates = Throw e -> run = (fst templates, Throw e)).
Proof.
  intros farmDetails templates run.
  destruct (templateTasks_calls farmDetails model (JS.slice0 grants 3) s)
    as (evs & Hev & Hkinds).
  fold templates in Hev.
  rewrite JSFacts.slice0_firstn in Hkinds by lia. change (Z.to_nat 3) with 3 in Hkinds.
  assert (Hrun :
            run =
            match templates with
            | (s1, Ok entries) =>
                bind grantResearchPrompt
                  (fun system =>
                     bind (call_generateObject ReportMarkdownSchema model
                             (reportOptions system farmDetails (grantsStringOf grants)
                                (JS.join JS.LF (map templateBlock entries))))
                          (fun reportMarkdown =>
                             ret (reportHeader ++ JS.LF ++ JS.LF ++ reportMarkdown ++
                                  urlsSection visitedUrls)%string)) s1
            | (s1, Throw e) => (s1, Throw e)
            end) by reflexivity.
  rewrite Hrun. clear Hrun.
  destruct templates as [s1 [entries | e]]; simpl in Hev |- *.
  - unfold bind, grantResearchPrompt, call_generateObject, external.
    destruct (generateObject ReportMarkdownSchema model _ (world s1)) as [w [md | e]];
      simpl; eexists;
      (split; [rewrite Hev, <- app_assoc; reflexivity|]);
      (split; [rewrite callKinds_app, Hkinds; reflexivity | discriminate]).
  - exists evs. split; [exact Hev|]. split.
    + now rewrite Hkinds, app_nil_r.
    + intros e' [= <-]. reflexivity.
Qed.

End ReportCalls.

(** ** The frames the task writes *)

Section StreamProperties.

Context `{Sv : Services}.
Variable variant : Variant.

Lemma progressOnly_refl (s : State) : progressOnly s s.
Proof. exists []. now rewrite app_nil_r. Qed.

Lemma progressOnly_trans (s1 s2 s3 : State) :
  progressOnly s1 s2 -> progressOnly s2 s3 -> progressOnly s1 s3.
Proof.
  intros [u1 H1] [u2 H2]. exists (u1 ++ u2).
  now rewrite H2, H1, map_app, app_assoc.
Qed.

Lemma progressOnly_outside (s : State) (w : World) (ev : Event) :
  isWriterCall ev = false ->
  progressOnly s {| world := w; events := events s ++ [ev];
                    writer_closed := writer_closed s; chunks := chunks s |}.
Proof. intros _. exists []. simpl. now rewrite app_nil_r. Qed.

Lemma onProgress_progressOnly (update : string) :
  Respects progressOnly (onProgress update).
Proof.
  intros s. unfold onProgress, try_catch, writer_write, console_error, log.
  destruct (writer_closed s); simpl.
  - exists []. simpl. now rewrite app_nil_r.
  - now exists [update].
Qed.

Lemma research_progressOnly query farmType location numQueries model firecrawlKey :
  Respects progressOnly
    (researchAgricultureGrants variant query farmType location numQueries
       (Some onProgress) model firecrawlKey).
Proof.
  apply Respects_researchAgricultureGrants.
  - apply progressOnly_refl.
  - apply progressOnly_trans.
  - apply progressOnly_outside.
  - intros callback [= <-]. apply onProgress_progressOnly.
Qed.

Lemma streamUntouched_refl (s : State) : streamUntouched s s.
Proof. split; reflexivity. Qed.

Lemma streamUntouched_trans (s1 s2 s3 : State) :
  streamUntouched s1 s2 -> streamUntouched s2 s3 -> streamUntouched s1 s3.
Proof. intros [H1 H1'] [H2 H2']. split; congruence. Qed.

Lemma streamUntouched_outside (s : State) (w : World) (ev : Event) :
  isWriterCall ev = false ->
  streamUntouched s {| world := w; events := events s ++ [ev];
                       writer_closed := writer_closed s; chunks := chunks s |}.
Proof. intros _. split; reflexivity. Qed.

Lemma writeReport_streamUntouched query farmType location grants visitedUrls model :
  Respects streamUntouched
    (writeReport variant query farmType location grants visitedUrls model).
Proof.
  apply Respects_writeReport.
  - apply streamUntouched_refl.
  - apply streamUntouched_trans.
  - apply streamUntouched_outside.
Qed.

(** The path of the task on which grants were found: the progress message,
    the report or its failure, one frame for either, and [close]. *)
Lemma researchTask_with_grants
    (query : string) (farmType location : option string) (numQueries : option Z)
    (model : Model) (firecrawlKey : option string)
    (s s1 : State) (r : GrantResearchResult) :
  let n := match numQueries with Some n => n | None => 5%Z end in
  writer_closed s = false ->
  researchAgricultureGrants variant query farmType location (Some n)
    (Some onProgress) model firecrawlKey s = (s1, Ok r) ->
  grants r <> [] ->
  let reported :=
    writeReport variant query farmType location (grants r) (visitedUrls r) model
      (fst (notify (Some onProgress) (reportProgress r) s1)) in
  let run :=
    researchTask variant query farmType location numQueries model firecrawlKey s in
  snd run = Ok tt /\
  writer_closed (fst run) = true /\
  chunks (fst run) =
    chunks s1 ++
    [progressFrame (reportProgress r);
     match snd reported with
     | Ok report => doneFrame report
     | Throw e => errorFrame e
     end].
Proof.
  intros n Hopen Hrun Hsome reported run.
  pose proof (research_writerKept variant query farmType location (Some n) model
                firecrawlKey s) as [Hkept _].
  rewrite Hrun, Hopen in Hkept. simpl in Hkept.
  assert (Hlen : (length (grants r) =? 0)%nat = false).
  { destruct (grants r); [congruence | reflexivity]. }
  assert (Hnotify :
            notify (Some onProgress) (reportProgress r) s1 =
            ({| world := world s1;
                events := (events s1 ++ [OnProgress (reportProgress r)]) ++
                          [WriterWrite (progressFrame (reportProgress r))];
                writer_closed := false;
                chunks := chunks s1 ++ [progressFrame (reportProgress r)] |}, Ok tt)).
  { unfold notify, bind, log. now rewrite onProgress_open by exact Hkept. }
  assert (Hbody :
            researchAndReport variant query farmType location n model firecrawlKey s =
            match reported with
            | (s3, Ok finalReport) =>
                bind (writer_write (doneFrame finalReport))
                  (fun _ =>
                     bind (console_log
                             (JS.LF ++ "✅ [GRANT RESEARCH ROUTE] === Request Completed ===")%string)
                          (fun _ =>
                             console_log
                               ("Found " ++ JS.string_of_nat (length (grants r)) ++
                                " grants")%string)) s3
            | (s3, Throw e) => (s3, Throw e)
            end).
  { unfold researchAndReport. unfold bind at 1. rewrite Hrun, Hlen.
    fold (reportProgress r). unfold bind at 1. subst reported.
    rewrite Hnotify. reflexivity. }
  subst run. unfold researchTask. fold n. unfold try_finally, try_catch.
  rewrite Hbody. clear Hbody.
  pose proof (writeReport_streamUntouched query farmType location (grants r)
                (visitedUrls r) model
                (fst (notify (Some onProgress) (reportProgress r) s1)))
    as [Hchunks Hwriter].
  fold reported in Hchunks, Hwriter. rewrite Hnotify in Hchunks, Hwriter.
  simpl in Hchunks, Hwriter.
  destruct reported as [s3 [finalReport | e]]; simpl in Hchunks, Hwriter |- *.
  - unfold bind, writer_write, console_log, log, writer_close. rewrite Hwriter.
    simpl. rewrite Hchunks, <- app_assoc. auto.
  - unfold reportFailure, bind, console_error, log, writer_write, writer_close.
    simpl. rewrite Hwriter. simpl. rewrite Hchunks, <- app_assoc. auto.
Qed.

(** The report the route sends is never a falsy value. *)
Lemma writeReport_truthy query farmType location grants visitedUrls model
    (s s' : State) (report : JsonValue) :
  writeReport variant query farmType location grants visitedUrls model s =
    (s', Ok report) ->
  Page.truthyValue (Some report) = true.
Proof.
  unfold writeReport. destruct variant.
  - unfold bind, ret.
    destruct (writeGrantReport_structured _ _ _ _ _ _ s) as [s1 [r | e]];
      intros [= _ <-]; reflexivity.
  - unfold writeGrantReport, bind, ret.
    destruct (Promise_all _ s) as [s1 [templates | e1]]; [| discriminate].
    destruct (grantResearchPrompt s1) as [s2 [system | e2]]; [| discriminate].
    destruct (call_generateObject _ _ _ s2) as [s3 [markdown | e3]];
      intros [= _ <-]; reflexivity.
Qed.

(** X7. From an open writer, whatever the services do, the task writes
    progress frames and then exactly one last frame, which carries a
    report that is no falsy value or an error, and leaves the writer
    closed. *)
Theorem stream_is_progress_then_one_final_frame
    (query : string) (farmType location : option string) (numQueries : option Z)
    (model : Model) (firecrawlKey : option string) (s : State) :
  writer_closed s = false ->
  let run :=
    researchTask variant query farmType location numQueries model firecrawlKey s in
  exists updates final,
    chunks (fst run) = chunks s ++ map progressFrame updates ++ [final] /\
    ((exists report,
        final = doneFrame report /\ Page.truthyValue (Some report) = true) \/
     (exists e, final = errorFrame e)) /\
    writer_closed (fst run) = true.
Proof.
  intros Hopen run.
  set (n := match numQueries with Some n => n | None => 5%Z end).
  pose proof (research_progressOnly query farmType location (Some n) model
                firecrawlKey s) as [updates Hupdates].
  destruct (researchAgricultureGrants variant query farmType location (Some n)
              (Some onProgress) model firecrawlKey s) as [s1 [r | e]] eqn:Hrun;
    simpl in Hupdates.
  - destruct (grants r) as [| g rest] eqn:Hgrants.
    + subst run.
      rewrite (researchTask_without_grants variant query farmType location numQueries
                 model firecrawlKey s s1 r Hopen Hrun Hgrants).
      exists (updates ++ [noGrantsProgress]), (doneFrame (JString noGrantsReport)).
      simpl. split; [| split; [left; eauto | reflexivity]].
      rewrite Hupdates, map_app, <- !app_assoc. reflexivity.
    + assert (Hsome : grants r <> []) by (rewrite Hgrants; discriminate).
      destruct (researchTask_with_grants query farmType location numQueries model
                  firecrawlKey s s1 r Hopen Hrun Hsome) as (_ & Hclosed & Hchunks).
      fold run in Hclosed, Hchunks.
      exists (updates ++ [reportProgress r]).
      eexists. split; [| split; [| exact Hclosed]].
      * rewrite Hchunks, Hupdates, map_app, <- !app_assoc. reflexivity.
      * destruct (writeReport variant query farmType location (grants r)
                    (visitedUrls r) model _) as [s3 [report | e]] eqn:Hreport;
          [left | right]; simpl; eauto using writeReport_truthy.
  - subst run.
    rewrite (researchTask_failure variant query farmType location numQueries model
               firecrawlKey s s1 e Hopen Hrun).
    exists updates, (errorFrame e). simpl.
    split; [| split; [right; eauto | reflexivity]].
    rewrite Hupdates, <- app_assoc. reflexivity.
Qed.

(** X8. A failure of the pipeline reaches the client as one error frame
    with the text of the error, and the task itself ends normally: both
    when [researchAgricultureGrants] rejects and when grants were found
    and [writeGrantReport] rejects; then no [done] frame is written. *)
Theorem pipeline_failure_is_sent_as_error_frame
    (query : string) (farmType location : option string) (numQueries : option Z)
    (model : Model) (firecrawlKey : option string) (s s1 : State) (e : JS.Error) :
  let n := match numQueries with Some n => n | None => 5%Z end in
  let research :=
    researchAgricultureGrants variant query farmType location (Some n)
      (Some onProgress) model firecrawlKey s in
  let run :=
    researchTask variant query farmType location numQueries model firecrawlKey s in
  writer_closed s = false ->
  (research = (s1, Throw e) \/
   exists r s3,
     research = (s1, Ok r) /\ grants r <> [] /\
     writeReport variant query farmType location (grants r) (visitedUrls r) model
       (fst (notify (Some onProgress) (reportProgress r) s1)) = (s3, Throw e)) ->
  snd run = Ok tt /\
  exists sent,
    chunks (fst run) = chunks s1 ++ sent ++ [errorFrame e] /\
    (sent = [] \/ exists r, sent = [progressFrame (reportProgress r)]).
Proof.
  intros n research run Hopen [Hrun | (r & s3 & Hrun & Hsome & Hreport)].
  - subst run research.
    rewrite (researchTask_failure variant query farmType location numQueries model
               firecrawlKey s s1 e Hopen Hrun).
    split; [reflexivity|]. exists []. split; [reflexivity | now left].
  - destruct (researchTask_with_grants query farmType location numQueries model
                firecrawlKey s s1 r Hopen Hrun Hsome) as (Hok & _ & Hchunks).
    rewrite Hreport in Hchunks. simpl in Hchunks.
    split; [exact Hok|]. exists [progressFrame (reportProgress r)].
    split; [exact Hchunks | right; eauto].
Qed.

(** X9. When grants were found and the report is written, the task sends
    the progress message that counts the grants and then a [done] frame
    with the report [writeGrantReport] returned, and ends normally. *)
Theorem report_is_sent_in_the_done_frame
    (query : string) (farmType location : option string) (numQueries : option Z)
    (model : Model) (firecrawlKey : option string)
    (s s1 s3 : State) (r : GrantResearchResult) (report : JsonValue) :
  let n := match numQueries with Some n => n | None => 5%Z end in
  let run :=
    researchTask variant query farmType location numQueries model firecrawlKey s in
  writer_closed s = false ->
  researchAgricultureGrants variant query farmType location (Some n)
    (Some onProgress) model firecrawlKey s = (s1, Ok r) ->
  grants r <> [] ->
  writeReport variant query farmType location (grants r) (visitedUrls r) model
    (fst (notify (Some onProgress) (reportProgress r) s1)) = (s3, Ok report) ->
  snd run = Ok tt /\
  chunks (fst run) =
    chunks s1 ++
    [sseFrame [("progress",
                JString ("Generating comprehensive report for " ++
                         JS.string_of_nat (length (grants r)) ++ " grants..."))];
     sseFrame [("done", JBool true); ("report", report)]].
Proof.
  intros n run Hopen Hrun Hsome Hreport.
  destruct (researchTask_with_grants query farmType location numQueries model
              firecrawlKey s s1 r Hopen Hrun Hsome) as (Hok & _ & Hchunks).
  rewrite Hreport in Hchunks. split; [exact Hok | exact Hchunks].
Qed.

End StreamProperties.

(** ** The handler *)

Section HandlerProperties.

Context `{Sv : Services}.
Variable variant : Variant.
Variable createModel : string -> option string -> Outcome Model.

(** X10. A request whose body can be read is refused with status 401
    exactly when [NEXT_PUBLIC_ENABLE_API_KEYS] is the text [true] and one
    of the two key cookies is absent or empty; then no task is started.
    With any other value of the variable a request without keys goes on. *)
Theorem keys_are_required_only_when_enabled
    (req : Request) (flag : option string) (body : RequestBody.t) :
  json req = Ok body ->
  (POST variant createModel req flag =
     (ResponseJson [("error", JString "API keys are required but not provided")] 401,
      None)
   <->
   flag = Some "true" /\
   (JS.truthy (cookie req "openai-key") = false \/
    JS.truthy (cookie req "firecrawl-key") = false)).
Proof.
  intros Hbody. unfold POST. rewrite Hbody.
  destruct flag as [flag |]; simpl.
  - destruct (String.eqb_spec flag "true") as [-> | Hflag]; simpl.
    + destruct (JS.truthy (cookie req "openai-key")); simpl.
      * destruct (JS.truthy (cookie req "firecrawl-key")); simpl.
        -- destruct (createModel _ _); split;
             try discriminate; intros [_ [H | H]]; discriminate.
        -- split; auto.
      * split; auto.
    + destruct (createModel _ _); split;
        try discriminate; intros [[= H] _]; congruence.
  - destruct (createModel _ _); split;
      try discriminate; intros [[=] _].
Qed.

(** X11. Every answer of the handler is of one of four kinds.  A stream
    is answered together with a started task, and only when the body was
    read and [createModel] made a model from the model id of the body, or
    [o3-mini], and the key cookie; the task is [researchTask] on the
    fields of the body.  Every other answer is a JSON object with one
    [error] field and status 400, 401 or 500, and starts no task. *)
Theorem handler_streams_only_with_a_model (req : Request) (flag : option string) :
  match POST variant createModel req flag with
  | (ResponseStream headers, Some task) =>
      headers = streamHeaders /\
      exists body model,
        json req = Ok body /\
        createModel
          match RequestBody.modelId body with Some id => id | None => "o3-mini" end
          (cookie req "openai-key") = Ok model /\
        task =
          researchTask variant (interpolate (RequestBody.query body))
            (RequestBody.farmType body) (RequestBody.location body)
            (RequestBody.numQueries body) model (cookie req "firecrawl-key")
  | (ResponseJson body status, None) =>
      exists message,
        body = [("error", JString message)] /\
        ((status = 400 /\
          exists err, json req = Throw err /\
            message = ("Error processing request: " ++ JS.Error_toString err)%string) \/
         (status = 401 /\ message = "API keys are required but not provided") \/
         (status = 500 /\
          exists err, message = ("Error creating model: " ++ JS.Error_toString err)%string))
  | _ => False
  end.
Proof.
  unfold POST.
  destruct (json req) as [body | err]; [| eauto 10].
  destruct (_ && _); [eauto 10|].
  destruct (createModel _ _) as [model | err] eqn:Hmodel; [| eauto 10].
  split; [reflexivity|]. exists body, model. auto.
Qed.

End HandlerProperties.

(** ** The results page *)

Module PageFacts.

Import Page.

Lemma append_nil_r (s : string) : (s ++ EmptyString)%string = s.
Proof. induction s as [| c s IH]; simpl; [reflexivity | now rewrite IH]. Qed.

Lemma append_assoc (s1 s2 s3 : string) :
  ((s1 ++ s2) ++ s3)%string = (s1 ++ s2 ++ s3)%string.
Proof. induction s1 as [| c s1 IH]; simpl; [reflexivity | now rewrite IH]. Qed.

Lemma noLineFeed_app (s1 s2 : string) :
  noLineFeed (s1 ++ s2) = noLineFeed s1 && noLineFeed s2.
Proof.
  induction s1 as [| c s1 IH]; simpl; [reflexivity|].
  now rewrite IH, andb_assoc.
Qed.

(** A piece without line feed, closed by two line feeds, is cut off. *)
Lemma splitFrom_frame (payload piece rest : string) :
  noLineFeed payload = true ->
  splitFrom piece (payload ++ JS.LF ++ JS.LF ++ rest) =
  (piece ++ payload)%string :: splitFrom EmptyString rest.
Proof.
  revert piece. induction payload as [| c payload IH]; intros piece Hno.
  - simpl. now rewrite append_nil_r.
  - simpl in Hno. apply andb_true_iff in Hno as [Hc Hno].
    apply negb_true_iff in Hc.
    change (String c payload ++ JS.LF ++ JS.LF ++ rest)%string
      with (String c (payload ++ JS.LF ++ JS.LF ++ rest)).
    specialize (IH (piece ++ String c EmptyString)%string Hno).
    rewrite append_assoc in IH.
    change (String c EmptyString ++ payload)%string with (String c payload) in IH.
    remember (payload ++ JS.LF ++ JS.LF ++ rest)%string as tail eqn:Htail.
    destruct tail as [| c' rest'].
    + destruct payload; discriminate Htail.
    + cbn [splitFrom]. rewrite Hc. cbn [andb]. exact IH.
Qed.

Lemma stripPrefix_app (pattern rest : string) :
  stripPrefix pattern (pattern ++ rest) = Some rest.
Proof.
  induction pattern as [| c pattern IH]; simpl; [reflexivity|].
  now rewrite Ascii.eqb_refl.
Qed.

End PageFacts.

Section PageProperties.

Context `{Sv : Services}.

Import Page.

Lemma concat_cons (frame : string) (frames : list string) :
  String.concat EmptyString (frame :: frames) =
  (frame ++ String.concat EmptyString frames)%string.
Proof.
  destruct frames; simpl; [now rewrite PageFacts.append_nil_r | reflexivity].
Qed.

Lemma splitBlankLines_frames (objs : list JsonObject) :
  (forall obj, In obj objs -> noLineFeed (JSON_stringify obj) = true) ->
  splitBlankLines (concatenated (map sseFrame objs)) =
  map (fun obj => ("data: " ++ JSON_stringify obj)%string) objs ++ [EmptyString].
Proof.
  unfold splitBlankLines.
  induction objs as [| obj objs IH]; intros Hno; [reflexivity|].
  cbn [map]. rewrite concat_cons.
  assert (Hframe :
            (sseFrame obj ++ concatenated (map sseFrame objs))%string =
            (("data: " ++ JSON_stringify obj) ++ JS.LF ++ JS.LF ++
             concatenated (map sseFrame objs))%string).
  { unfold sseFrame. now rewrite !PageFacts.append_assoc. }
  rewrite Hframe, PageFacts.splitFrom_frame.
  - cbn [app]. f_equal. apply IH. intros o Ho. apply Hno. now right.
  - rewrite PageFacts.noLineFeed_app. rewrite Hno by now left. reflexivity.
Qed.

Lemma unframed (objs : list JsonObject) :
  map (replaceFirst "data: " EmptyString)
    (filter (fun line => negb (isBlank line))
       (map (fun obj => ("data: " ++ JSON_stringify obj)%string) objs)) =
  map JSON_stringify objs.
Proof.
  induction objs as [| obj objs IH]; [reflexivity|].
  cbn [map filter].
  change (isBlank ("data: " ++ JSON_stringify obj)) with false.
  cbn [negb map]. rewrite IH. reflexivity.
Qed.

Lemma linesOf_frames (objs : list JsonObject) :
  (forall obj, In obj objs -> noLineFeed (JSON_stringify obj) = true) ->
  linesOf (concatenated (map sseFrame objs)) = map JSON_stringify objs.
Proof.
  intros Hno. unfold linesOf. rewrite (splitBlankLines_frames objs Hno).
  rewrite filter_app, map_app.
  change (filter (fun line => negb (isBlank line)) [EmptyString]) with (@nil string).
  cbn [map]. rewrite app_nil_r. apply unframed.
Qed.

(** X12. What the route frames, the page unframes: however the frames
    of the route are grouped into chunks of whole frames, the lines the
    page cuts the chunks into are the texts [JSON.stringify] produced, in
    order and with nothing added or lost, when none of these texts holds
    a line feed. *)
Theorem frames_decode_to_their_payloads (groups : list (list JsonObject)) :
  (forall obj, In obj (concat groups) -> noLineFeed (JSON_stringify obj) = true) ->
  flat_map linesOf (map (fun group => concatenated (map sseFrame group)) groups) =
  map JSON_stringify (concat groups).
Proof.
  induction groups as [| group groups IH]; intros Hno; [reflexivity|].
  cbn [map flat_map concat]. rewrite map_app.
  rewrite linesOf_frames, IH.
  - reflexivity.
  - intros obj Hobj. apply Hno. cbn [concat]. apply in_or_app. now right.
  - intros obj Hobj. apply Hno. cbn [concat]. apply in_or_app. now left.
Qed.

Variable JSON_parse : string -> Outcome JsonObject.

Lemma handleChunk_frames (objs : list JsonObject) (st : PageState) :
  parseBack JSON_parse objs ->
  handleChunk JSON_parse st (concatenated (map sseFrame objs)) =
  fold_left (fun st obj => handleData obj st) objs st.
Proof.
  intros Hback. unfold handleChunk.
  rewrite linesOf_frames by (intros obj Hobj; apply Hback, Hobj).
  revert st. induction objs as [| obj objs IH]; intros st; [reflexivity|].
  cbn [map fold_left]. unfold handleLine at 2.
  rewrite (proj2 (Hback obj (or_introl eq_refl))).
  apply IH. intros o Ho. apply Hback. now right.
Qed.

Lemma readChunks_frames (groups : list (list JsonObject)) (st : PageState) :
  parseBack JSON_parse (concat groups) ->
  readChunks JSON_parse
    (map (fun group => concatenated (map sseFrame group)) groups) st =
  fold_left (fun st obj => handleData obj st) (concat groups) st.
Proof.
  unfold readChunks. revert st.
  induction groups as [| group groups IH]; intros st Hback; [reflexivity|].
  cbn [map fold_left concat]. rewrite fold_left_app, handleChunk_frames.
  - apply IH. intros o Ho. apply Hback. cbn [concat]. apply in_or_app. now right.
  - intros o Ho. apply Hback. cbn [concat]. apply in_or_app. now left.
Qed.

Lemma last_cons {A : Type} (x d : A) (l : list A) : last (x :: l) d = last l x.
Proof.
  revert x d. induction l as [| y l IH]; intros x d; [reflexivity|].
  change (last (x :: y :: l) d) with (last (y :: l) d).
  now rewrite !IH.
Qed.

(** Progress messages change the progress text and nothing else. *)
Lemma progress_messages (updates : list string) (st : PageState) :
  fold_left (fun st obj => handleData obj st)
    (map (fun update => [("progress", JString update)]) updates) st =
  {| isLoading := isLoading st;
     progress :=
       last (map JString (filter (fun update => negb (update =? EmptyString)%string)
                            updates))
            (progress st);
     report := report st;
     toasts := toasts st;
     logged := logged st |}.
Proof.
  revert st. induction updates as [| update updates IH]; intros st.
  - destruct st; reflexivity.
  - cbn [map fold_left filter]. rewrite IH. clear IH.
    unfold handleData. cbn.
    destruct (update =? EmptyString)%string; cbn [negb map].
    + reflexivity.
    + rewrite last_cons. reflexivity.
Qed.

(** X13. Reading a stream of whole frames that parse back, progress
    messages and then a [done] message whose report is no falsy value,
    [runGrantResearch] leaves the page not loading, with that report, the
    last progress text that is not empty and no toast or log entry
    added, however the frames are grouped into chunks. *)
Theorem page_shows_the_report
    (groups : list (list JsonObject)) (updates : list string)
    (finalReport : JsonValue) (st : PageState) :
  parseBack JSON_parse (concat groups) ->
  concat groups =
    map (fun update => [("progress", JString update)]) updates ++
    [[("done", JBool true); ("report", finalReport)]] ->
  truthyValue (Some finalReport) = true ->
  let st' :=
    runGrantResearch JSON_parse
      (FetchResponded true
         (Some (map (fun group => concatenated (map sseFrame group)) groups, None)))
      st in
  isLoading st' = false /\
  report st' = Some finalReport /\
  progress st' =
    last (map JString (filter (fun update => negb (update =? EmptyString)%string)
                         updates))
         (JString "Starting grant research...") /\
  toasts st' = toasts st /\
  logged st' = logged st.
Proof.
  intros Hback Hobjs Htruthy st'. subst st'. unfold runGrantResearch.
  rewrite readChunks_frames by exact Hback.
  rewrite Hobjs, fold_left_app, progress_messages.
  cbn [fold_left]. unfold handleData. cbn -[truthyValue last].
  rewrite Htruthy. cbn -[last]. auto.
Qed.

(** X14. Reading a stream of whole frames that parse back, progress
    messages and then the error message of the route, [runGrantResearch]
    leaves the page not loading, with one toast added that shows the
    text of the error, and with the report it had. *)
Theorem page_shows_the_error
    (groups : list (list JsonObject)) (updates : list string)
    (e : JS.Error) (st : PageState) :
  parseBack JSON_parse (concat groups) ->
  concat groups =
    map (fun update => [("progress", JString update)]) updates ++
    [[("error", JString ("Error in grant research: " ++ JS.Error_toString e))]] ->
  let st' :=
    runGrantResearch JSON_parse
      (FetchResponded true
         (Some (map (fun group => concatenated (map sseFrame group)) groups, None)))
      st in
  isLoading st' = false /\
  report st' = report st /\
  toasts st' =
    toasts st ++
    [{| title := "Error";
        description := JString ("Error in grant research: " ++ JS.Error_toString e);
        variant := "destructive" |}] /\
  logged st' = logged st.
Proof.
  intros Hback Hobjs st'. subst st'. unfold runGrantResearch.
  rewrite readChunks_frames by exact Hback.
  rewrite Hobjs, fold_left_app, progress_messages.
  cbn [fold_left]. unfold handleData. cbn -[last]. auto.
Qed.

Lemma handleData_isLoading (data : JsonObject) (st : PageState) :
  isLoading (handleData data st) = isLoading st && negb (endsLoading data).
Proof.
  unfold handleData, endsLoading.
  destruct (field "progress" data) as [update |];
    [destruct (truthyValue (Some update)) |];
    destruct (truthyValue (field "done" data) && truthyValue (field "report" data));
    (destruct (field "error" data) as [message |];
     [destruct (truthyValue (Some message)) |]);
    cbn; now rewrite ?andb_true_r, ?andb_false_r.
Qed.

Lemma handleLine_isLoading (line : string) (st : PageState) :
  isLoading (handleLine JSON_parse st line) =
  isLoading st && negb (lineEndsLoading JSON_parse line).
Proof.
  unfold handleLine, lineEndsLoading.
  destruct (JSON_parse line) as [data | e].
  - apply handleData_isLoading.
  - cbn. now rewrite andb_true_r.
Qed.

Lemma readChunks_isLoading (chunks : list string) (st : PageState) :
  isLoading (readChunks JSON_parse chunks st) =
  isLoading st &&
  forallb (fun line => negb (lineEndsLoading JSON_parse line)) (flat_map linesOf chunks).
Proof.
  unfold readChunks. revert st.
  induction chunks as [| chunk chunks IH]; intros st.
  - cbn. now rewrite andb_true_r.
  - cbn [fold_left flat_map]. rewrite IH, forallb_app, andb_assoc. f_equal.
    unfold handleChunk. clear IH. revert st.
    induction (linesOf chunk) as [| line lines IH]; intros st.
    + cbn. now rewrite andb_true_r.
    + cbn [fold_left forallb]. now rewrite IH, handleLine_isLoading, andb_assoc.
Qed.

(** X15. After [runGrantResearch] the page is still loading exactly when
    the response was ok and either had no body or was read to its end
    without failure and none of its lines parsed to a message that ends
    loading: a [done] with a report that is no falsy value, or an error
    that is none.  A stream that ends without such a message leaves the
    page loading for good. *)
Theorem page_stays_loading_without_a_last_message (fetched : Fetched) (st : PageState) :
  isLoading (runGrantResearch JSON_parse fetched st) =
  match fetched with
  | FetchResponded true None => true
  | FetchResponded true (Some (chunks, None)) =>
      forallb (fun line => negb (lineEndsLoading JSON_parse line))
        (flat_map linesOf chunks)
  | _ => false
  end.
Proof.
  unfold runGrantResearch.
  destruct fetched as [e | [|] [[chunks [e |]] |]]; try reflexivity.
  apply readChunks_isLoading.
Qed.

End PageProperties.

(** ** The order of the grants on the page *)

Module SortFacts.

Import QArith.QArith_base Lqa.
Import Page.

Lemma compareGrants_ranks (a b : Grant) :
  Qle_bool (compareGrants a b) 0 = true <-> ranksBefore a b.
Proof.
  unfold compareGrants, ranksBefore. rewrite Qle_bool_iff.
  destruct (Qeq_bool (eligibilityCount a) (eligibilityCount b)) eqn:Hcount; cbn [negb].
  - apply Qeq_bool_iff in Hcount. split; [intros H; right | intros [H | [_ H]]]; 
      try split; lra.
  - apply Qeq_bool_neq in Hcount. split; [intros H; left | intros [H | [H _]]]; lra.
Qed.

Lemma ranksBefore_total (a b : Grant) : ~ ranksBefore a b -> ranksBefore b a.
Proof.
  unfold ranksBefore. intros H.
  destruct (Qlt_le_dec (eligibilityCount a) (eligibilityCount b)) as [Hlt | Hle];
    [now left|].
  destruct (Qlt_le_dec (eligibilityCount b) (eligibilityCount a)) as [Hlt | Hle'];
    [exfalso; apply H; now left|].
  right. split; [lra|].
  destruct (Qlt_le_dec (relevanceScore b) (relevanceScore a)) as [Hs | Hs]; [lra|].
  destruct (Qlt_le_dec (relevanceScore a) (relevanceScore b)) as [Hs' | Hs']; [lra|].
  exfalso. apply H. right. split; lra.
Qed.

Lemma ranksBefore_trans (a b c : Grant) :
  ranksBefore a b -> ranksBefore b c -> ranksBefore a c.
Proof.
  unfold ranksBefore. intros [H1 | [H1 H1']] [H2 | [H2 H2']].
  - left; lra.
  - left; lra.
  - left; lra.
  - right; split; lra.
Qed.

Lemma insertBy_Permutation (x : Grant) (l : list Grant) :
  Permutation.Permutation (x :: l) (insertBy compareGrants x l).
Proof.
  induction l as [| y l IH]; cbn [insertBy]; [apply Permutation.Permutation_refl|].
  destruct (Qle_bool (compareGrants x y) 0); [apply Permutation.Permutation_refl|].
  eapply Permutation.perm_trans; [apply Permutation.perm_swap|].
  now apply Permutation.perm_skip.
Qed.

Lemma insertBy_In (x y : Grant) (l : list Grant) :
  In y (insertBy compareGrants x l) -> y = x \/ In y l.
Proof.
  intros H.
  apply (Permutation.Permutation_in y
           (Permutation.Permutation_sym (insertBy_Permutation x l))) in H.
  destruct H as [<- | H]; auto.
Qed.

Lemma insertBy_sorted (x : Grant) (l : list Grant) :
  Sorted.StronglySorted ranksBefore l ->
  Sorted.StronglySorted ranksBefore (insertBy compareGrants x l).
Proof.
  induction 1 as [| y l Hsorted IH Hall]; cbn [insertBy].
  - constructor; constructor.
  - destruct (Qle_bool (compareGrants x y) 0) eqn:Hle.
    + apply compareGrants_ranks in Hle.
      constructor; [constructor; assumption|].
      constructor; [exact Hle|].
      rewrite Forall_forall in Hall |- *. intros z Hz.
      eapply ranksBefore_trans; [exact Hle | now apply Hall].
    + assert (Hyx : ranksBefore y x).
      { apply ranksBefore_total. intros H. apply compareGrants_ranks in H. congruence. }
      constructor; [exact IH|].
      rewrite Forall_forall in Hall |- *. intros z Hz.
      apply insertBy_In in Hz as [-> | Hz]; [exact Hyx | now apply Hall].
Qed.

Lemma insertBy_filter (count score : Q) (x : Grant) (l : list Grant) :
  filter (hasRank count score) (insertBy compareGrants x l) =
  filter (hasRank count score) (x :: l).
Proof.
  induction l as [| y l IH]; cbn [insertBy]; [reflexivity|].
  destruct (Qle_bool (compareGrants x y) 0) eqn:Hle; [reflexivity|].
  cbn [filter] in IH |- *. rewrite IH.
  destruct (hasRank count score x) eqn:Hx; [| reflexivity].
  destruct (hasRank count score y) eqn:Hy; [| reflexivity].
  exfalso. unfold hasRank in Hx, Hy.
  apply andb_true_iff in Hx as [Hx Hx'], Hy as [Hy Hy'].
  apply Qeq_bool_iff in Hx, Hx', Hy, Hy'.
  assert (H : ranksBefore x y) by (right; split; lra).
  apply compareGrants_ranks in H. congruence.
Qed.

End SortFacts.

Section SortProperties.

Import Page.

(** X16. The page shows the grants of the report, each as often as the
    report has it, ordered by the number of requirements met, most
    first, and among grants with the same number by relevance score,
    highest first. *)
Theorem grants_are_shown_by_eligibility_then_score (grantOpportunities : list Grant) :
  Permutation.Permutation grantOpportunities (sortedGrants grantOpportunities) /\
  Sorted.StronglySorted ranksBefore (sortedGrants grantOpportunities).
Proof.
  unfold sortedGrants. split.
  - induction grantOpportunities as [| x l IH]; cbn [sortBy]; [constructor|].
    eapply Permutation.perm_trans; [| apply SortFacts.insertBy_Permutation].
    now apply Permutation.perm_skip.
  - induction grantOpportunities as [| x l IH]; cbn [sortBy]; [constructor|].
    now apply SortFacts.insertBy_sorted.
Qed.

(** X17. Grants with the same number of requirements met and the same
    relevance score are shown in the order the report has them. *)
Theorem grants_of_equal_rank_keep_their_order
    (count score : QArith_base.Q) (grantOpportunities : list Grant) :
  filter (hasRank count score) (sortedGrants grantOpportunities) =
  filter (hasRank count score) grantOpportunities.
Proof.
  unfold sortedGrants.
  induction grantOpportunities as [| x l IH]; cbn [sortBy]; [reflexivity|].
  rewrite SortFacts.insertBy_filter. cbn [filter]. now rewrite IH.
Qed.

End SortProperties.

(** ** The further properties on scripted runs *)

Module Runs.

Import Scenario.

#[local] Existing Instance services.

Lemma research_calls_follow_queries_witness :
  @ProgressEmitter services progress /\
  generateOn failingScript 5 =
    (fst (generateOn failingScript 5),
     Ok ["usda grants oregon"; "state grants"; "eqip"]) /\
  exists s' r evs perQuery,
    researchOn failingScript 5 = (s', Ok r) /\
    events s' = events (fst (generateOn failingScript 5)) ++ evs /\
    serviceCalls evs = concat perQuery /\
    Forall2 (iterationCalls (searchParams Template))
      ["usda grants oregon"; "state grants"; "eqip"] perQuery /\
    searchCalls evs =
      map (fun serpQuery => FirecrawlSearch serpQuery (searchParams Template))
          ["usda grants oregon"; "state grants"; "eqip"] /\
    length (modelCalls evs) <= 3.
Proof.
  pose proof (@onProgress_emitter services) as Hcb.
  assert (Hgen : generateOn failingScript 5 =
                 (fst (generateOn failingScript 5),
                  Ok ["usda grants oregon"; "state grants"; "eqip"]))
    by (vm_compute; reflexivity).
  split; [exact Hcb|]. split; [exact Hgen|].
  exact (@research_calls_follow_queries services Template farm farmType location
           (Some 5%Z) (Some progress) tt None (start failingScript) _ _ Hcb Hgen).
Defined.

Lemma query_generation_failure_is_fatal_witness :
  @ProgressEmitter Outage.noQueries (@onProgress Outage.noQueries) /\
  @generateObject Outage.noQueries QueriesSchema tt
    (queriesOptions (grantResearchPromptAt "2025-03-01T12:00:00.000Z")
       farm farmType location 5)
    duplicateScript = (duplicateScript, Throw Outage.modelDown) /\
  exists s' evs,
    Outage.researchWith Outage.noQueries = (s', Throw Outage.modelDown) /\
    events s' = [] ++ evs /\
    serviceCalls evs =
      [GenerateObject QueriesSchema
         (queriesOptions (grantResearchPromptAt "2025-03-01T12:00:00.000Z")
            farm farmType location 5)].
Proof.
  pose proof (@onProgress_emitter Outage.noQueries) as Hcb.
  split; [exact Hcb|]. split; [reflexivity|].
  exact (@query_generation_failure_is_fatal Outage.noQueries Template farm farmType
           location (Some 5%Z) (Some (@onProgress Outage.noQueries)) tt None
           (@initialState Outage.noQueries duplicateScript)
           duplicateScript Outage.modelDown Hcb eq_refl).
Defined.

Lemma distinct_grants_are_all_returned_witness :
  researchOn failingScript 5 =
    (fst (researchOn failingScript 5),
     Ok {| grants := [vapgFirst; eqip];
           visitedUrls := ["https://www.rd.usda.gov/vapg"] |}) /\
  exists s0 serpQueries,
    generateOn failingScript 5 = (s0, Ok serpQueries) /\
    (NoDup (map name (pushedGrants (iterationsOn serpQueries s0))) ->
     [vapgFirst; eqip] = pushedGrants (iterationsOn serpQueries s0)) /\
    (NoDup (pushedUrls (iterationsOn serpQueries s0)) ->
     ["https://www.rd.usda.gov/vapg"] = pushedUrls (iterationsOn serpQueries s0)).
Proof.
  assert (Hrun : researchOn failingScript 5 =
                 (fst (researchOn failingScript 5),
                  Ok {| grants := [vapgFirst; eqip];
                        visitedUrls := ["https://www.rd.usda.gov/vapg"] |}))
    by (vm_compute; reflexivity).
  split; [exact Hrun|].
  exact (@distinct_grants_are_all_returned services Template farm farmType location
           (Some 5%Z) (Some progress) tt None (start failingScript) _ _ Hrun).
Defined.

Lemma result_is_empty_only_if_nothing_was_pushed_witness :
  researchOn noTextScript 5 =
    (fst (researchOn noTextScript 5), Ok {| grants := []; visitedUrls := [] |}) /\
  exists s0 serpQueries,
    generateOn noTextScript 5 = (s0, Ok serpQueries) /\
    0 <= length (pushedGrants (iterationsOn serpQueries s0)) /\
    (true = true <-> pushedGrants (iterationsOn serpQueries s0) = []).
Proof.
  assert (Hrun : researchOn noTextScript 5 =
                 (fst (researchOn noTextScript 5),
                  Ok {| grants := []; visitedUrls := [] |}))
    by (vm_compute; reflexivity).
  split; [exact Hrun|].
  exact (@result_is_empty_only_if_nothing_was_pushed services Template farm farmType
           location (Some 5%Z) (Some progress) tt None (start noTextScript) _ _ Hrun).
Defined.

Lemma stream_is_progress_then_one_final_frame_witness :
  writer_closed (start duplicateScript) = false /\
  exists updates final,
    chunks (fst (taskOn duplicateScript)) =
      [] ++ map progressFrame updates ++ [final] /\
    ((exists report,
        final = doneFrame report /\ Page.truthyValue (Some report) = true) \/
     (exists e, final = errorFrame e)) /\
    writer_closed (fst (taskOn duplicateScript)) = true.
Proof.
  split; [reflexivity|].
  exact (@stream_is_progress_then_one_final_frame services Template farm farmType
           location None tt None (start duplicateScript) eq_refl).
Defined.

Lemma pipeline_failure_is_sent_as_error_frame_witness :
  Outage.researchWith Outage.noReport =
    (fst (Outage.researchWith Outage.noReport),
     Ok {| grants := [vapgSecond]; visitedUrls := reportUrls |}) /\
  snd (Outage.taskWith Outage.noReport) = Ok tt /\
  exists sent,
    chunks (fst (Outage.taskWith Outage.noReport)) =
      chunks (fst (Outage.researchWith Outage.noReport)) ++ sent ++
      [@errorFrame Outage.noReport Outage.modelDown] /\
    (sent = [] \/
     exists r, sent = [@progressFrame Outage.noReport (reportProgress r)]).
Proof.
  assert (Hrun : Outage.researchWith Outage.noReport =
                 (fst (Outage.researchWith Outage.noReport),
                  Ok {| grants := [vapgSecond]; visitedUrls := reportUrls |}))
    by (vm_compute; reflexivity).
  split; [exact Hrun|].
  refine (@pipeline_failure_is_sent_as_error_frame Outage.noReport Template farm
            farmType location None tt None
            (@initialState Outage.noReport duplicateScript)
            (fst (Outage.researchWith Outage.noReport)) Outage.modelDown
            eq_refl (or_intror _)).
  exists {| grants := [vapgSecond]; visitedUrls := reportUrls |}.
  eexists. split; [exact Hrun|]. split; [discriminate|].
  vm_compute. reflexivity.
Defined.

Lemma report_is_sent_in_the_done_frame_witness :
  researchOn duplicateScript 5 =
    (fst (researchOn duplicateScript 5),
     Ok {| grants := [vapgSecond]; visitedUrls := reportUrls |}) /\
  snd (taskOn duplicateScript) = Ok tt /\
  chunks (fst (taskOn duplicateScript)) =
    chunks (fst (researchOn duplicateScript 5)) ++
    [sseFrame [("progress", JString "Generating comprehensive report for 1 grants...")];
     sseFrame
       [("done", JBool true);
        ("report",
         JString (reportHeader ++ JS.LF ++ JS.LF ++ "## Executive Summary" ++
                  urlsSection reportUrls))]].
Proof.
  assert (Hrun : researchOn duplicateScript 5 =
                 (fst (researchOn duplicateScript 5),
                  Ok {| grants := [vapgSecond]; visitedUrls := reportUrls |}))
    by (vm_compute; reflexivity).
  split; [exact Hrun|].
  refine (@report_is_sent_in_the_done_frame services Template farm farmType location
            None tt None (start duplicateScript) _ _
            {| grants := [vapgSecond]; visitedUrls := reportUrls |}
            (JString (reportHeader ++ JS.LF ++ JS.LF ++ "## Executive Summary" ++
                      urlsSection reportUrls))
            eq_refl Hrun _ _).
  - discriminate.
  - vm_compute. reflexivity.
Defined.

Lemma keys_are_required_only_when_enabled_witness :
  json Visit.request = Ok Visit.body /\
  (@POST services Template Visit.createModel Visit.request (Some "true") =
     (ResponseJson [("error", JString "API keys are required but not provided")] 401,
      None)
   <->
   Some "true" = Some "true" /\
   (JS.truthy (cookie Visit.request "openai-key") = false \/
    JS.truthy (cookie Visit.request "firecrawl-key") = false)).
Proof.
  split; [reflexivity|].
  exact (@keys_are_required_only_when_enabled services Template Visit.createModel
           Visit.request (Some "true") Visit.body eq_refl).
Defined.

Lemma frames_decode_to_their_payloads_witness :
  (forall obj, In obj (concat [[Visit.searching]; [Visit.found; Visit.finished]]) ->
     Page.noLineFeed (JSON_stringify obj) = true) /\
  flat_map Page.linesOf
    (map (fun group => String.concat EmptyString (map sseFrame group))
       [[Visit.searching]; [Visit.found; Visit.finished]]) =
  map JSON_stringify (concat [[Visit.searching]; [Visit.found; Visit.finished]]).
Proof.
  assert (Hno : forall obj,
                  In obj (concat [[Visit.searching]; [Visit.found; Visit.finished]]) ->
                  Page.noLineFeed (JSON_stringify obj) = true).
  { intros obj [<- | [<- | [<- | []]]]; reflexivity. }
  split; [exact Hno|].
  exact (@frames_decode_to_their_payloads services
           [[Visit.searching]; [Visit.found; Visit.finished]] Hno).
Defined.

Lemma page_shows_the_report_witness :
  @parseBack services Visit.parse
    (concat [[Visit.searching]; [Visit.found; Visit.finished]]) /\
  let st' :=
    Page.runGrantResearch Visit.parse
      (Page.FetchResponded true
         (Some (map (fun group => String.concat EmptyString (map sseFrame group))
                  [[Visit.searching]; [Visit.found; Visit.finished]],
                None)))
      Visit.mounted in
  Page.isLoading st' = false /\
  Page.report st' = Some (JString "# Agricultural Grant Opportunities Report") /\
  Page.progress st' = JString "Found 2 potential grant resources" /\
  Page.toasts st' = [] /\
  Page.logged st' = [].
Proof.
  assert (Hback : @parseBack services Visit.parse
                    (concat [[Visit.searching]; [Visit.found; Visit.finished]])).
  { intros obj [<- | [<- | [<- | []]]]; split; reflexivity. }
  split; [exact Hback|].
  exact (@page_shows_the_report services Visit.parse
           [[Visit.searching]; [Visit.found; Visit.finished]]
           ["Researching agricultural grants"; "Found 2 potential grant resources"]
           (JString "# Agricultural Grant Opportunities Report") Visit.mounted
           Hback eq_refl eq_refl).
Defined.

Lemma page_shows_the_error_witness :
  @parseBack services Visit.parse (concat [[Visit.searching; Visit.failed]]) /\
  let st' :=
    Page.runGrantResearch Visit.parse
      (Page.FetchResponded true
         (Some (map (fun group => String.concat EmptyString (map sseFrame group))
                  [[Visit.searching; Visit.failed]],
                None)))
      Visit.mounted in
  Page.isLoading st' = false /\
  Page.report st' = None /\
  Page.toasts st' =
    [{| Page.title := "Error";
        Page.description :=
          JString "Error in grant research: Error: network down";
        Page.variant := "destructive" |}] /\
  Page.logged st' = [].
Proof.
  assert (Hback : @parseBack services Visit.parse
                    (concat [[Visit.searching; Visit.failed]])).
  { intros obj [<- | [<- | []]]; split; reflexivity. }
  split; [exact Hback|].
  exact (@page_shows_the_error services Visit.parse
           [[Visit.searching; Visit.failed]]
           ["Researching agricultural grants"] networkError Visit.mounted
           Hback eq_refl).
Defined.

End Runs.
